(** * GitHub analytics: date-range merge, classification and work partitioning

    A shallow embedding of the parts of
    [db_manager.py], [github_stats_data.py], [github_stats_analysis.py] and
    [producer-consumer/producer.py] that decide how dataset snapshots are
    merged and loaded, how repositories are classified and ranked, and how
    the day window is split among consumers.

    Python objects that the code mutates and passes by reference (the
    snapshot dicts and the per-repository record dicts) live in an explicit
    store; the functions are written in a small state-and-exception monad
    over that store, one monadic step per Python statement. *)

From Stdlib Require Import ZArith String Ascii List Bool Lia Floats.
From stdpp Require Import base option list gmap.
Import ListNotations.

Local Open Scope string_scope.
Local Open Scope Z_scope.

(** ** Python values used by the date-range code *)

(** A date endpoint is a [str] or [None] (a worker's snapshot carries
    [[start_date_str, None]] until it is saved). *)
Definition PyDate := option string.

(** A date range [[start, end]]: a two-element list or tuple. *)
Definition DateRange := (PyDate * PyDate)%type.

(** The exceptions the modelled code can raise. *)
Inductive exn :=
| TypeError    (* ordering comparison or max() involving None *)
| IndexError   (* [0] on an empty list *)
| KeyError     (* a dict that lacks the key that is read *)
| ValueError   (* max() of an empty list *)
| ZeroDivisionError
| OverflowError.  (* an int or a quotient of ints too large for a float *)

Inductive Res (A : Type) :=
| Ok (a : A)
| Raise (e : exn).
Arguments Ok {A} a.
Arguments Raise {A} e.

#[global] Instance res_ret : MRet Res := fun A a => Ok a.
#[global] Instance res_bind : MBind Res := fun A B k r =>
  match r with
  | Ok a => k a
  | Raise e => Raise e
  end.

(** A list comprehension [[f(x) for x in l]]: every element is evaluated,
    left to right; the first exception aborts the whole comprehension. *)
Fixpoint comprehension {A B} (f : A -> Res B) (l : list A) : Res (list B) :=
  match l with
  | [] => Ok []
  | x :: l' =>
      y ← f x;
      ys ← comprehension f l';
      Ok (y :: ys)
  end.

(** [a <= b] on [str | None]: lexicographic on two strings, [TypeError]
    as soon as one side is [None]. *)
Definition py_le (a b : PyDate) : Res bool :=
  match a, b with
  | Some x, Some y => Ok (String.leb x y)
  | _, _ => Raise TypeError
  end.

(** [a > b] on strings. *)
Definition str_gt (a b : string) : bool := String.ltb b a.

(** The chained comparison [a <= b <= c]: [a <= b and b <= c], the second
    comparison only evaluated when the first holds. *)
Definition py_le_chain (a b c : PyDate) : Res bool :=
  x ← py_le a b;
  if x : bool then py_le b c else Ok false.

(** [max(pair)] on a two-element range: always compares the two elements. *)
Definition max_pair (dr : DateRange) : Res string :=
  match dr with
  | (Some a, Some b) => Ok (if str_gt b a then b else a)
  | _ => Raise TypeError
  end.

(** [max(l)] on a list of strings. *)
Definition max_list (l : list string) : Res string :=
  match l with
  | [] => Raise ValueError
  | x :: l' => Ok (fold_left (fun m y => if str_gt y m then y else m) l' x)
  end.

(** A Python value as returned by [is_date_range_valid]: the [and] returns
    its left operand when that is falsy. *)
Inductive PyVal :=
| PyNone
| PyStr (s : string)
| PyBool (b : bool).

Definition truthy (v : PyVal) : bool :=
  match v with
  | PyNone => false
  | PyStr s => negb (String.eqb s EmptyString)
  | PyBool b => b
  end.

(** ** Records *)

Definition loc := nat.

(** One repository's record, [repos[repo_owner_name]]. *)
Record RepoRecord := mkRepoRecord {
  r_dateRange : list DateRange;
  totalCommitsInDateRange : Z;
  totalRepoCommits : Z;
  isTDD : bool;
  isDevOps : bool;
  languages : list (string * Z)   (* language name -> fileSize, insertion order *)
}.

(** Field updates of a record dict. *)
Definition with_r_dateRange (v : list DateRange) (r : RepoRecord) : RepoRecord :=
  mkRepoRecord v (totalCommitsInDateRange r) (totalRepoCommits r) (isTDD r) (isDevOps r) (languages r).
Definition with_totalCommitsInDateRange (v : Z) (r : RepoRecord) : RepoRecord :=
  mkRepoRecord (r_dateRange r) v (totalRepoCommits r) (isTDD r) (isDevOps r) (languages r).
Definition with_totalRepoCommits (v : Z) (r : RepoRecord) : RepoRecord :=
  mkRepoRecord (r_dateRange r) (totalCommitsInDateRange r) v (isTDD r) (isDevOps r) (languages r).
Definition with_isTDD (v : bool) (r : RepoRecord) : RepoRecord :=
  mkRepoRecord (r_dateRange r) (totalCommitsInDateRange r) (totalRepoCommits r) v (isDevOps r) (languages r).
Definition with_isDevOps (v : bool) (r : RepoRecord) : RepoRecord :=
  mkRepoRecord (r_dateRange r) (totalCommitsInDateRange r) (totalRepoCommits r) (isTDD r) v (languages r).
Definition with_languages (v : list (string * Z)) (r : RepoRecord) : RepoRecord :=
  mkRepoRecord (r_dateRange r) (totalCommitsInDateRange r) (totalRepoCommits r) (isTDD r) (isDevOps r) v.

(** A dict with string keys, in insertion order. *)
Fixpoint dict_get {V} (k : string) (d : list (string * V)) : option V :=
  match d with
  | [] => None
  | (k', v) :: d' => if String.eqb k k' then Some v else dict_get k d'
  end.

(** [d[k] = v]: overwrite in place, or append a new key. *)
Fixpoint dict_set {V} (k : string) (v : V) (d : list (string * V)) : list (string * V) :=
  match d with
  | [] => [(k, v)]
  | (k', v') :: d' =>
      if String.eqb k k' then (k', v) :: d' else (k', v') :: dict_set k v d'
  end.

Definition dict_keys {V} (d : list (string * V)) : list string := map fst d.

(** ** [db_manager.py]: DatabaseManager *)

Module DatabaseManager.

(** A dataset snapshot, [repo_stats_dict]: [repos] maps a repository key to
    the record object stored under it (a reference). *)
Record Snapshot := mkSnapshot {
  dateRange : list DateRange;
  totalRepoCount : Z;
  repos : list (string * loc)
}.

(** The dict objects of the store. Record dicts are stored by reference
    (line 160) and are objects of their own. The range lists and the
    inner [repos] and [languages] dicts are only ever reached and updated
    through the dict that holds them, and [merge_formatted_stats_data]
    never stores a reference to one of them elsewhere, so they are kept
    inside their owner; a single range and a single language entry are
    never updated in place and are kept by value. *)
Inductive obj :=
| OEmpty                 (* dict() *)
| OSnap (s : Snapshot)
| ORec (r : RepoRecord).

Abbreviation heap := (gmap loc obj).

(** An argument or result of the merge: [None] or a reference to a dict. *)
Inductive PyRef :=
| RNone
| RLoc (l : loc).

(** State and exceptions: an exception keeps the store as it was when it
    was raised (mutations made before it stay visible to the caller). *)
Definition M (A : Type) : Type := heap -> Res A * heap.

#[global] Instance M_ret : MRet M := fun A a h => (Ok a, h).
#[global] Instance M_bind : MBind M := fun A B k m h =>
  match m h with
  | (Ok a, h') => k a h'
  | (Raise e, h') => (Raise e, h')
  end.

Definition raise {A} (e : exn) : M A := fun h => (Raise e, h).
Definition lift {A} (r : Res A) : M A := fun h => (r, h).

Definition obj_at (l : loc) : M obj := fun h =>
  match h !! l with
  | Some o => (Ok o, h)
  | None => (Raise KeyError, h)
  end.

(** Reading a snapshot key ([dateRange], [totalRepoCount], [repos]) of the
    dict at [l]; a dict of another shape lacks the key. *)
Definition snap_at (l : loc) : M Snapshot := fun h =>
  match h !! l with
  | Some (OSnap s) => (Ok s, h)
  | _ => (Raise KeyError, h)
  end.

Definition rec_at (l : loc) : M RepoRecord := fun h =>
  match h !! l with
  | Some (ORec r) => (Ok r, h)
  | _ => (Raise KeyError, h)
  end.

Definition store (l : loc) (o : obj) : M unit := fun h => (Ok tt, <[l := o]> h).

Fixpoint for_each {A} (body : A -> M unit) (l : list A) : M unit :=
  match l with
  | [] => mret tt
  | x :: l' => _ ← body x; for_each body l'
  end.

(** Field updates. *)
Definition with_totalRepoCount (v : Z) (s : Snapshot) : Snapshot :=
  mkSnapshot (dateRange s) v (repos s).
Definition with_dateRange (v : list DateRange) (s : Snapshot) : Snapshot :=
  mkSnapshot v (totalRepoCount s) (repos s).
Definition with_repos (v : list (string * loc)) (s : Snapshot) : Snapshot :=
  mkSnapshot (dateRange s) (totalRepoCount s) v.

(** *** [is_date_range_valid] (lines 128-139) *)

(** One element of the comprehension:
    [new[1] <= date_range[0] <= new[0] or new[1] <= date_range[1] <= new[0]]. *)
Definition endpoint_within (new_dates_arr date_range : DateRange) : Res bool :=
  a ← py_le_chain (snd new_dates_arr) (fst date_range) (fst new_dates_arr);
  if a : bool then Ok true
  else py_le_chain (snd new_dates_arr) (snd date_range) (fst new_dates_arr).

(** [new[1] and not any([...])]: a falsy [new[1]] is returned as it is and
    nothing else is evaluated. *)
Definition is_date_range_valid (existing_dates_arr : list DateRange)
    (new_dates_arr : DateRange) : Res PyVal :=
  match snd new_dates_arr with
  | None => Ok PyNone
  | Some s =>
      if String.eqb s EmptyString then Ok (PyStr s)
      else
        hits ← comprehension (endpoint_within new_dates_arr) existing_dates_arr;
        Ok (PyBool (negb (existsb id hits)))
  end.

(** [all([is_date_range_valid(existing, date_range) for date_range in new])]. *)
Definition all_valid (existing new : list DateRange) : Res bool :=
  vs ← comprehension (is_date_range_valid existing) new;
  Ok (forallb truthy vs).

(** *** [merge_formatted_stats_data] (lines 141-185) *)

(** [existing_data['repos'][repo_name]] and [new_data['repos'][repo_name]]. *)
Definition repo_ref (l : loc) (repo_name : string) : M loc :=
  s ← snap_at l;
  match dict_get repo_name (repos s) with
  | Some r => mret r
  | None => raise KeyError
  end.

(** Lines 177-179: [max(new[0]) > max([max(dr) for dr in existing])], read
    after line 166 has extended the existing list. *)
Definition is_more_current (re rn : loc) : M bool :=
  rN ← rec_at rn;
  newest ← match r_dateRange rN with
            | [] => raise IndexError
            | dr :: _ => lift (max_pair dr)
            end;
  rE ← rec_at re;
  ms ← lift (comprehension max_pair (r_dateRange rE));
  m ← lift (max_list ms);
  mret (str_gt newest m).

(** Lines 182-184, one language. *)
Definition copy_language (re rn : loc) (language : string) : M unit :=
  rN ← rec_at rn;
  match dict_get language (languages rN) with
  | None => raise KeyError
  | Some size =>
      rE ← rec_at re;
      store re (ORec (with_languages (dict_set language size (languages rE)) rE))
  end.

(** Lines 162-184: the repository is already known. *)
Definition update_repo (re rn : loc) : M unit :=
  (* 162-164 *)
  ok ← (rN ← rec_at rn; rE ← rec_at re;
        lift (all_valid (r_dateRange rE) (r_dateRange rN)));
  if ok : bool then
    (* 166 *)
    _ ← (rE ← rec_at re; rN ← rec_at rn;
         store re (ORec (with_r_dateRange (r_dateRange rE ++ r_dateRange rN) rE)));
    (* 167-168 *)
    _ ← (rE ← rec_at re; rN ← rec_at rn;
         store re (ORec (with_totalCommitsInDateRange
                           (totalCommitsInDateRange rE + totalCommitsInDateRange rN) rE)));
    (* 169-171 *)
    _ ← (rE ← rec_at re; rN ← rec_at rn;
         store re (ORec (with_isTDD (isTDD rE || isTDD rN) rE)));
    (* 172-174 *)
    _ ← (rE ← rec_at re; rN ← rec_at rn;
         store re (ORec (with_isDevOps (isDevOps rE || isDevOps rN) rE)));
    (* 177-184 *)
    newer ← is_more_current re rn;
    if newer : bool then
      _ ← (rN ← rec_at rn; rE ← rec_at re;
           store re (ORec (with_totalRepoCommits (totalRepoCommits rN) rE)));
      rN ← rec_at rn;
      for_each (copy_language re rn) (dict_keys (languages rN))
    else mret tt
  else mret tt.

(** Lines 158-184: the body of the loop over [new_data['repos']]. *)
Definition merge_repo (e n : loc) (repo_name : string) : M unit :=
  se ← snap_at e;
  match dict_get repo_name (repos se) with
  | None =>
      (* 160 *)
      rn ← repo_ref n repo_name;
      se ← snap_at e;
      store e (OSnap (with_repos (dict_set repo_name rn (repos se)) se))
  | Some _ =>
      re ← repo_ref e repo_name;
      rn ← repo_ref n repo_name;
      update_repo re rn
  end.

Definition merge_formatted_stats_data (existing_data new_data : PyRef) : M PyRef :=
  (* 149: not existing_data or len(existing_data) == 0 *)
  nonempty ← match existing_data with
              | RNone => mret None
              | RLoc e => o ← obj_at e;
                          match o with OEmpty => mret None | _ => mret (Some e) end
              end;
  match nonempty with
  | None => mret new_data
  | Some e =>
      n ← match new_data with RNone => raise TypeError | RLoc n => mret n end;
      (* 151-152 *)
      ok ← (sn ← snap_at n; se ← snap_at e;
            lift (all_valid (dateRange se) (dateRange sn)));
      if ok : bool then
        (* 153 *)
        _ ← (se ← snap_at e; sn ← snap_at n;
             store e (OSnap (with_totalRepoCount (totalRepoCount se + totalRepoCount sn) se)));
        (* 154 *)
        _ ← (se ← snap_at e;
             store e (OSnap (with_dateRange (dateRange se ++ dateRange se) se)));
        (* 157-184 *)
        sn ← snap_at n;
        _ ← for_each (merge_repo e n) (dict_keys (repos sn));
        (* 185 *)
        mret (RLoc e)
      else
        (* no branch is left: the function ends without a return statement *)
        mret RNone
  end.

End DatabaseManager.

(** ** [github_stats_data.py]: GitHubStatsData *)

Module GitHubStatsData.

Definition TDD_STR_MATCHES : list string :=
  ["TDD"; "BDD"; "TEST-DRIVEN"; "BEHAVIOR-DRIVEN"; "UNIT TEST"; "TEST-"; "CODE COV"].

Definition DEVOPS_STR_MATCHES : list string :=
  ["DEVOPS"; "CI"; "CI/CD"; "CD"; "CONTINUOUS INTEGRATION"; "CONTINUOUS DE"; "ACTIONS"; "IAC";
   "IAAS"; "PAAS"; "KUBERNETES"; "ANSIBLE"; "TERRAFORM"; "AUTOMA"; ".YML"].

(** A [str] is kept as the bytes of its UTF-8 encoding. Equality, the
    order of two strings and the search for an ASCII keyword are the same
    on the bytes as on the code points, and so is the comparison of
    [s[:10]] with a date that [strftime] has written. *)

(** ASCII text, and what [str.upper()] makes of it. *)
Fixpoint is_ascii (s : string) : bool :=
  match s with
  | EmptyString => true
  | String c s' => (nat_of_ascii c <? 128)%nat && is_ascii s'
  end.

Definition upper_ascii (c : ascii) : ascii :=
  let n := nat_of_ascii c in
  if ((97 <=? n) && (n <=? 122))%nat then ascii_of_nat (n - 32) else c.

Fixpoint ascii_upper (s : string) : string :=
  match s with
  | EmptyString => EmptyString
  | String c s' => String (upper_ascii c) (ascii_upper s')
  end.

(** All that is assumed of [str.upper()], where a theorem needs the upper
    case of a text: on ASCII text it is [ascii_upper]. *)
Definition upper_on_ascii (upper : string -> string) : Prop :=
  forall s, is_ascii s = true -> upper s = ascii_upper s.

(** [t_str in s]: substring test. *)
Fixpoint contains (t_str s : string) : bool :=
  String.prefix t_str s ||
  match s with
  | EmptyString => false
  | String _ s' => contains t_str s'
  end.

(** The worker's own snapshot, [self.repo_stats_data]. Every record dict is
    created by the worker itself (line 227) and referenced from nowhere
    else, so the records are kept by value under their key. *)
Record StatsData := mkStatsData {
  dateRange : list DateRange;
  totalRepoCount : Z;
  repos : list (string * RepoRecord)
}.

(** The keys of the top-level dict, as [__init__] creates it (lines 91-93). *)
Definition stats_data_keys : list string := ["dateRange"; "totalRepoCount"; "repos"].

(** [self.repo_stats_data['repos'][repo_owner_name]]. *)
Definition repo_record (repo_owner_name : string) (d : StatsData) : Res RepoRecord :=
  match dict_get repo_owner_name (repos d) with
  | Some r => Ok r
  | None => Raise KeyError
  end.

Definition set_repo_record (repo_owner_name : string) (r : RepoRecord) (d : StatsData) : StatsData :=
  mkStatsData (dateRange d) (totalRepoCount d) (dict_set repo_owner_name r (repos d)).

(** [defaultBranchRef.target] of a node: the commit at the head of the
    default branch. *)
Record Commit := mkCommit {
  committedDate : string;
  historyTotalCount : Z               (* history.totalCount *)
}.

(** One [node] of [data.search.edges] of a repository page. A repository
    without a default branch has [defaultBranchRef: null]. *)
Record RepoNode := mkRepoNode {
  nameWithOwner : string;
  defaultBranchRef : option Commit;
  languageEdges : list (string * Z);  (* (node.name, size) *)
  repositoryTopics : list string      (* node.topic.name of every edge *)
}.

(** The worker: its snapshot and the calls it has made to
    [fetch_repo_commit_and_actions_data], as (repository, is_workflow). *)
Record Worker := mkWorker {
  repo_stats_data : StatsData;
  fetches : list (string * bool)
}.

Section Text.

(** [str.upper()]: the upper case of a text under Python's Unicode case
    mapping. It is a parameter of everything that reads evidence. *)
Variable upper : string -> string.

(** [any([any([t_str in element.upper() for t_str in keywords])
         for element in fetched_data])].
    A topic edge is represented by its [node.topic.name], the only part
    of it that the code reads. *)
Definition any_key_word (keywords fetched_data : list string) : bool :=
  existsb (fun data_element =>
             existsb (fun t_str => contains t_str (upper data_element)) keywords)
          fetched_data.

(** Lines 161-171. [is_topic] only selects where the text of an element
    is read from. *)
Definition search_fetched_data_for_tdd_key_words (repo_owner_name : string)
    (fetched_data : list string) (is_topic : bool) (d : StatsData) : Res StatsData :=
  r ← repo_record repo_owner_name d;
  if negb (isTDD r) then
    if any_key_word TDD_STR_MATCHES fetched_data then
      r ← repo_record repo_owner_name d;
      Ok (set_repo_record repo_owner_name (with_isTDD true r) d)
    else Ok d
  else Ok d.

(** Lines 173-186. [DEVOPS_STR_MATCHES[:-1]] drops the last keyword. *)
Definition search_fetched_data_for_devop_key_words (repo_owner_name : string)
    (fetched_data : list string) (is_topic is_workflow : bool) (d : StatsData) : Res StatsData :=
  r ← repo_record repo_owner_name d;
  if isTDD r && negb (isDevOps r) then
    if any_key_word (if is_workflow then removelast DEVOPS_STR_MATCHES else DEVOPS_STR_MATCHES)
                    fetched_data then
      r ← repo_record repo_owner_name d;
      Ok (set_repo_record repo_owner_name (with_isDevOps true r) d)
    else Ok d
  else Ok d.

Section Collection.

(** [self.start_date_str] and [self.get_date_str(self.num_days_fetch)]. *)
Variable start_date_str : string.
Variable end_date : string.

(** The repository data source behind [fetch_repo_commit_and_actions_data]
    (repository, date_str, end_date, is_workflow): commit messages, or
    workflow file names. Within [format_fetched_repo_data_for_stat_analysis]
    the page response is OK and not rate limited, so the call returns the
    result of its query. *)
Variable fetch_repo_commit_and_actions_data : string -> string -> string -> bool -> list string.

(** Lines 242-244. *)
Definition add_languages (repo_owner_name : string) (edges : list (string * Z))
    (d : StatsData) : Res StatsData :=
  foldl (fun acc language =>
           d ← acc;
           r ← repo_record repo_owner_name d;
           Ok (set_repo_record repo_owner_name
                 (with_languages (dict_set (fst language) (snd language) (languages r)) r) d))
        (Ok d) edges.

(** Lines 211-267: the body of the loop over the page's edges. *)
Definition format_repo (fetch_date_str : string) (repo_data : RepoNode) (w : Worker) : Res Worker :=
  let repo_owner_name := nameWithOwner repo_data in
  (* 214: the membership test reads the keys of [self.repo_stats_data] *)
  if negb (existsb (String.eqb repo_owner_name) stats_data_keys) then
    (* 215: [repo_data['defaultBranchRef']['target']] *)
    match defaultBranchRef repo_data with
    | None => Raise TypeError
    | Some target =>
        if String.eqb (substring 0 10 (committedDate target)) fetch_date_str then
          let date_range_commit_data :=
            fetch_repo_commit_and_actions_data repo_owner_name fetch_date_str end_date false in
          let actions_workflow_file_data :=
            fetch_repo_commit_and_actions_data repo_owner_name fetch_date_str end_date true in
          let log := (fetches w ++ [(repo_owner_name, false); (repo_owner_name, true)])%list in
          (* 227-235 *)
          let d := set_repo_record repo_owner_name
                     (mkRepoRecord [(Some start_date_str, Some end_date)]
                                   (Z.of_nat (List.length date_range_commit_data))
                                   (historyTotalCount target)
                                   false false [])
                     (repo_stats_data w) in
          (* 238-239 *)
          match languageEdges repo_data with
          | [] => Ok (mkWorker d log)
          | _ =>
              d ← add_languages repo_owner_name (languageEdges repo_data) d;
              d ← search_fetched_data_for_tdd_key_words repo_owner_name
                    (repositoryTopics repo_data) true d;
              d ← search_fetched_data_for_tdd_key_words repo_owner_name
                    actions_workflow_file_data false d;
              d ← search_fetched_data_for_tdd_key_words repo_owner_name
                    date_range_commit_data false d;
              d ← search_fetched_data_for_devop_key_words repo_owner_name
                    (repositoryTopics repo_data) true false d;
              d ← search_fetched_data_for_devop_key_words repo_owner_name
                    actions_workflow_file_data false true d;
              d ← search_fetched_data_for_devop_key_words repo_owner_name
                    date_range_commit_data false false d;
              Ok (mkWorker d log)
          end
        else Ok w
    end
  else Ok w.

(** Lines 210-267, on the edges of the current page response (the list
    that line 209 reads from it). An exception ends the loop. *)
Definition format_fetched_repo_data_for_stat_analysis (fetch_date_str : string)
    (repos_data_arr : list RepoNode) (w : Worker) : Res Worker :=
  foldl (fun acc repo_data => w ← acc; format_repo fetch_date_str repo_data w)
        (Ok w) repos_data_arr.

End Collection.

End Text.

End GitHubStatsData.

(** ** [producer-consumer/producer.py]: Producer *)

Module Producer.

(** An int where a float is needed ([float * int], [float + int]): the
    nearest binary64 value, ties to even; [OverflowError] when that is not
    finite. *)
Definition float_of_int (z : Z) : Res float :=
  let f := SF2Prim (binary_normalize prec emax z 0 false) in
  if PrimFloat.is_finite f then Ok f else Raise OverflowError.

(** [a / b] on ints, Python 3's true division: the quotient as a float,
    correctly rounded whatever the size of the ints ([q] carries at least
    55 bits of the quotient and [sticky] tells whether anything was cut
    off); [ZeroDivisionError] for [b = 0], [OverflowError] when the
    quotient is too large for a float; [0 / b] has the sign of the
    quotient. *)
Definition true_div (a b : Z) : Res float :=
  if b =? 0 then Raise ZeroDivisionError
  else
    let negate := xorb (a <? 0) (b <? 0) in
    let k := Z.max 0 (Z.log2 (Z.abs b) - Z.log2 (Z.abs a) + 56) in
    let q := (Z.abs a * 2 ^ k) / Z.abs b in
    let sticky := if (Z.abs a * 2 ^ k) mod Z.abs b =? 0 then 0 else 1 in
    let m := 2 * q + sticky in
    let f := SF2Prim (binary_normalize prec emax (if negate then - m else m) (- k - 1) negate) in
    if PrimFloat.is_finite f then Ok f else Raise OverflowError.

Definition float_mul_int (x : float) (z : Z) : Res float :=
  y ← float_of_int z; Ok (PrimFloat.mul x y).

Definition float_add_int (x : float) (z : Z) : Res float :=
  y ← float_of_int z; Ok (PrimFloat.add x y).

(** The arguments of one [GitHubStatsData(...)] call of [publish]:
    [start_date] is [start_date - timedelta(days=start_offset_days)]. A
    date is kept as the number of days it lies before the producer's
    start date. The subtraction itself can only fail for an offset beyond
    the calendar, and no call reaches it with one: the offset of the
    first consumer is zero, for [num_days] other than 0 the first call
    raises, and for [num_days = 0] every offset is zero (lemma
    [consumer_offset_zero]). *)
Record CollectionTask := mkCollectionTask {
  instance_id : Z;
  start_offset_days : float;
  num_days_fetch : float;
  created_before_date : Z
}.

(** [range(n)]. *)
Definition range (n : Z) : list Z := map Z.of_nat (seq 0 (Z.to_nat n)).

(** Lines 44-46 and the arguments of lines 47-52, for one consumer. *)
Definition consumer_args (num_days num_consumers : Z) (consumers_split_num_days : float)
    (consumer_id : Z) : Res CollectionTask :=
  (* 44-45 *)
  days ← float_mul_int consumers_split_num_days consumer_id;
  days ← float_add_int days (Z.min consumer_id (num_days mod num_consumers));
  (* 46 *)
  consumer_split_num_days ←
    float_add_int consumers_split_num_days
                  (if num_days mod num_consumers >? consumer_id then 1 else 0);
  Ok (mkCollectionTask consumer_id days consumer_split_num_days num_days).

(** [GitHubStatsData(...)], [github_stats_data.py] lines 75-96, for the
    arguments [publish] passes. Line 78 keeps a [created_before_date] that
    is truthy, and [RepoFetchGitHubAPI.__init__] concatenates it to a
    string ([github_api_fetch_repo.py] line 83): for an int other than 0
    that is a [TypeError]. For 0 the date [get_date_str(num_days_fetch)]
    takes its place and the instance is built; the instance is kept as
    the arguments it was built from. *)
Definition new_GitHubStatsData (args : CollectionTask) : Res CollectionTask :=
  if created_before_date args =? 0 then Ok args else Raise TypeError.

(** Lines 43-57: the loop; [sent] holds the instances pickled and sent so
    far, oldest first. An exception ends the loop with what has been
    sent. *)
Fixpoint publish_loop (num_days num_consumers : Z) (consumers_split_num_days : float)
    (consumer_ids : list Z) (sent : list CollectionTask) : Res unit * list CollectionTask :=
  match consumer_ids with
  | [] => (Ok tt, sent)
  | consumer_id :: rest =>
      match (args ← consumer_args num_days num_consumers consumers_split_num_days consumer_id;
             new_GitHubStatsData args) with
      | Ok consumer_instance =>
          publish_loop num_days num_consumers consumers_split_num_days rest
                       (sent ++ [consumer_instance])
      | Raise x => (Raise x, sent)
      end
  end.

(** Lines 42-57: how the call ends, and the instances it has sent. *)
Definition publish (num_days num_consumers : Z) : Res unit * list CollectionTask :=
  match true_div num_days num_consumers with
  | Raise x => (Raise x, [])
  | Ok consumers_split_num_days =>
      publish_loop num_days num_consumers consumers_split_num_days (range num_consumers) []
  end.

End Producer.

(** ** Sample documents *)

Module Samples.
Import DatabaseManager.

Definition day (s : string) : PyDate := Some s.

(** Two documents whose top-level ranges overlap
    (2023-05-05 .. 2023-05-07 is in both). *)
Definition overlapping_docs : heap :=
  <[1%nat := OSnap (mkSnapshot [(day "2023-05-10", day "2023-05-05")] 10 [("alice/repo1", 3%nat)])]>
  (<[2%nat := OSnap (mkSnapshot [(day "2023-05-07", day "2023-05-01")] 7 [("bob/repo2", 4%nat)])]>
  (<[3%nat := ORec (mkRepoRecord [(day "2023-05-10", day "2023-05-05")] 3 100 false false [("C", 5)])]>
  (<[4%nat := ORec (mkRepoRecord [(day "2023-05-07", day "2023-05-01")] 2 120 true false [("Go", 1)])]>
  ∅))).

(** The incoming range lies strictly inside the existing one. *)
Definition nested_docs : heap :=
  <[1%nat := OSnap (mkSnapshot [(day "2023-05-10", day "2023-05-01")] 10 [])]>
  (<[2%nat := OSnap (mkSnapshot [(day "2023-05-07", day "2023-05-05")] 7 [])]>
  ∅).

(** Two documents with disjoint top-level ranges; [alice/repo1] is in
    both, seen in 2023-05-10 .. 2023-05-08 with 3 commits and in
    2023-05-07 .. 2023-05-05 with 2 commits. *)
Definition disjoint_docs : heap :=
  <[1%nat := OSnap (mkSnapshot [(day "2023-05-10", day "2023-05-08")] 10 [("alice/repo1", 3%nat)])]>
  (<[2%nat := OSnap (mkSnapshot [(day "2023-05-07", day "2023-05-05")] 7
                      [("alice/repo1", 4%nat); ("bob/repo2", 5%nat)])]>
  (<[3%nat := ORec (mkRepoRecord [(day "2023-05-10", day "2023-05-08")] 3 100 false false [("C", 5)])]>
  (<[4%nat := ORec (mkRepoRecord [(day "2023-05-07", day "2023-05-05")] 2 120 true false [("C", 6); ("Go", 1)])]>
  (<[5%nat := ORec (mkRepoRecord [(day "2023-05-07", day "2023-05-05")] 1 8 false false [])]>
  ∅)))).

(** The store after [merge_formatted_stats_data] on [disjoint_docs]. *)
Definition disjoint_docs_merged : heap :=
  <[1%nat := OSnap (mkSnapshot [(day "2023-05-10", day "2023-05-08"); (day "2023-05-10", day "2023-05-08")]
                      17 [("alice/repo1", 3%nat); ("bob/repo2", 5%nat)])]>
  (<[3%nat := ORec (mkRepoRecord [(day "2023-05-10", day "2023-05-08"); (day "2023-05-07", day "2023-05-05")]
                      5 100 true false [("C", 5)])]>
  disjoint_docs).

(** An unfinished incoming document: the end of its range is still [None]. *)
Definition unfinished_docs : heap :=
  <[1%nat := OSnap (mkSnapshot [(day "2023-05-10", day "2023-05-08")] 10 [])]>
  (<[2%nat := OSnap (mkSnapshot [(day "2023-05-07", None)] 7 [])]>
  ∅).

(** A worker that has already collected [alice/repo1] (with both flags
    set), and a later page of the same day that lists it again. *)
Definition seen_worker : GitHubStatsData.Worker :=
  GitHubStatsData.mkWorker
    (GitHubStatsData.mkStatsData [(day "2023-05-10", None)] 25
       [("alice/repo1",
         mkRepoRecord [(day "2023-05-10", day "2023-05-01")] 3 40 true true [("Python", 5)])])
    [("alice/repo1", false); ("alice/repo1", true)].

Definition later_page : list GitHubStatsData.RepoNode :=
  [GitHubStatsData.mkRepoNode "alice/repo1"
     (Some (GitHubStatsData.mkCommit "2023-05-09T10:00:00Z" 41)) [] []].

(** A data source with nothing to report. *)
Definition nothing_fetched : string -> string -> string -> bool -> list string :=
  fun _ _ _ _ => [].

End Samples.

(** ** Specification predicates *)

Module Spec.
Import DatabaseManager.

(** Both endpoints of a range are strings. *)
Definition typed_range (dr : DateRange) : bool :=
  match dr with
  | (Some _, Some _) => true
  | _ => false
  end.

(** A flag that is set stays set. *)
Definition flags_kept (r r' : RepoRecord) : Prop :=
  (isTDD r = true -> isTDD r' = true) /\ (isDevOps r = true -> isDevOps r' = true).

(** Every key of [s] is still bound, to the same record object, in [s']. *)
Definition keys_kept (s s' : Snapshot) : Prop :=
  forall k r, dict_get k (repos s) = Some r -> dict_get k (repos s') = Some r.

(** The record of a repository known on both sides, after a merge that
    accepted its ranges: ranges appended, counters added, flags or-ed. *)
Definition merged_record (rE rN r' : RepoRecord) : Prop :=
  r_dateRange r' = (r_dateRange rE ++ r_dateRange rN)%list /\
  totalCommitsInDateRange r' = totalCommitsInDateRange rE + totalCommitsInDateRange rN /\
  isTDD r' = isTDD rE || isTDD rN /\
  isDevOps r' = isDevOps rE || isDevOps rN.

(** Two records that agree on everything but the point-in-time facts
    ([totalRepoCommits], [languages]). *)
Definition same_core (r r' : RepoRecord) : Prop :=
  r_dateRange r' = r_dateRange r /\
  totalCommitsInDateRange r' = totalCommitsInDateRange r /\
  isTDD r' = isTDD r /\
  isDevOps r' = isDevOps r.

(** What one run of the merge on the existing dict [e] may do to the
    store: nothing is allocated or freed, no dict changes its shape, a
    snapshot other than [e] is left as it is, [e] keeps its keys, and no
    record loses a flag. *)
Record evolves (e : loc) (h h' : heap) : Prop := mkEvolves {
  ev_none : forall l, h !! l = None -> h' !! l = None;
  ev_empty : forall l, h !! l = Some OEmpty -> h' !! l = Some OEmpty;
  ev_snap : forall l s, h !! l = Some (OSnap s) ->
            exists s', h' !! l = Some (OSnap s') /\ (l <> e -> s' = s) /\ keys_kept s s';
  ev_rec : forall l r, h !! l = Some (ORec r) ->
           exists r', h' !! l = Some (ORec r') /\ flags_kept r r'
}.

(** A computation whose every run, normal or exceptional, is an [evolves] step. *)
Definition evolving (e : loc) {A} (m : M A) : Prop :=
  forall h, evolves e h (m h).2.

(** The existing snapshot when the loop over the incoming repositories
    starts, after lines 153 and 154. *)
Definition after_top_level (se sn : Snapshot) : Snapshot :=
  mkSnapshot (dateRange se ++ dateRange se) (totalRepoCount se + totalRepoCount sn) (repos se).


(** The state of the loop over [new_data['repos']] (lines 157-184), started
    in [h0] with [se0] at [e] and [sn] at [n], when the keys [ks] are still
    to be visited. *)
Record loop_inv (h0 : heap) (e n : loc) (se0 sn : Snapshot)
    (ks : list string) (h : heap) : Prop := mkLoopInv {
  inv_n : h !! n = Some (OSnap sn);
  inv_e : exists se, h !! e = Some (OSnap se) /\
            dateRange se = dateRange se0 /\
            totalRepoCount se = totalRepoCount se0 /\
            keys_kept se0 se /\
            (forall k, In k ks -> dict_get k (repos se) = dict_get k (repos se0));
  inv_new : forall l, In l (map snd (repos sn)) -> h !! l = h0 !! l;
  inv_old : forall k l, dict_get k (repos se0) = Some l ->
            In k ks \/ ~ In k (dict_keys (repos sn)) -> h !! l = h0 !! l;
  inv_done : forall k re rn rE rN, ~ In k ks ->
             dict_get k (repos se0) = Some re -> dict_get k (repos sn) = Some rn ->
             h0 !! re = Some (ORec rE) -> h0 !! rn = Some (ORec rN) ->
             exists r', h !! re = Some (ORec r') /\
               (all_valid (r_dateRange rE) (r_dateRange rN) = Ok true -> merged_record rE rN r')
}.

(** The record at [l] has string dates only and, when [with_range], at
    least one range. *)
Definition record_ok (h : heap) (with_range : bool) (l : loc) : bool :=
  match h !! l with
  | Some (ORec r) =>
      forallb typed_range (r_dateRange r) &&
      (negb with_range || negb (Nat.eqb (List.length (r_dateRange r)) 0))
  | _ => false
  end.

(** Two documents as they are decoded from the database: two snapshot
    dicts that share no record, each key bound once, every record with
    string dates, every incoming record with at least one range. *)
Definition separate_documents (h : heap) (e n : loc) : bool :=
  match h !! e, h !! n with
  | Some (OSnap se), Some (OSnap sn) =>
      negb (Nat.eqb e n)
      && bool_decide (NoDup (dict_keys (repos sn)))
      && bool_decide (NoDup (map snd (repos se)))
      && forallb (fun l => negb (existsb (Nat.eqb l) (map snd (repos sn)))) (map snd (repos se))
      && forallb (record_ok h false) (map snd (repos se))
      && forallb (record_ok h true) (map snd (repos sn))
  | _, _ => false
  end.

End Spec.

(** ** The order on date strings *)

Module DateOrder.

(** [a < b] and [a <= b] on strings, as Python compares them. *)
Definition before (a b : string) : Prop := String.ltb a b = true.
Definition not_after (a b : string) : Prop := String.leb a b = true.

(** A range, written from its latest to its earliest day. *)
Definition descending (start end_ : string) : Prop := not_after end_ start.

End DateOrder.

(** ** What an accepted merge writes *)

Module MergeFrame.
Import DatabaseManager.

(** The record of a known repository once lines 166-174 have run: ranges
    appended, counter added, flags or-ed, and the existing
    [totalRepoCommits] and [languages]. *)
Definition updated_record (rE rN : RepoRecord) : RepoRecord :=
  mkRepoRecord (r_dateRange rE ++ r_dateRange rN)
               (totalCommitsInDateRange rE + totalCommitsInDateRange rN)
               (totalRepoCommits rE)
               (isTDD rE || isTDD rN)
               (isDevOps rE || isDevOps rN)
               (languages rE).

(** The record of a known repository after the loop body: updated when
    its own ranges pass the check, left as it is otherwise. *)
Definition repo_outcome (rE rN : RepoRecord) : RepoRecord :=
  match all_valid (r_dateRange rE) (r_dateRange rN) with
  | Ok true => updated_record rE rN
  | _ => rE
  end.

(** The entries of [incoming] whose key [existing] does not have. *)
Definition new_repos (existing incoming : list (string * loc)) : list (string * loc) :=
  List.filter (fun kv => negb (bool_decide (is_Some (dict_get (fst kv) existing)))) incoming.

(** The state of the loop over [new_data['repos']] once the keys
    [visited] have been handled: what the existing dict binds, what has
    become of the known repositories, and what has not been written. *)
Record loop_frame (h0 : heap) (e n : loc) (se0 sn : Snapshot)
    (visited : list (string * loc)) (h : heap) : Prop := mkLoopFrame {
  fr_repos : exists se, h !! e = Some (OSnap se) /\
               repos se = (repos se0 ++ new_repos (repos se0) visited)%list;
  fr_known : forall k re rn rE rN, In (k, rn) visited ->
             dict_get k (repos se0) = Some re ->
             h0 !! re = Some (ORec rE) -> h0 !! rn = Some (ORec rN) ->
             h !! re = Some (ORec (repo_outcome rE rN));
  fr_other : forall l, l <> e -> ~ In l (map snd (repos se0)) -> h !! l = h0 !! l
}.

End MergeFrame.

(** ** More sample documents *)

Module MoreSamples.
Import DatabaseManager Samples.

(** The top-level ranges are disjoint, but [alice/repo1] already carries
    the incoming range 2023-05-07 .. 2023-05-05. *)
Definition repeated_repo_docs : heap :=
  <[1%nat := OSnap (mkSnapshot [(day "2023-05-10", day "2023-05-08")] 10 [("alice/repo1", 3%nat)])]>
  (<[2%nat := OSnap (mkSnapshot [(day "2023-05-07", day "2023-05-05")] 7 [("alice/repo1", 4%nat)])]>
  (<[3%nat := ORec (mkRepoRecord [(day "2023-05-10", day "2023-05-08"); (day "2023-05-07", day "2023-05-05")]
                      5 100 false false [("C", 5)])]>
  (<[4%nat := ORec (mkRepoRecord [(day "2023-05-07", day "2023-05-05")] 2 120 true true [("Go", 1)])]>
  ∅))).

(** The incoming record of [alice/repo1] has no range at all. *)
Definition rangeless_repo_docs : heap :=
  <[3%nat := ORec (mkRepoRecord [(day "2023-05-10", day "2023-05-08")] 3 100 false false [("C", 5)])]>
  (<[4%nat := ORec (mkRepoRecord [] 2 120 true false [("Go", 1)])]>
  ∅).

(** The existing record of [alice/repo1] has both flags set, the incoming
    one has none; the ranges are disjoint. *)
Definition flagged_docs : heap :=
  <[1%nat := OSnap (mkSnapshot [(day "2023-05-10", day "2023-05-08")] 10 [("alice/repo1", 3%nat)])]>
  (<[2%nat := OSnap (mkSnapshot [(day "2023-05-07", day "2023-05-05")] 7 [("alice/repo1", 4%nat)])]>
  (<[3%nat := ORec (mkRepoRecord [(day "2023-05-10", day "2023-05-08")] 3 100 true true [("C", 5)])]>
  (<[4%nat := ORec (mkRepoRecord [(day "2023-05-07", day "2023-05-05")] 2 120 false false [("Go", 1)])]>
  ∅))).


(** A worker's snapshot whose only repository is recorded as TDD and not
    as DevOps. *)
Definition tested_stats : GitHubStatsData.StatsData :=
  GitHubStatsData.mkStatsData [(day "2023-05-10", None)] 0
    [("alice/repo1",
      mkRepoRecord [(day "2023-05-10", day "2023-05-01")] 3 40 true false [("Python", 5)])].

(** A node with the topic [tdd], and a data source that reports the
    workflow file [ci.yml] and one commit message. *)
Definition tested_node : GitHubStatsData.RepoNode :=
  GitHubStatsData.mkRepoNode "bob/repo2"
    (Some (GitHubStatsData.mkCommit "2023-05-09T10:00:00Z" 12)) [("Python", 7)] ["tdd"].

Definition ci_fetched : string -> string -> string -> bool -> list string :=
  fun _ _ _ is_workflow => if is_workflow then ["ci.yml"] else ["fix typo"].

(** A node without a default branch. *)
Definition branchless_node : GitHubStatsData.RepoNode :=
  GitHubStatsData.mkRepoNode "carol/repo3" None [] [].

(** A worker that has collected nothing yet. *)
Definition new_worker : GitHubStatsData.Worker :=
  GitHubStatsData.mkWorker (GitHubStatsData.mkStatsData [(day "2023-05-10", None)] 0 []) [].

End MoreSamples.

(** ** [db_manager.py]: retrieve_collection *)

Module Retrieval.
Import DatabaseManager.

(** [dict()]: a new, empty dict. *)
Definition new_dict : M loc := fun h =>
  let l := fresh (dom h) in (Ok l, <[l := OEmpty]> h).

(** The truth value of a dict or [None] ([if doc:], [len(...) > 0] aside). *)
Definition is_truthy (r : PyRef) : M bool :=
  match r with
  | RNone => mret false
  | RLoc l => o ← obj_at l; mret (match o with OEmpty => false | _ => true end)
  end.

(** Lines 113-115: the loop over the documents of the collection. *)
Fixpoint merge_documents (repo_stats_data : PyRef) (collection_docs : list PyRef) : M PyRef :=
  match collection_docs with
  | [] => mret repo_stats_data
  | doc :: rest =>
      t ← is_truthy doc;
      repo_stats_data ← (if t : bool then merge_formatted_stats_data repo_stats_data doc
                          else mret repo_stats_data);
      merge_documents repo_stats_data rest
  end.

(** [a > b] and [a < b] on [str | None]. *)
Definition py_gt (a b : PyDate) : Res bool :=
  match a, b with
  | Some x, Some y => Ok (String.ltb y x)
  | _, _ => Raise TypeError
  end.

Definition py_lt (a b : PyDate) : Res bool :=
  match a, b with
  | Some x, Some y => Ok (String.ltb x y)
  | _, _ => Raise TypeError
  end.

(** [max(...)] and [min(...)] of the values a generator yields: a single
    value is returned without any comparison. *)
Fixpoint py_extremum (better : PyDate -> PyDate -> Res bool) (best : PyDate)
    (l : list PyDate) : Res PyDate :=
  match l with
  | [] => Ok best
  | x :: l' =>
      b ← better x best;
      py_extremum better (if b : bool then x else best) l'
  end.

Definition py_max (l : list PyDate) : Res PyDate :=
  match l with
  | [] => Raise ValueError
  | x :: l' => py_extremum py_gt x l'
  end.

Definition py_min (l : list PyDate) : Res PyDate :=
  match l with
  | [] => Raise ValueError
  | x :: l' => py_extremum py_lt x l'
  end.

(** What [json.dump] writes for [repos]: every record under its key. *)
Fixpoint read_repos (d : list (string * loc)) : M (list (string * RepoRecord)) :=
  match d with
  | [] => mret []
  | (k, l) :: d' =>
      r ← rec_at l;
      rs ← read_repos d';
      mret ((k, r) :: rs)
  end.

(** The file that lines 118-124 write: the two dates of its name and the
    three keys that are dumped. *)
Record DataFile := mkDataFile {
  newest_start : PyDate;
  oldest_end : PyDate;
  file_dateRange : list DateRange;
  file_totalRepoCount : Z;
  file_repos : list (string * RepoRecord)
}.

(** Lines 111-124, for the documents the cursor yields; the result is the
    file written, if any. *)
Definition retrieve_collection (collection_docs : list PyRef) : M (option DataFile) :=
  acc ← new_dict;
  repo_stats_data ← merge_documents (RLoc acc) collection_docs;
  (* 117: len(repo_stats_data) > 0 *)
  match repo_stats_data with
  | RNone => raise TypeError
  | RLoc l =>
      o ← obj_at l;
      match o with
      | OEmpty => mret None
      | _ =>
          s ← snap_at l;
          newest ← lift (py_max (map fst (dateRange s)));
          s ← snap_at l;
          oldest ← lift (py_min (map snd (dateRange s)));
          s ← snap_at l;
          rs ← read_repos (repos s);
          mret (Some (mkDataFile newest oldest (dateRange s) (totalRepoCount s) rs))
      end
  end.

End Retrieval.

(** ** What the collection loop makes of one repository *)

Module Classified.
Import GitHubStatsData.

(** [keyword in text.upper()], said without the search: the upper case of
    the text is the keyword between two other texts. *)
Definition occurs_in (upper : string -> string) (keyword text : string) : Prop :=
  exists before after, upper text = (before ++ keyword ++ after)%string.

(** One of the keywords occurs in one of the texts. *)
Definition mentions (upper : string -> string) (keywords texts : list string) : Prop :=
  exists keyword text, In keyword keywords /\ In text texts /\ occurs_in upper keyword text.

(** The DevOps keywords that are looked for in workflow file names. *)
Definition DEVOPS_WORKFLOW_MATCHES : list string :=
  ["DEVOPS"; "CI"; "CI/CD"; "CD"; "CONTINUOUS INTEGRATION"; "CONTINUOUS DE"; "ACTIONS"; "IAC";
   "IAAS"; "PAAS"; "KUBERNETES"; "ANSIBLE"; "TERRAFORM"; "AUTOMA"].

(** Line 214: the node is not skipped for its name. *)
Definition is_looked_at (repo_data : RepoNode) : bool :=
  negb (existsb (String.eqb (nameWithOwner repo_data)) stats_data_keys).

(** Lines 214-215 raise on the node: it is looked at and has no default
    branch. *)
Definition is_unreadable (repo_data : RepoNode) : bool :=
  is_looked_at repo_data &&
  match defaultBranchRef repo_data with None => true | Some _ => false end.

(** Lines 214-215: the test lets the node through. *)
Definition is_collected (fetch_date_str : string) (repo_data : RepoNode) : bool :=
  is_looked_at repo_data &&
  match defaultBranchRef repo_data with
  | Some target => String.eqb (substring 0 10 (committedDate target)) fetch_date_str
  | None => false
  end.

(** The [languages] dict that lines 242-244 build. *)
Definition languages_of (edges : list (string * Z)) : list (string * Z) :=
  foldl (fun acc language => dict_set (fst language) (snd language) acc) [] edges.

(** The record of a repository once lines 227-267 have run: classified
    only when it has a language; TDD on any TDD keyword in its topics,
    workflow file names or commit messages; DevOps when TDD and on any
    DevOps keyword (the workflow file names without ['.YML']). *)
Definition classified_record (upper : string -> string) (start_date_str end_date : string)
    (repo_data : RepoNode) (target : Commit)
    (date_range_commit_data actions_workflow_file_data : list string) : RepoRecord :=
  let has_languages := match languageEdges repo_data with [] => false | _ => true end in
  let tdd :=
    has_languages &&
    (any_key_word upper TDD_STR_MATCHES (repositoryTopics repo_data)
     || any_key_word upper TDD_STR_MATCHES actions_workflow_file_data
     || any_key_word upper TDD_STR_MATCHES date_range_commit_data) in
  let devops :=
    tdd &&
    (any_key_word upper DEVOPS_STR_MATCHES (repositoryTopics repo_data)
     || any_key_word upper (removelast DEVOPS_STR_MATCHES) actions_workflow_file_data
     || any_key_word upper DEVOPS_STR_MATCHES date_range_commit_data) in
  mkRepoRecord [(Some start_date_str, Some end_date)]
               (Z.of_nat (List.length date_range_commit_data))
               (historyTotalCount target)
               tdd devops
               (languages_of (languageEdges repo_data)).

(** The fetches a page causes: two for every node let through, commits
    first, in the order of the page. *)
Definition page_fetches (fetch_date_str : string) (repos_data_arr : list RepoNode)
    : list (string * bool) :=
  flat_map (fun repo_data =>
              if is_collected fetch_date_str repo_data
              then [(nameWithOwner repo_data, false); (nameWithOwner repo_data, true)]
              else [])
           repos_data_arr.

(** DevOps is only recorded for a repository recorded as TDD. *)
Definition devops_is_tdd (r : RepoRecord) : bool := implb (isDevOps r) (isTDD r).

End Classified.

(** ** An invariant of the store *)

Module StoreInvariant.
Import DatabaseManager Classified.

Definition obj_devops_is_tdd (o : obj) : bool :=
  match o with
  | ORec r => devops_is_tdd r
  | _ => true
  end.

(** Every record of the store that is marked DevOps is marked TDD. *)
Definition store_devops_is_tdd (h : heap) : Prop :=
  map_Forall (fun _ o => obj_devops_is_tdd o = true) h.

(** A computation that keeps [P], however it ends. *)
Definition preserving (P : heap -> Prop) {A} (m : M A) : Prop :=
  forall h, P h -> P (m h).2.

End StoreInvariant.

(** ** [github_stats_analysis.py]: GitHubStatsAnalysis *)

Module GitHubStatsAnalysis.
Import DatabaseManager Retrieval.

(** An entry of a statistics list, [(name, [a, b])]: a repository with
    its two commit counts, or a language with its use count and its total
    file size. *)
Definition Stat := (string * (Z * Z))%type.

(** The instance, [self]. *)
Record Analysis := mkAnalysis {
  num_top_statistics : Z;
  formatted_repo_data : PyRef;
  most_updated_repo_stats : list Stat;
  most_popular_repo_languages_stats : list Stat;
  most_popular_tdd_repo_language_stats : list Stat;
  most_popular_tdd_and_devops_repo_language_stats : list Stat
}.

Definition with_formatted_repo_data (v : PyRef) (self : Analysis) : Analysis :=
  mkAnalysis (num_top_statistics self) v (most_updated_repo_stats self)
             (most_popular_repo_languages_stats self)
             (most_popular_tdd_repo_language_stats self)
             (most_popular_tdd_and_devops_repo_language_stats self).
Definition with_most_updated_repo_stats (v : list Stat) (self : Analysis) : Analysis :=
  mkAnalysis (num_top_statistics self) (formatted_repo_data self) v
             (most_popular_repo_languages_stats self)
             (most_popular_tdd_repo_language_stats self)
             (most_popular_tdd_and_devops_repo_language_stats self).
Definition with_most_popular_repo_languages_stats (v : list Stat) (self : Analysis) : Analysis :=
  mkAnalysis (num_top_statistics self) (formatted_repo_data self) (most_updated_repo_stats self)
             v
             (most_popular_tdd_repo_language_stats self)
             (most_popular_tdd_and_devops_repo_language_stats self).
Definition with_most_popular_tdd_repo_language_stats (v : list Stat) (self : Analysis) : Analysis :=
  mkAnalysis (num_top_statistics self) (formatted_repo_data self) (most_updated_repo_stats self)
             (most_popular_repo_languages_stats self)
             v
             (most_popular_tdd_and_devops_repo_language_stats self).
Definition with_most_popular_tdd_and_devops_repo_language_stats (v : list Stat)
    (self : Analysis) : Analysis :=
  mkAnalysis (num_top_statistics self) (formatted_repo_data self) (most_updated_repo_stats self)
             (most_popular_repo_languages_stats self)
             (most_popular_tdd_repo_language_stats self)
             v.

(** Lines 41-49: [formatted_repo_data] starts as a new, empty dict. *)
Definition init (num_top_statistics : Z) : M Analysis :=
  d ← new_dict;
  mret (mkAnalysis num_top_statistics (RLoc d) [] [] [] []).

(** Lines 58-65. *)
Definition reset_repo_stats (self : Analysis) : Analysis :=
  mkAnalysis (num_top_statistics self) (formatted_repo_data self) [] [] [] [].

(** [len(d)] for [d] a dict or [None]: the number of keys (three in a
    snapshot, six in a record); [None] has no length. *)
Definition py_len (d : PyRef) : M Z :=
  match d with
  | RNone => raise TypeError
  | RLoc l =>
      o ← obj_at l;
      mret (match o with OEmpty => 0 | OSnap _ => 3 | ORec _ => 6 end)
  end.

(** [d['dateRange']], [d['totalRepoCount']], [d['repos']] for [d] a dict
    or [None]: [None] cannot be subscripted. *)
Definition subscript (d : PyRef) : M Snapshot :=
  match d with
  | RNone => raise TypeError
  | RLoc l => snap_at l
  end.

(** [[a, b] < [c, d]] on two-element lists of ints. *)
Definition key_lt (x y : Z * Z) : bool :=
  (fst x <? fst y) || ((fst x =? fst y) && (snd x <? snd y)).

(** [sorted(items, key=lambda x: x[1], reverse=True)]: greatest key
    first; the sort is stable, also when reversed, so entries with equal
    keys keep the order they had. An entry goes in front of the first one
    whose key is not greater than its own. *)
Fixpoint insert_desc (x : Stat) (l : list Stat) : list Stat :=
  match l with
  | [] => [x]
  | y :: l' => if key_lt (snd x) (snd y) then y :: insert_desc x l' else x :: y :: l'
  end.

Definition sorted_reverse (l : list Stat) : list Stat := fold_right insert_desc [] l.

(** [l[:n]]: a negative [n] counts from the end. *)
Definition slice_to {A} (n : Z) (l : list A) : list A :=
  if n <? 0 then firstn (Z.to_nat (Z.of_nat (List.length l) + n)) l
  else firstn (Z.to_nat n) l.

(** [l[:n] if len(l) >= n else l]. *)
Definition top_statistics {A} (n : Z) (l : list A) : list A :=
  if n <=? Z.of_nat (List.length l) then slice_to n l else l.

(** A loop that carries a local value along. *)
Fixpoint fold_each {A S} (body : S -> A -> M S) (s : S) (l : list A) : M S :=
  match l with
  | [] => mret s
  | x :: l' => s' ← body s x; fold_each body s' l'
  end.

(** Lines 113-128. *)
Definition compute_most_updated_repo_stats (self : Analysis) : M (Analysis * list Stat) :=
  (* 118 *)
  go ← (if Nat.eqb (List.length (most_updated_repo_stats self)) 0
        then n ← py_len (formatted_repo_data self); mret (0 <? n)
        else mret false);
  self ← (if go : bool then
            (* 120-122 *)
            s ← subscript (formatted_repo_data self);
            stats ← fold_each
                      (fun stats item =>
                         repo_data ← rec_at (snd item);
                         mret (dict_set (fst item)
                                        (totalCommitsInDateRange repo_data,
                                         totalRepoCommits repo_data) stats))
                      [] (repos s);
            (* 124-126 *)
            mret (with_most_updated_repo_stats (sorted_reverse stats) self)
          else mret self);
  (* 127-128 *)
  mret (self, top_statistics (num_top_statistics self) (most_updated_repo_stats self)).

(** Lines 145-149, one language of one repository. *)
Definition count_language (tmp : list Stat) (language : string * Z) : list Stat :=
  match dict_get (fst language) tmp with
  | Some (count, size) => dict_set (fst language) (count + 1, size + snd language) tmp
  | None => dict_set (fst language) (1, snd language) tmp
  end.

(** Lines 142-149, one repository. *)
Definition count_repo (is_tdd is_devops : bool) (tmp : list Stat) (repo_data : RepoRecord)
    : list Stat :=
  if (is_tdd && negb (isTDD repo_data)) || (is_devops && negb (isDevOps repo_data))
  then tmp
  else fold_left count_language (languages repo_data) tmp.

(** Lines 130-159. *)
Definition compute_most_popular_repo_language_stats (self : Analysis)
    (is_tdd is_devops : bool) : M (Analysis * list Stat) :=
  (* 137-138 *)
  go ← (if (negb is_tdd && negb is_devops
            && Nat.eqb (List.length (most_popular_repo_languages_stats self)) 0)
           || is_tdd || is_devops
        then n ← py_len (formatted_repo_data self); mret (0 <? n)
        else mret false);
  if go : bool then
    (* 140-149 *)
    s ← subscript (formatted_repo_data self);
    tmp ← fold_each (fun tmp item =>
                       repo_data ← rec_at (snd item);
                       mret (count_repo is_tdd is_devops tmp repo_data))
                    [] (repos s);
    (* 151-153 *)
    let tmp := sorted_reverse tmp in
    (* 154-156 *)
    if is_tdd || is_devops then mret (self, tmp)
    else
      let self := with_most_popular_repo_languages_stats tmp self in
      mret (self, top_statistics (num_top_statistics self)
                    (most_popular_repo_languages_stats self))
  else
    (* 157-159 *)
    mret (self, top_statistics (num_top_statistics self)
                  (most_popular_repo_languages_stats self)).

(** Lines 161-171. *)
Definition compute_most_popular_tdd_repo_language_stats (self : Analysis)
    : M (Analysis * list Stat) :=
  go ← (if Nat.eqb (List.length (most_popular_tdd_repo_language_stats self)) 0
        then n ← py_len (formatted_repo_data self); mret (0 <? n)
        else mret false);
  self ← (if go : bool then
            res ← compute_most_popular_repo_language_stats self true false;
            mret (with_most_popular_tdd_repo_language_stats (snd res) (fst res))
          else mret self);
  mret (self, top_statistics (num_top_statistics self)
                (most_popular_tdd_repo_language_stats self)).

(** Lines 173-184. *)
Definition compute_most_popular_tdd_and_devops_repo_language_stats (self : Analysis)
    : M (Analysis * list Stat) :=
  go ← (if Nat.eqb (List.length (most_popular_tdd_and_devops_repo_language_stats self)) 0
        then n ← py_len (formatted_repo_data self); mret (0 <? n)
        else mret false);
  self ← (if go : bool then
            res ← compute_most_popular_repo_language_stats self true true;
            mret (with_most_popular_tdd_and_devops_repo_language_stats (snd res) (fst res))
          else mret self);
  mret (self, top_statistics (num_top_statistics self)
                (most_popular_tdd_and_devops_repo_language_stats self)).

(** Lines 81-88: the language statistics twice, then the two filtered
    ones; what the calls return is dropped. *)
Definition compute_all_repo_stats (self : Analysis) : M Analysis :=
  res ← compute_most_popular_repo_language_stats self false false;
  res ← compute_most_popular_repo_language_stats (fst res) false false;
  res ← compute_most_popular_tdd_repo_language_stats (fst res);
  res ← compute_most_popular_tdd_and_devops_repo_language_stats (fst res);
  mret (fst res).

(** Lines 67-79, for the dicts that the files of the folder load to, in
    the order [iglob] yields them. *)
Fixpoint load_formatted_stats_data (self : Analysis) (files : list PyRef) : M Analysis :=
  match files with
  | [] => mret self
  | new_stats_dict :: rest =>
      (* 76-77 *)
      merged ← merge_formatted_stats_data (formatted_repo_data self) new_stats_dict;
      (* 78 *)
      let self := reset_repo_stats (with_formatted_repo_data merged self) in
      (* 79 *)
      self ← compute_all_repo_stats self;
      load_formatted_stats_data self rest
  end.

(** Lines 90-96: the minimum is taken first. *)
Definition get_date_range (self : Analysis) : M (PyDate * PyDate) :=
  s ← subscript (formatted_repo_data self);
  oldest ← lift (py_min (map snd (dateRange s)));
  s ← subscript (formatted_repo_data self);
  newest ← lift (py_max (map fst (dateRange s)));
  mret (oldest, newest).

(** Lines 98-103. *)
Definition get_sample_dataset_len (self : Analysis) : M Z :=
  s ← subscript (formatted_repo_data self);
  mret (Z.of_nat (List.length (repos s))).

(** Lines 105-111. *)
Definition get_repo_population_count (self : Analysis) : M Z :=
  s ← subscript (formatted_repo_data self);
  mret (totalRepoCount s).

End GitHubStatsAnalysis.

(** ** What the statistics are made of *)

Module Statistics.
Import DatabaseManager GitHubStatsAnalysis.

(** The records a [repos] dict refers to, in its order. *)
Definition records_at (h : heap) (d : list (string * loc)) (rs : list (string * RepoRecord))
    : Prop :=
  Forall2 (fun item kr => fst item = fst kr /\ h !! snd item = Some (ORec (snd kr))) d rs.

(** The repositories a language statistic counts. *)
Definition selected (is_tdd is_devops : bool) (r : RepoRecord) : bool :=
  (negb is_tdd || isTDD r) && (negb is_devops || isDevOps r).

(** The file sizes under which the records list a language. *)
Definition file_sizes (language : string) (rs : list RepoRecord) : list Z :=
  map snd (List.filter (fun entry => String.eqb language (fst entry)) (concat (map languages rs))).

(** The statistic of a language that is listed with these sizes. *)
Definition language_stat (sizes : list Z) : option (Z * Z) :=
  match sizes with
  | [] => None
  | _ => Some (Z.of_nat (List.length sizes), fold_right Z.add 0 sizes)
  end.

(** One more use of a language, with file size [u]. *)
Definition one_more (o : option (Z * Z)) (u : Z) : option (Z * Z) :=
  match o with
  | Some (count, size) => Some (count + 1, size + u)
  | None => Some (1, u)
  end.

(** No entry is followed by one with a greater key. *)
Fixpoint descending_keys (l : list Stat) : Prop :=
  match l with
  | [] => True
  | x :: l' => Forall (fun y => key_lt (snd x) (snd y) = false) l' /\ descending_keys l'
  end.

(** The entries of [l] with key [k], in their order. *)
Definition with_key (k : Z * Z) (l : list Stat) : list Stat :=
  List.filter (fun x => Z.eqb (fst (snd x)) (fst k) && Z.eqb (snd (snd x)) (snd k)) l.

(** The dict that lines 140-149 build from the records, and the list that
    lines 151-153 sort it to. *)
Definition language_tally (is_tdd is_devops : bool) (rs : list RepoRecord) : list Stat :=
  fold_left (count_repo is_tdd is_devops) rs [].

Definition language_stats (is_tdd is_devops : bool) (rs : list RepoRecord) : list Stat :=
  sorted_reverse (language_tally is_tdd is_devops rs).

(** The entry of a repository in the most-updated statistics. *)
Definition commit_stat (kr : string * RepoRecord) : Stat :=
  (fst kr, (totalCommitsInDateRange (snd kr), totalRepoCommits (snd kr))).

End Statistics.

(** Unfolding the monadic steps of a computation down to the store. *)
Ltac munfold :=
  cbv [mbind mret DatabaseManager.M_bind DatabaseManager.M_ret
       DatabaseManager.snap_at DatabaseManager.rec_at DatabaseManager.obj_at
       DatabaseManager.store DatabaseManager.raise DatabaseManager.lift
       DatabaseManager.repo_ref].

(** ** Dicts *)

Section Dicts.
Context {V : Type}.
Implicit Types (d : list (string * V)) (k : string) (v : V).

Lemma dict_get_set_eq k v d : dict_get k (dict_set k v d) = Some v.
Proof.
  induction d as [|[k' v'] d IH]; simpl.
  - by rewrite String.eqb_refl.
  - destruct (String.eqb k k') eqn:E; simpl; rewrite E; auto.
Qed.

Lemma dict_get_set_ne k k' v d : k <> k' -> dict_get k' (dict_set k v d) = dict_get k' d.
Proof.
  intros Hne. induction d as [|[k0 v0] d IH]; simpl.
  - destruct (String.eqb k' k) eqn:E; [|done].
    apply String.eqb_eq in E. congruence.
  - destruct (String.eqb k k0) eqn:E; simpl; [|by rewrite IH].
    apply String.eqb_eq in E. subst k0.
    destruct (String.eqb k' k) eqn:E'; [|done].
    apply String.eqb_eq in E'. congruence.
Qed.

Lemma dict_get_Some_In k v d : dict_get k d = Some v -> In (k, v) d.
Proof.
  induction d as [|[k' v'] d IH]; simpl; [done|].
  destruct (String.eqb k k') eqn:E.
  - apply String.eqb_eq in E. intros [= ->]. left. by subst.
  - auto.
Qed.

Lemma dict_get_keys k d : In k (dict_keys d) -> exists v, dict_get k d = Some v.
Proof.
  induction d as [|[k' v'] d IH]; simpl; [done|].
  intros [->|Hin].
  - rewrite String.eqb_refl. eauto.
  - destruct (String.eqb k k'); eauto.
Qed.

Lemma dict_get_None_keys k d : dict_get k d = None -> ~ In k (dict_keys d).
Proof.
  intros Hn Hin. apply dict_get_keys in Hin as [v Hv]. congruence.
Qed.

End Dicts.

(** ** The store discipline of the merge *)

Section Evolves.
Import DatabaseManager Spec.
Implicit Types (h : heap) (e l : loc).

Lemma flags_kept_refl r : flags_kept r r.
Proof. by split. Qed.

Lemma flags_kept_trans r1 r2 r3 : flags_kept r1 r2 -> flags_kept r2 r3 -> flags_kept r1 r3.
Proof. intros [??] [??]. split; auto. Qed.

Lemma keys_kept_refl s : keys_kept s s.
Proof. by intros k r. Qed.

Lemma evolves_refl e h : evolves e h h.
Proof.
  split; [done|done|..].
  - intros l s Hl. exists s. split; [done|]. split; [done|apply keys_kept_refl].
  - intros l r Hl. exists r. split; [done|apply flags_kept_refl].
Qed.

Lemma evolves_trans e h1 h2 h3 : evolves e h1 h2 -> evolves e h2 h3 -> evolves e h1 h3.
Proof.
  intros [N1 E1 S1 R1] [N2 E2 S2 R2]. split.
  - auto.
  - auto.
  - intros l s Hl. destruct (S1 l s Hl) as (s2 & Hl2 & Hne2 & Hk2).
    destruct (S2 l s2 Hl2) as (s3 & Hl3 & Hne3 & Hk3).
    exists s3. repeat split; [done| |].
    + intros Hne. by rewrite (Hne3 Hne), (Hne2 Hne).
    + intros k r Hk. by apply Hk3, Hk2.
  - intros l r Hl. destruct (R1 l r Hl) as (r2 & Hl2 & Hf2).
    destruct (R2 l r2 Hl2) as (r3 & Hl3 & Hf3).
    exists r3. split; [done|]. by eapply flags_kept_trans.
Qed.

(** Overwriting the snapshot [e] by one that keeps its keys. *)
Lemma evolves_store_snap e h s s' :
  h !! e = Some (OSnap s) -> keys_kept s s' -> evolves e h (<[e := OSnap s']> h).
Proof.
  intros He Hk. split.
  - intros l Hl. rewrite lookup_insert_ne; [done|congruence].
  - intros l Hl. rewrite lookup_insert_ne; [done|congruence].
  - intros l s0 Hl. destruct (decide (l = e)) as [->|Hne].
    + rewrite lookup_insert_eq. exists s'. split; [done|]. split; [done|].
      rewrite He in Hl. by injection Hl as ->.
    + rewrite lookup_insert_ne by done. exists s0. split; [done|]. split; [done|apply keys_kept_refl].
  - intros l r Hl. rewrite lookup_insert_ne; [|congruence].
    exists r. split; [done|apply flags_kept_refl].
Qed.

(** Overwriting a record by one that keeps its flags. *)
Lemma evolves_store_rec e h l r r' :
  h !! l = Some (ORec r) -> flags_kept r r' -> evolves e h (<[l := ORec r']> h).
Proof.
  intros Hl Hf. split.
  - intros l0 Hl0. rewrite lookup_insert_ne; [done|congruence].
  - intros l0 Hl0. rewrite lookup_insert_ne; [done|congruence].
  - intros l0 s0 Hl0. rewrite lookup_insert_ne; [|congruence].
    exists s0. split; [done|]. split; [done|apply keys_kept_refl].
  - intros l0 r0 Hl0. destruct (decide (l0 = l)) as [->|Hne].
    + rewrite lookup_insert_eq. exists r'. split; [done|].
      rewrite Hl in Hl0. by injection Hl0 as ->.
    + rewrite lookup_insert_ne by done. exists r0. split; [done|apply flags_kept_refl].
Qed.

Lemma evolving_ret e {A} (a : A) : evolving e (mret a).
Proof. intros h. apply evolves_refl. Qed.

Lemma evolving_raise e {A} x : evolving e (raise (A:=A) x).
Proof. intros h. apply evolves_refl. Qed.

Lemma evolving_lift e {A} (r : Res A) : evolving e (lift r).
Proof. intros h. apply evolves_refl. Qed.

Lemma evolving_obj_at e l : evolving e (obj_at l).
Proof. intros h. unfold obj_at. destruct (h !! l); apply evolves_refl. Qed.

Lemma evolving_snap_at e l : evolving e (snap_at l).
Proof. intros h. unfold snap_at. destruct (h !! l) as [[]|]; apply evolves_refl. Qed.

Lemma evolving_rec_at e l : evolving e (rec_at l).
Proof. intros h. unfold rec_at. destruct (h !! l) as [[]|]; apply evolves_refl. Qed.

Lemma evolving_bind e {A B} (m : M A) (k : A -> M B) :
  evolving e m -> (forall a, evolving e (k a)) -> evolving e (m ≫= k).
Proof.
  intros Hm Hk h. unfold mbind, M_bind. specialize (Hm h).
  destruct (m h) as [[a|x] h1]; simpl in *; [|done].
  eapply evolves_trans; [done|apply Hk].
Qed.

Lemma evolving_for_each e {A} (body : A -> M unit) (xs : list A) :
  (forall a, evolving e (body a)) -> evolving e (for_each body xs).
Proof.
  intros Hb. induction xs as [|a xs IH]; simpl.
  - apply evolving_ret.
  - apply evolving_bind; [apply Hb|done].
Qed.

Lemma evolving_repo_ref e l k : evolving e (repo_ref l k).
Proof.
  apply evolving_bind; [apply evolving_snap_at|].
  intros s. destruct (dict_get k (repos s)); [apply evolving_ret|apply evolving_raise].
Qed.

(** [existing[...] op= f(existing, new)] on a record field. *)
Lemma evolving_update_rec e re rn (f : RepoRecord -> RepoRecord -> RepoRecord) :
  (forall rE rN, flags_kept rE (f rE rN)) ->
  evolving e (rE ← rec_at re; rN ← rec_at rn; store re (ORec (f rE rN))).
Proof.
  intros Hf h. unfold mbind, M_bind, rec_at, store.
  destruct (h !! re) as [[| |rE]|] eqn:Hre; simpl; try apply evolves_refl.
  destruct (h !! rn) as [[| |rN]|] eqn:Hrn; simpl; try apply evolves_refl.
  by eapply evolves_store_rec.
Qed.

Lemma evolving_assign_rec e re rn (f : RepoRecord -> RepoRecord -> RepoRecord) :
  (forall rE rN, flags_kept rE (f rE rN)) ->
  evolving e (rN ← rec_at rn; rE ← rec_at re; store re (ORec (f rE rN))).
Proof.
  intros Hf h. unfold mbind, M_bind, rec_at, store.
  destruct (h !! rn) as [[| |rN]|] eqn:Hrn; simpl; try apply evolves_refl.
  destruct (h !! re) as [[| |rE]|] eqn:Hre; simpl; try apply evolves_refl.
  by eapply evolves_store_rec.
Qed.

Lemma evolving_copy_language e re rn language : evolving e (copy_language re rn language).
Proof.
  unfold copy_language. apply evolving_bind; [apply evolving_rec_at|].
  intros rN. destruct (dict_get language (languages rN)) as [size|]; [|apply evolving_raise].
  intros h. unfold mbind, M_bind, rec_at, store.
  destruct (h !! re) as [[| |rE]|] eqn:Hre; simpl; try apply evolves_refl.
  eapply evolves_store_rec; [done|]. by split.
Qed.

Lemma evolving_is_more_current e re rn : evolving e (is_more_current re rn).
Proof.
  unfold is_more_current.
  apply evolving_bind; [apply evolving_rec_at|]. intros rN.
  apply evolving_bind.
  { destruct (r_dateRange rN); [apply evolving_raise|apply evolving_lift]. }
  intros newest. apply evolving_bind; [apply evolving_rec_at|]. intros rE.
  apply evolving_bind; [apply evolving_lift|]. intros ms.
  apply evolving_bind; [apply evolving_lift|]. intros m.
  apply evolving_ret.
Qed.

Lemma evolving_update_repo e re rn : evolving e (update_repo re rn).
Proof.
  unfold update_repo. apply evolving_bind.
  { apply evolving_bind; [apply evolving_rec_at|]. intros rN.
    apply evolving_bind; [apply evolving_rec_at|]. intros rE. apply evolving_lift. }
  intros [|]; [|apply evolving_ret].
  apply evolving_bind; [apply evolving_update_rec; by split|]. intros _.
  apply evolving_bind; [apply evolving_update_rec; by split|]. intros _.
  apply evolving_bind.
  { apply evolving_update_rec. intros rE rN. split; simpl; [|done].
    intros ->. done. }
  intros _. apply evolving_bind.
  { apply evolving_update_rec. intros rE rN. split; simpl; [done|].
    intros ->. done. }
  intros _. apply evolving_bind; [apply evolving_is_more_current|].
  intros [|]; [|apply evolving_ret].
  apply evolving_bind; [apply evolving_assign_rec; by split|]. intros _.
  apply evolving_bind; [apply evolving_rec_at|]. intros rN.
  apply evolving_for_each. intros language. apply evolving_copy_language.
Qed.

Lemma evolving_read_snap e l {B} (k : Snapshot -> M B) :
  (forall h s, h !! l = Some (OSnap s) -> evolves e h (k s h).2) ->
  evolving e (s ← snap_at l; k s).
Proof.
  intros Hk h. unfold mbind, M_bind, snap_at.
  destruct (h !! l) as [[|s|]|] eqn:Hl; simpl; try apply evolves_refl.
  by apply Hk.
Qed.

Lemma evolving_merge_repo e n repo_name : evolving e (merge_repo e n repo_name).
Proof.
  unfold merge_repo. apply evolving_read_snap. intros h se He.
  destruct (dict_get repo_name (repos se)) as [re|] eqn:Hk.
  - apply evolving_bind; [apply evolving_repo_ref|]. intros re'.
    apply evolving_bind; [apply evolving_repo_ref|]. intros rn.
    apply evolving_update_repo.
  - munfold.
    destruct (h !! n) as [[|sN|]|] eqn:Hn; simpl; try apply evolves_refl.
    destruct (dict_get repo_name (repos sN)) as [rn|]; simpl; [|apply evolves_refl].
    rewrite He. simpl. eapply evolves_store_snap; [done|].
    intros k r Hkr. simpl. rewrite dict_get_set_ne; [done|]. congruence.
Qed.

Lemma evolving_merge e new_data :
  evolving e (merge_formatted_stats_data (RLoc e) new_data).
Proof.
  intros h. unfold merge_formatted_stats_data.
  unfold mbind at 1, M_bind at 1. unfold mbind at 1, M_bind at 1, obj_at.
  destruct (h !! e) as [o|] eqn:He; simpl; [|apply evolves_refl].
  assert (evolving e
    (n ← match new_data with RNone => raise TypeError | RLoc n => mret n end;
     ok ← (sn ← snap_at n; se ← snap_at e; lift (all_valid (dateRange se) (dateRange sn)));
     if ok : bool then
       _ ← (se ← snap_at e; sn ← snap_at n;
            store e (OSnap (with_totalRepoCount (totalRepoCount se + totalRepoCount sn) se)));
       _ ← (se ← snap_at e; store e (OSnap (with_dateRange (dateRange se ++ dateRange se) se)));
       sn ← snap_at n;
       _ ← for_each (merge_repo e n) (dict_keys (repos sn));
       mret (RLoc e)
     else mret RNone)) as Hbody.
  { apply evolving_bind.
    { destruct new_data; [apply evolving_raise|apply evolving_ret]. }
    intros n. apply evolving_bind.
    { apply evolving_bind; [apply evolving_snap_at|]. intros sn.
      apply evolving_bind; [apply evolving_snap_at|]. intros se. apply evolving_lift. }
    intros [|]; [|apply evolving_ret].
    apply evolving_bind.
    { intros h0. munfold.
      destruct (h0 !! e) as [[|se|]|] eqn:He0; simpl; try apply evolves_refl.
      destruct (h0 !! n) as [[|sN|]|] eqn:Hn0; simpl; try apply evolves_refl.
      eapply evolves_store_snap; [done|]. by intros k r. }
    intros _. apply evolving_bind.
    { intros h0. munfold.
      destruct (h0 !! e) as [[|se|]|] eqn:He0; simpl; try apply evolves_refl.
      eapply evolves_store_snap; [done|]. by intros k r. }
    intros _. apply evolving_bind; [apply evolving_snap_at|]. intros sn.
    apply evolving_bind; [|intros _; apply evolving_ret].
    apply evolving_for_each. intros k. apply evolving_merge_repo. }
  destruct o as [|s|r]; simpl; [apply evolves_refl|apply Hbody..].
Qed.

End Evolves.

(** ** Running the merge on separate, well-typed documents *)

Section Typed.
Import DatabaseManager Spec.

Lemma comprehension_ok {A B} (f : A -> Res B) (P : A -> Prop) (l : list A) :
  (forall x, P x -> exists y, f x = Ok y) ->
  Forall P l -> exists ys, comprehension f l = Ok ys /\ length ys = length l.
Proof.
  intros Hf. induction 1 as [|x l Hx Hl (ys & IH & Hlen)]; simpl.
  - by exists [].
  - destruct (Hf x Hx) as [y Hy]. exists (y :: ys).
    rewrite Hy. simpl. rewrite IH. simpl. by rewrite Hlen.
Qed.

Lemma typed_range_Some dr :
  typed_range dr = true -> exists a b, dr = (Some a, Some b).
Proof. destruct dr as [[a|] [b|]]; simpl; try done. eauto. Qed.

Lemma py_le_chain_typed a b c : exists x, py_le_chain (Some a) (Some b) (Some c) = Ok x.
Proof.
  unfold py_le_chain. simpl. destruct (String.leb a b); simpl; eauto.
Qed.

Lemma endpoint_within_typed new_dates_arr date_range :
  typed_range new_dates_arr = true -> typed_range date_range = true ->
  exists x, endpoint_within new_dates_arr date_range = Ok x.
Proof.
  intros (a & b & ->)%typed_range_Some (c & d & ->)%typed_range_Some.
  unfold endpoint_within. simpl.
  destruct (py_le_chain_typed b c a) as [x ->]. simpl.
  destruct x; [eauto|]. apply py_le_chain_typed.
Qed.

Lemma is_date_range_valid_typed existing new_dates_arr :
  forallb typed_range existing = true -> typed_range new_dates_arr = true ->
  exists v, is_date_range_valid existing new_dates_arr = Ok v.
Proof.
  intros He Hn. unfold is_date_range_valid.
  destruct (snd new_dates_arr) as [s|]; [|eauto].
  destruct (String.eqb s EmptyString); [eauto|].
  destruct (comprehension_ok (endpoint_within new_dates_arr)
              (fun dr => typed_range dr = true) existing) as (hits & -> & _).
  - intros dr Hdr. by apply endpoint_within_typed.
  - apply Forall_forall. intros dr Hdr. by apply (proj1 (forallb_forall _ _) He), list_elem_of_In.
  - simpl. eauto.
Qed.

Lemma all_valid_typed existing new :
  forallb typed_range existing = true -> forallb typed_range new = true ->
  exists b, all_valid existing new = Ok b.
Proof.
  intros He Hn. unfold all_valid.
  destruct (comprehension_ok (is_date_range_valid existing)
              (fun dr => typed_range dr = true) new) as (vs & -> & _).
  - intros dr Hdr. by apply is_date_range_valid_typed.
  - apply Forall_forall. intros dr Hdr. by apply (proj1 (forallb_forall _ _) Hn), list_elem_of_In.
  - simpl. eauto.
Qed.

Lemma max_pair_typed dr : typed_range dr = true -> exists m, max_pair dr = Ok m.
Proof. intros (a & b & ->)%typed_range_Some. simpl. eauto. Qed.

End Typed.

Section UpdateRepo.
Import DatabaseManager Spec.
Implicit Types (h : heap) (r : RepoRecord).

Lemma bind_ok {A B} (m : M A) (k : A -> M B) h a h' :
  m h = (Ok a, h') -> (m ≫= k) h = k a h'.
Proof. intros Hm. unfold mbind, M_bind. by rewrite Hm. Qed.

Lemma rec_at_ok h l r : h !! l = Some (ORec r) -> rec_at l h = (Ok r, h).
Proof. intros Hl. unfold rec_at. by rewrite Hl. Qed.

Lemma snap_at_ok h l s : h !! l = Some (OSnap s) -> snap_at l h = (Ok s, h).
Proof. intros Hl. unfold snap_at. by rewrite Hl. Qed.

Lemma repo_ref_ok h l s k (x : loc) :
  h !! l = Some (OSnap s) -> dict_get k (repos s) = Some x -> repo_ref l k h = (Ok x, h).
Proof.
  intros Hl Hk. unfold repo_ref. rewrite (bind_ok _ _ _ _ _ (snap_at_ok _ _ _ Hl)).
  by rewrite Hk.
Qed.

Variables (h : heap) (re rn : loc) (rN : RepoRecord).
Hypothesis Hne : re <> rn.
Hypothesis Hrn : h !! rn = Some (ORec rN).

(** While [update_repo] runs, the store is [h] with the record [re]
    replaced. *)
Lemma read_existing r : rec_at re (<[re := ORec r]> h) = (Ok r, <[re := ORec r]> h).
Proof. apply rec_at_ok, lookup_insert_eq. Qed.

Lemma read_new r : rec_at rn (<[re := ORec r]> h) = (Ok rN, <[re := ORec r]> h).
Proof. apply rec_at_ok. by rewrite lookup_insert_ne. Qed.

Lemma run_update_rec (f : RepoRecord -> RepoRecord -> RepoRecord) r :
  (rE ← rec_at re; rN ← rec_at rn; store re (ORec (f rE rN))) (<[re := ORec r]> h)
  = (Ok tt, <[re := ORec (f r rN)]> h).
Proof.
  rewrite (bind_ok _ _ _ _ _ (read_existing r)), (bind_ok _ _ _ _ _ (read_new r)).
  unfold store. by rewrite insert_insert_eq.
Qed.

Lemma run_assign_rec (f : RepoRecord -> RepoRecord -> RepoRecord) r :
  (rN ← rec_at rn; rE ← rec_at re; store re (ORec (f rE rN))) (<[re := ORec r]> h)
  = (Ok tt, <[re := ORec (f r rN)]> h).
Proof.
  rewrite (bind_ok _ _ _ _ _ (read_new r)), (bind_ok _ _ _ _ _ (read_existing r)).
  unfold store. by rewrite insert_insert_eq.
Qed.

Lemma same_core_refl r : same_core r r.
Proof. by repeat split. Qed.

Lemma same_core_trans r1 r2 r3 : same_core r1 r2 -> same_core r2 r3 -> same_core r1 r3.
Proof. intros (?&?&?&?) (?&?&?&?). repeat split; congruence. Qed.

Lemma run_copy_languages ks r :
  (forall k, In k ks -> In k (dict_keys (languages rN))) ->
  exists r', for_each (copy_language re rn) ks (<[re := ORec r]> h) = (Ok tt, <[re := ORec r']> h)
             /\ same_core r r'.
Proof.
  revert r. induction ks as [|k ks IH]; intros r Hks; simpl.
  - exists r. split; [done|apply same_core_refl].
  - destruct (dict_get_keys k (languages rN)) as [size Hsize]; [apply Hks; by left|].
    destruct (IH (with_languages (dict_set k size (languages r)) r)) as (r' & Hrun & Hcore).
    { intros k' Hk'. apply Hks. by right. }
    exists r'. split; [|eapply same_core_trans; [|done]; by repeat split].
    erewrite bind_ok; [done|].
    unfold copy_language. rewrite (bind_ok _ _ _ _ _ (read_new r)), Hsize.
    rewrite (bind_ok _ _ _ _ _ (read_existing r)). unfold store. by rewrite insert_insert_eq.
Qed.

Lemma run_is_more_current r :
  forallb typed_range (r_dateRange r) = true -> r_dateRange r <> [] ->
  forallb typed_range (r_dateRange rN) = true -> r_dateRange rN <> [] ->
  exists b, is_more_current re rn (<[re := ORec r]> h) = (Ok b, <[re := ORec r]> h).
Proof.
  intros Hr Hr0 HN HN0. unfold is_more_current.
  rewrite (bind_ok _ _ _ _ _ (read_new r)).
  destruct (r_dateRange rN) as [|dr drs] eqn:HdN; [done|].
  simpl in HN. apply andb_true_iff in HN as [Hdr _].
  destruct (max_pair_typed dr Hdr) as [newest Hnewest].
  erewrite bind_ok; [|unfold lift; by rewrite Hnewest].
  rewrite (bind_ok _ _ _ _ _ (read_existing r)).
  destruct (comprehension_ok max_pair (fun dr => typed_range dr = true) (r_dateRange r))
    as (ms & Hms & Hlen).
  { apply max_pair_typed. }
  { apply Forall_forall. intros x Hx. by apply (proj1 (forallb_forall _ _) Hr), list_elem_of_In. }
  erewrite bind_ok; [|unfold lift; by rewrite Hms].
  destruct ms as [|m0 ms].
  { destruct (r_dateRange r); [done|discriminate Hlen]. }
  erewrite bind_ok; [|unfold lift; reflexivity].
  eauto.
Qed.

Lemma run_update_repo rE :
  forallb typed_range (r_dateRange rE) = true ->
  forallb typed_range (r_dateRange rN) = true -> r_dateRange rN <> [] ->
  exists r', update_repo re rn (<[re := ORec rE]> h) = (Ok tt, <[re := ORec r']> h)
             /\ (all_valid (r_dateRange rE) (r_dateRange rN) = Ok true -> merged_record rE rN r').
Proof.
  intros HE HN HN0.
  destruct (all_valid_typed _ _ HE HN) as [ok Hok].
  unfold update_repo.
  erewrite bind_ok; cycle 1.
  { rewrite (bind_ok _ _ _ _ _ (read_new rE)), (bind_ok _ _ _ _ _ (read_existing rE)).
    unfold lift. by rewrite Hok. }
  destruct ok.
  2:{ exists rE. split; [done|]. congruence. }
  rewrite (bind_ok _ _ _ _ _ (run_update_rec _ _)).
  rewrite (bind_ok _ _ _ _ _ (run_update_rec _ _)).
  rewrite (bind_ok _ _ _ _ _ (run_update_rec _ _)).
  rewrite (bind_ok _ _ _ _ _ (run_update_rec _ _)).
  set (r1 := with_isDevOps _ _).
  assert (merged_record rE rN r1) as Hm1 by (by repeat split).
  destruct (run_is_more_current r1) as [newer Hnewer]; try done.
  { simpl. rewrite forallb_app. by rewrite HE, HN. }
  { simpl. destruct (r_dateRange rE); [done|discriminate]. }
  rewrite (bind_ok _ _ _ _ _ Hnewer).
  destruct newer.
  2:{ exists r1. by split. }
  rewrite (bind_ok _ _ _ _ _ (run_assign_rec _ _)).
  rewrite (bind_ok _ _ _ _ _ (read_new _)).
  destruct (run_copy_languages (dict_keys (languages rN))
              (with_totalRepoCommits (totalRepoCommits rN) r1)) as (r' & Hrun & Hcore); [done|].
  exists r'. split; [done|]. intros _.
  destruct Hcore as (H1 & H2 & H3 & H4), Hm1 as (M1 & M2 & M3 & M4).
  repeat split; simpl in *; congruence.
Qed.

Lemma update_repo_spec rE :
  h !! re = Some (ORec rE) ->
  forallb typed_range (r_dateRange rE) = true ->
  forallb typed_range (r_dateRange rN) = true -> r_dateRange rN <> [] ->
  exists r', update_repo re rn h = (Ok tt, <[re := ORec r']> h)
             /\ (all_valid (r_dateRange rE) (r_dateRange rN) = Ok true -> merged_record rE rN r').
Proof.
  intros Hre HE HN HN0.
  destruct (run_update_repo rE HE HN HN0) as (r' & Hrun & Hm).
  exists r'. split; [|done]. by rewrite insert_id in Hrun.
Qed.

End UpdateRepo.

Section Loop.
Import DatabaseManager Spec.

Lemma dict_get_loc_In {V} k (v : V) d : dict_get k d = Some v -> In v (map snd d).
Proof. intros H%dict_get_Some_In. by apply (in_map snd) in H. Qed.

Lemma dict_get_key_In {V} k (v : V) d : dict_get k d = Some v -> In k (dict_keys d).
Proof. intros H%dict_get_Some_In. by apply (in_map fst) in H. Qed.

(** Two keys bound to the same object, in a dict that binds every object
    once, are the same key. *)
Lemma dict_get_inj {V} k k' (v : V) d :
  NoDup (map snd d) -> dict_get k d = Some v -> dict_get k' d = Some v -> k = k'.
Proof.
  induction d as [|[k0 v0] d IH]; simpl; [done|].
  intros [Hnotin Hnd]%NoDup_cons.
  destruct (String.eqb k k0) eqn:E, (String.eqb k' k0) eqn:E'.
  - apply String.eqb_eq in E, E'. congruence.
  - intros [= ->] Hk'%dict_get_loc_In. by apply list_elem_of_In in Hk'.
  - intros Hk%dict_get_loc_In [= ->]. by apply list_elem_of_In in Hk.
  - by apply IH.
Qed.

Variables (h0 : heap) (e n : loc) (se0 sn : Snapshot).
Hypothesis He0 : h0 !! e = Some (OSnap se0).
Hypothesis Hn0 : h0 !! n = Some (OSnap sn).
Hypothesis Hen : e <> n.
Hypothesis Hkeys : NoDup (dict_keys (repos sn)).
Hypothesis Hlocs : NoDup (map snd (repos se0)).
Hypothesis Hdisj : forall l, In l (map snd (repos se0)) -> ~ In l (map snd (repos sn)).
Hypothesis HtypedE : forall l, In l (map snd (repos se0)) ->
  exists r, h0 !! l = Some (ORec r) /\ forallb typed_range (r_dateRange r) = true.
Hypothesis HtypedN : forall l, In l (map snd (repos sn)) ->
  exists r, h0 !! l = Some (ORec r) /\ forallb typed_range (r_dateRange r) = true
            /\ r_dateRange r <> [].

Lemma old_not_snapshot l : In l (map snd (repos se0)) -> l <> e /\ l <> n.
Proof. intros (r & Hr & _)%HtypedE. split; congruence. Qed.

Lemma new_not_snapshot l : In l (map snd (repos sn)) -> l <> e /\ l <> n.
Proof. intros (r & Hr & _)%HtypedN. split; congruence. Qed.

Lemma loop_inv_start : loop_inv h0 e n se0 sn (dict_keys (repos sn)) h0.
Proof.
  split; [done| |done|done|].
  - exists se0. split; [done|]. split; [done|]. split; [done|].
    split; [apply keys_kept_refl|done].
  - intros k re rn rE rN Hk _ Hrn%dict_get_key_In. done.
Qed.

Lemma merge_repo_step k ks h :
  In k (dict_keys (repos sn)) -> ~ In k ks -> loop_inv h0 e n se0 sn (k :: ks) h ->
  exists h', merge_repo e n k h = (Ok tt, h') /\ loop_inv h0 e n se0 sn ks h'.
Proof.
  intros Hk Hnk [In_ (se & He & Hdr & Htot & Hkk & Hsame) Inew Iold Idone].
  destruct (dict_get_keys _ _ Hk) as [rn Hrn].
  pose proof (dict_get_loc_In _ _ _ Hrn) as Hrn_in.
  destruct (HtypedN _ Hrn_in) as (rN & HrN0 & HtN & HneN).
  destruct (new_not_snapshot _ Hrn_in) as [Hrn_e Hrn_n].
  assert (dict_get k (repos se) = dict_get k (repos se0)) as Hkse by (apply Hsame; by left).
  unfold merge_repo. rewrite (bind_ok _ _ _ _ _ (snap_at_ok _ _ _ He)), Hkse.
  destruct (dict_get k (repos se0)) as [re|] eqn:Hre.
  - (* the repository is known *)
    pose proof (dict_get_loc_In _ _ _ Hre) as Hre_in.
    destruct (HtypedE _ Hre_in) as (rE & HrE0 & HtE).
    destruct (old_not_snapshot _ Hre_in) as [Hre_e Hre_n].
    assert (re <> rn) as Hne by (intros ->; by eapply Hdisj).
    assert (h !! re = Some (ORec rE)) as HrE.
    { rewrite (Iold k re Hre); [done|]. left. by left. }
    assert (h !! rn = Some (ORec rN)) as HrN by (by rewrite Inew).
    rewrite (bind_ok _ _ _ _ _ (repo_ref_ok _ _ _ _ _ He Hkse)).
    rewrite (bind_ok _ _ _ _ _ (repo_ref_ok _ _ _ _ _ In_ Hrn)).
    destruct (update_repo_spec h re rn rN Hne HrN rE HrE HtE HtN HneN) as (r' & Hrun & Hm).
    exists (<[re := ORec r']> h). split; [done|]. split.
    + by rewrite lookup_insert_ne.
    + exists se. rewrite lookup_insert_ne by done. repeat split; try done.
      intros k' Hk'. apply Hsame. by right.
    + intros l Hl. rewrite lookup_insert_ne; [by apply Inew|].
      intros <-. by eapply Hdisj.
    + intros k' l Hl Hk'. rewrite lookup_insert_ne.
      * apply (Iold k' l Hl). destruct Hk' as [?|?]; [left; by right|by right].
      * intros <-. assert (k = k') as <- by (by eapply dict_get_inj).
        destruct Hk' as [?|?]; done.
    + intros k' re' rn' rE' rN' Hk' Hre' Hrn' HrE' HrN'.
      destruct (decide (k' = k)) as [->|Hkne].
      * rewrite Hre in Hre'. injection Hre' as <-.
        rewrite Hrn in Hrn'. injection Hrn' as <-.
        rewrite HrE0 in HrE'. injection HrE' as <-.
        rewrite HrN0 in HrN'. injection HrN' as <-.
        exists r'. by rewrite lookup_insert_eq.
      * rewrite lookup_insert_ne.
        -- eapply Idone; try done. intros [?|?]; [congruence|done].
        -- intros <-. apply Hkne. by eapply dict_get_inj.
  - (* a new repository: its record is stored by reference *)
    rewrite (bind_ok _ _ _ _ _ (repo_ref_ok _ _ _ _ _ In_ Hrn)).
    rewrite (bind_ok _ _ _ _ _ (snap_at_ok _ _ _ He)). unfold store.
    eexists. split; [done|]. split.
    + by rewrite lookup_insert_ne.
    + eexists. rewrite lookup_insert_eq. split; [done|]. simpl.
      split; [done|]. split; [done|]. split.
      * intros k' l Hl. simpl. rewrite dict_get_set_ne; [by apply Hkk|].
        intros <-. apply Hkk in Hl. congruence.
      * intros k' Hk'. rewrite dict_get_set_ne; [apply Hsame; by right|].
        intros <-. done.
    + intros l Hl. rewrite lookup_insert_ne; [by apply Inew|].
      intros <-. by destruct (new_not_snapshot _ Hl).
    + intros k' l Hl Hk'. rewrite lookup_insert_ne.
      * apply (Iold k' l Hl). destruct Hk' as [?|?]; [left; by right|by right].
      * intros <-. by destruct (old_not_snapshot _ (dict_get_loc_In _ _ _ Hl)).
    + intros k' re' rn' rE' rN' Hk' Hre' Hrn' HrE' HrN'.
      rewrite lookup_insert_ne.
      * eapply Idone; try done. intros [<-|?]; [congruence|done].
      * intros <-. by destruct (old_not_snapshot _ (dict_get_loc_In _ _ _ Hre')).
Qed.

Lemma merge_loop ks h :
  NoDup ks -> (forall k, In k ks -> In k (dict_keys (repos sn))) -> loop_inv h0 e n se0 sn ks h ->
  exists h', for_each (merge_repo e n) ks h = (Ok tt, h') /\ loop_inv h0 e n se0 sn [] h'.
Proof.
  revert h. induction ks as [|k ks IH]; intros h Hnd Hsub Hinv; simpl.
  - by exists h.
  - apply NoDup_cons in Hnd as [Hk Hnd]. rewrite list_elem_of_In in Hk.
    destruct (merge_repo_step k ks h) as (h1 & Hrun & Hinv1); [apply Hsub; by left|done..|].
    destruct (IH h1) as (h' & Hrun' & Hinv'); [done| |done|].
    { intros k' Hk'. apply Hsub. by right. }
    exists h'. split; [|done]. by rewrite (bind_ok _ _ _ _ _ Hrun).
Qed.

End Loop.

Section Accepted.
Import DatabaseManager Spec.

Lemma obj_at_ok (h : heap) l o : h !! l = Some o -> obj_at l h = (Ok o, h).
Proof. intros Hl. unfold obj_at. by rewrite Hl. Qed.

Lemma record_ok_spec (h : heap) b l :
  record_ok h b l = true ->
  exists r, h !! l = Some (ORec r) /\ forallb typed_range (r_dateRange r) = true
            /\ (b = true -> r_dateRange r <> []).
Proof.
  unfold record_ok. destruct (h !! l) as [[| |r]|]; try done.
  intros [Ht Hb]%andb_true_iff. exists r. split; [done|]. split; [done|].
  intros -> Hnil. rewrite Hnil in Hb. done.
Qed.

Variables (h : heap) (e n : loc) (se sn : Snapshot).
Hypothesis He : h !! e = Some (OSnap se).
Hypothesis Hn : h !! n = Some (OSnap sn).
Hypothesis Hsep : separate_documents h e n = true.

Lemma separate_documents_spec :
  e <> n /\
  NoDup (dict_keys (repos sn)) /\
  NoDup (map snd (repos se)) /\
  (forall l, In l (map snd (repos se)) -> ~ In l (map snd (repos sn))) /\
  (forall l, In l (map snd (repos se)) ->
     exists r, h !! l = Some (ORec r) /\ forallb typed_range (r_dateRange r) = true) /\
  (forall l, In l (map snd (repos sn)) ->
     exists r, h !! l = Some (ORec r) /\ forallb typed_range (r_dateRange r) = true
               /\ r_dateRange r <> []).
Proof.
  unfold separate_documents in Hsep. rewrite He, Hn in Hsep.
  apply andb_true_iff in Hsep as [Hsep HokN].
  apply andb_true_iff in Hsep as [Hsep HokE].
  apply andb_true_iff in Hsep as [Hsep Hdisj].
  apply andb_true_iff in Hsep as [Hsep Hlocs].
  apply andb_true_iff in Hsep as [Hen Hkeys].
  repeat split.
  - apply negb_true_iff, Nat.eqb_neq in Hen. done.
  - by apply bool_decide_eq_true_1 in Hkeys.
  - by apply bool_decide_eq_true_1 in Hlocs.
  - intros l Hl Hl'.
    pose proof (proj1 (forallb_forall _ _) Hdisj l Hl) as Hx. simpl in Hx.
    apply negb_true_iff in Hx.
    assert (existsb (Nat.eqb l) (map snd (repos sn)) = true) as Hy; [|congruence].
    apply existsb_exists. exists l. split; [done|apply Nat.eqb_refl].
  - intros l Hl. pose proof (proj1 (forallb_forall _ _) HokE l Hl) as Hx.
    apply record_ok_spec in Hx as (r & ? & ? & _). eauto.
  - intros l Hl. pose proof (proj1 (forallb_forall _ _) HokN l Hl) as Hx.
    apply record_ok_spec in Hx as (r & ? & ? & ?). exists r. auto.
Qed.

Lemma merge_accepted :
  all_valid (dateRange se) (dateRange sn) = Ok true ->
  exists h', merge_formatted_stats_data (RLoc e) (RLoc n) h = (Ok (RLoc e), h')
             /\ loop_inv (<[e := OSnap (after_top_level se sn)]> h) e n (after_top_level se sn) sn [] h'.
Proof.
  intros Hok.
  destruct separate_documents_spec as (Hen & Hkeys & Hlocs & Hdisj & HtE & HtN).
  assert (forall l, In l (map snd (repos se)) -> l <> e) as HneE.
  { intros l (r & Hr & _)%HtE. congruence. }
  assert (forall l, In l (map snd (repos sn)) -> l <> e) as HneN.
  { intros l (r & Hr & _)%HtN. congruence. }
  set (h1 := <[e := OSnap (after_top_level se sn)]> h).
  assert (h1 !! e = Some (OSnap (after_top_level se sn))) as He1 by apply lookup_insert_eq.
  assert (h1 !! n = Some (OSnap sn)) as Hn1 by (by unfold h1; rewrite lookup_insert_ne).
  destruct (merge_loop h1 e n (after_top_level se sn) sn He1 Hn1 Hen Hlocs Hdisj)
    with (ks := dict_keys (repos sn)) (h := h1) as (h' & Hrun & Hinv); try done.
  { intros l Hl. unfold h1. rewrite lookup_insert_ne; [by apply HtE|].
    intros <-. by apply (HneE e). }
  { intros l Hl. unfold h1. rewrite lookup_insert_ne; [by apply HtN|].
    intros <-. by apply (HneN e). }
  { by apply loop_inv_start. }
  exists h'. split; [|done].
  unfold merge_formatted_stats_data.
  erewrite bind_ok; cycle 1.
  { rewrite (bind_ok _ _ _ _ _ (obj_at_ok _ _ _ He)). reflexivity. }
  cbv beta iota.
  erewrite bind_ok; [|reflexivity].
  erewrite bind_ok; cycle 1.
  { rewrite (bind_ok _ _ _ _ _ (snap_at_ok _ _ _ Hn)), (bind_ok _ _ _ _ _ (snap_at_ok _ _ _ He)).
    unfold lift. by rewrite Hok. }
  cbv beta iota.
  erewrite bind_ok; cycle 1.
  { rewrite (bind_ok _ _ _ _ _ (snap_at_ok _ _ _ He)), (bind_ok _ _ _ _ _ (snap_at_ok _ _ _ Hn)).
    reflexivity. }
  erewrite bind_ok; cycle 1.
  { erewrite bind_ok; [|apply snap_at_ok, lookup_insert_eq].
    unfold store. rewrite insert_insert_eq. reflexivity. }
  change (mkSnapshot _ _ _) with (after_top_level se sn). fold h1.
  rewrite (bind_ok _ _ _ _ _ (snap_at_ok _ _ _ Hn1)).
  by rewrite (bind_ok _ _ _ _ _ Hrun).
Qed.

End Accepted.

(** ** Results, rejection and unfinished ranges *)

Section Results.
Import DatabaseManager Spec.




(** Reading the two range lists for the top-level check. *)
Lemma top_level_check (h : heap) e n se sn :
  h !! e = Some (OSnap se) -> h !! n = Some (OSnap sn) ->
  (sn ← snap_at n; se ← snap_at e; lift (all_valid (dateRange se) (dateRange sn))) h
  = (all_valid (dateRange se) (dateRange sn), h).
Proof.
  intros He Hn.
  by rewrite (bind_ok _ _ _ _ _ (snap_at_ok _ _ _ Hn)), (bind_ok _ _ _ _ _ (snap_at_ok _ _ _ He)).
Qed.

Lemma bind_raise {A B} (m : M A) (k : A -> M B) (h h' : heap) x :
  m h = (Raise x, h') -> (m ≫= k) h = (Raise x, h').
Proof. intros Hm. unfold mbind, M_bind. by rewrite Hm. Qed.

(** A merge into a non-empty snapshot, up to the top-level check. *)
Lemma merge_nonempty (h : heap) e n se sn :
  h !! e = Some (OSnap se) -> h !! n = Some (OSnap sn) ->
  merge_formatted_stats_data (RLoc e) (RLoc n) h =
  match all_valid (dateRange se) (dateRange sn) with
  | Ok true =>
      (_ ← (se ← snap_at e; sn ← snap_at n;
            store e (OSnap (with_totalRepoCount (totalRepoCount se + totalRepoCount sn) se)));
       _ ← (se ← snap_at e; store e (OSnap (with_dateRange (dateRange se ++ dateRange se) se)));
       sn ← snap_at n;
       _ ← for_each (merge_repo e n) (dict_keys (repos sn));
       mret (RLoc e)) h
  | Ok false => (Ok RNone, h)
  | Raise x => (Raise x, h)
  end.
Proof.
  intros He Hn. unfold merge_formatted_stats_data.
  erewrite bind_ok; cycle 1.
  { rewrite (bind_ok _ _ _ _ _ (obj_at_ok _ _ _ He)). reflexivity. }
  cbv beta iota. erewrite bind_ok; [|reflexivity].
  destruct (all_valid (dateRange se) (dateRange sn)) as [[|]|x] eqn:Hok.
  - erewrite bind_ok; [|rewrite (top_level_check _ _ _ _ _ He Hn), Hok; reflexivity]. done.
  - erewrite bind_ok; [|rewrite (top_level_check _ _ _ _ _ He Hn), Hok; reflexivity]. done.
  - erewrite bind_raise; [done|]. by rewrite (top_level_check _ _ _ _ _ He Hn), Hok.
Qed.



(** Every run of the merge is an [evolves] step on its existing dict. *)
Lemma merge_evolves e new_data (h : heap) :
  evolves e h (merge_formatted_stats_data (RLoc e) new_data h).2.
Proof. apply evolving_merge. Qed.

End Results.

Section Unfinished.
Import DatabaseManager Spec.

Lemma comprehension_In {A B} (f : A -> Res B) l ys x y :
  comprehension f l = Ok ys -> In x l -> f x = Ok y -> In y ys.
Proof.
  revert ys. induction l as [|a l IH]; intros ys; simpl; [done|].
  destruct (f a) as [b|] eqn:Hb; simpl; [|done].
  destruct (comprehension f l) as [bs|] eqn:Hbs; simpl; [|done].
  intros [= <-] [->|Hin] Hy.
  - left. congruence.
  - right. by eapply IH.
Qed.

Lemma comprehension_raise {A B} (f : A -> Res B) l x :
  comprehension f l = Raise x -> exists a, In a l /\ f a = Raise x.
Proof.
  induction l as [|a l IH]; simpl; [done|].
  destruct (f a) as [b|x'] eqn:Hb; simpl.
  - destruct (comprehension f l) as [bs|x''] eqn:Hbs; simpl; [done|].
    intros [= ->]. destruct IH as (a' & ? & ?); [done|]. exists a'. auto.
  - intros [= ->]. exists a. auto.
Qed.

Lemma py_le_chain_raise a b c x : py_le_chain a b c = Raise x -> x = TypeError.
Proof.
  unfold py_le_chain, py_le.
  destruct a, b; simpl; try (by intros [= <-]).
  destruct (String.leb _ _); [|done]. destruct c; [done|by intros [= <-]].
Qed.

Lemma is_date_range_valid_raise existing new_dates_arr x :
  is_date_range_valid existing new_dates_arr = Raise x -> x = TypeError.
Proof.
  unfold is_date_range_valid. destruct (snd new_dates_arr) as [s|]; [|done].
  destruct (String.eqb s EmptyString); [done|].
  destruct (comprehension _ existing) as [hits|x'] eqn:Hc; simpl; [done|].
  intros [= ->]. apply comprehension_raise in Hc as (dr & _ & Hdr).
  revert Hdr. unfold endpoint_within.
  destruct (py_le_chain _ (fst dr) _) as [[|]|x'] eqn:H1; simpl; try done.
  - by apply py_le_chain_raise.
  - intros [= <-]. by apply py_le_chain_raise in H1.
Qed.

Lemma all_valid_raise existing new x : all_valid existing new = Raise x -> x = TypeError.
Proof.
  unfold all_valid. destruct (comprehension _ new) as [vs|x'] eqn:Hc; simpl; [done|].
  intros [= ->]. apply comprehension_raise in Hc as (dr & _ & Hdr).
  by apply is_date_range_valid_raise in Hdr.
Qed.

(** A range whose end is [None] or [''] is returned as invalid before any
    comparison is made. *)
Lemma falsy_end_invalid existing start end_ :
  end_ = None \/ end_ = Some EmptyString ->
  exists v, is_date_range_valid existing (start, end_) = Ok v /\ truthy v = false.
Proof.
  intros [->| ->]; unfold is_date_range_valid; simpl.
  - by exists PyNone.
  - by exists (PyStr EmptyString).
Qed.

Lemma all_valid_falsy_end existing new start end_ :
  In (start, end_) new -> end_ = None \/ end_ = Some EmptyString ->
  all_valid existing new = Ok false \/ all_valid existing new = Raise TypeError.
Proof.
  intros Hin Hend. destruct (all_valid existing new) as [b|x] eqn:Hall.
  - left. f_equal. revert Hall. unfold all_valid.
    destruct (comprehension (is_date_range_valid existing) new) as [vs|] eqn:Hc; simpl; [|done].
    intros [= <-]. destruct (falsy_end_invalid existing start end_ Hend) as (v & Hv & Hf).
    pose proof (comprehension_In _ _ _ _ _ Hc Hin Hv) as Hvin.
    destruct (forallb truthy vs) eqn:Hfa; [|done].
    rewrite forallb_forall in Hfa. rewrite (Hfa v Hvin) in Hf. done.
  - right. by apply all_valid_raise in Hall as ->.
Qed.

(** With string dates everywhere else, the check itself cannot raise. *)
Lemma is_date_range_valid_started existing new_dates_arr :
  forallb typed_range existing = true -> fst new_dates_arr <> None ->
  exists v, is_date_range_valid existing new_dates_arr = Ok v.
Proof.
  intros He Hs. destruct new_dates_arr as [[a|] [b|]]; try done.
  - by apply is_date_range_valid_typed.
  - by exists PyNone.
Qed.

Lemma all_valid_started existing new :
  forallb typed_range existing = true -> (forall dr, In dr new -> fst dr <> None) ->
  exists b, all_valid existing new = Ok b.
Proof.
  intros He Hn. unfold all_valid.
  destruct (comprehension_ok (is_date_range_valid existing)
              (fun dr => fst dr <> None) new) as (vs & -> & _).
  - intros dr Hdr. by apply is_date_range_valid_started.
  - apply Forall_forall. intros dr Hdr. by apply Hn, list_elem_of_In.
  - simpl. eauto.
Qed.

End Unfinished.

(** ** The claims about [DatabaseManager] *)

Section MergeClaims.
Import DatabaseManager Spec Samples.

(** C1. The claim: when an incoming top-level range is not disjoint from
    the existing ranges, the merge is rejected and the existing snapshot
    is returned unmodified. On [overlapping_docs] the store is indeed left
    as it was, but the call returns [None], not the existing snapshot
    (the [return] of line 185 belongs to the accepting branch); and on
    [nested_docs], where the incoming range lies inside the existing one,
    the merge is not rejected at all and the existing snapshot is updated. *)
Theorem merge_rejection_returns_None :
  merge_formatted_stats_data (RLoc 1%nat) (RLoc 2%nat) overlapping_docs
    = (Ok RNone, overlapping_docs)
  /\ merge_formatted_stats_data (RLoc 1%nat) (RLoc 2%nat) nested_docs
    = (Ok (RLoc 1%nat),
       <[1%nat := OSnap (mkSnapshot [(day "2023-05-10", day "2023-05-01");
                                     (day "2023-05-10", day "2023-05-01")] 17 [])]>
         nested_docs).
Proof. split; vm_compute; reflexivity. Qed.

(** C2. The claim: an accepted merge yields the existing range list
    extended by the incoming ranges, and the sum of the two
    [totalRepoCount]s. On [disjoint_docs] the count is the sum (17), but
    the merged range list is the existing list twice: the incoming range
    2023-05-07 .. 2023-05-05 is not in it. *)
Theorem merge_top_level_ranges_doubled :
  exists h',
    merge_formatted_stats_data (RLoc 1%nat) (RLoc 2%nat) disjoint_docs = (Ok (RLoc 1%nat), h')
    /\ h' !! 1%nat =
       Some (OSnap (mkSnapshot [(day "2023-05-10", day "2023-05-08");
                                (day "2023-05-10", day "2023-05-08")]
                               17
                               [("alice/repo1", 3%nat); ("bob/repo2", 5%nat)])).
Proof. eexists. split; vm_compute; reflexivity. Qed.

(** C3. The claim: for two ranges in descending order the disjointness
    test is symmetric. With a = 2023-05-10 .. 2023-05-01 and
    b = 2023-05-07 .. 2023-05-05 (b inside a), b is valid against [a] but
    a is not valid against [b]. *)
Theorem is_date_range_valid_not_symmetric :
  is_date_range_valid [(day "2023-05-10", day "2023-05-01")] (day "2023-05-07", day "2023-05-05")
    = Ok (PyBool true)
  /\ is_date_range_valid [(day "2023-05-07", day "2023-05-05")] (day "2023-05-10", day "2023-05-01")
    = Ok (PyBool false).
Proof. split; reflexivity. Qed.


End MergeClaims.

Section MergeClaims2.
Import DatabaseManager Spec Samples.

(** C6. For a repository key present in both snapshots whose per-repo
    ranges pass the check, the merged record has the sum of the two
    [totalCommitsInDateRange] counters, the existing ranges followed by
    the incoming ones, and the or of the two [isTDD] and of the two
    [isDevOps] flags. The two documents are separate, as decoded from the
    database, and the top-level check accepts the merge. *)
Theorem merge_known_repo (h : heap) e n se sn k re rn rE rN :
  h !! e = Some (OSnap se) ->
  h !! n = Some (OSnap sn) ->
  separate_documents h e n = true ->
  all_valid (dateRange se) (dateRange sn) = Ok true ->
  dict_get k (repos se) = Some re ->
  dict_get k (repos sn) = Some rn ->
  h !! re = Some (ORec rE) ->
  h !! rn = Some (ORec rN) ->
  all_valid (r_dateRange rE) (r_dateRange rN) = Ok true ->
  exists h' se' r',
    merge_formatted_stats_data (RLoc e) (RLoc n) h = (Ok (RLoc e), h')
    /\ h' !! e = Some (OSnap se')
    /\ dict_get k (repos se') = Some re
    /\ h' !! re = Some (ORec r')
    /\ totalCommitsInDateRange r' = totalCommitsInDateRange rE + totalCommitsInDateRange rN
    /\ r_dateRange r' = (r_dateRange rE ++ r_dateRange rN)%list
    /\ isTDD r' = isTDD rE || isTDD rN
    /\ isDevOps r' = isDevOps rE || isDevOps rN.
Proof.
  intros He Hn Hsep Hok Hre Hrn HrE HrN Hrok.
  destruct (separate_documents_spec h e n se sn He Hn Hsep) as (Hen & _ & _ & _ & HtE & HtN).
  destruct (merge_accepted h e n se sn He Hn Hsep Hok) as (h' & Hrun & Hinv).
  destruct Hinv as [_ (se' & He' & _ & _ & Hkk & _) _ _ Hdone].
  assert (re <> e) as Hre_e.
  { destruct (HtE re (dict_get_loc_In _ _ _ Hre)) as (? & ? & _). congruence. }
  assert (rn <> e) as Hrn_e.
  { destruct (HtN rn (dict_get_loc_In _ _ _ Hrn)) as (? & ? & _). congruence. }
  destruct (Hdone k re rn rE rN) as (r' & Hr' & Hm).
  { by intros []. }
  { done. }
  { done. }
  { by rewrite lookup_insert_ne. }
  { by rewrite lookup_insert_ne. }
  destruct (Hm Hrok) as (M1 & M2 & M3 & M4).
  exists h', se', r'. repeat split; try done. by apply Hkk.
Qed.

Lemma merge_known_repo_witness :
  exists h' se' r',
    merge_formatted_stats_data (RLoc 1%nat) (RLoc 2%nat) disjoint_docs = (Ok (RLoc 1%nat), h')
    /\ h' !! 1%nat = Some (OSnap se')
    /\ dict_get "alice/repo1" (repos se') = Some 3%nat
    /\ h' !! 3%nat = Some (ORec r')
    /\ totalCommitsInDateRange r' = 5
    /\ r_dateRange r' = [(day "2023-05-10", day "2023-05-08"); (day "2023-05-07", day "2023-05-05")]
    /\ isTDD r' = true
    /\ isDevOps r' = false.
Proof.
  apply (merge_known_repo disjoint_docs 1%nat 2%nat
           (mkSnapshot [(day "2023-05-10", day "2023-05-08")] 10 [("alice/repo1", 3%nat)])
           (mkSnapshot [(day "2023-05-07", day "2023-05-05")] 7
              [("alice/repo1", 4%nat); ("bob/repo2", 5%nat)])
           "alice/repo1" 3%nat 4%nat
           (mkRepoRecord [(day "2023-05-10", day "2023-05-08")] 3 100 false false [("C", 5)])
           (mkRepoRecord [(day "2023-05-07", day "2023-05-05")] 2 120 true false
              [("C", 6); ("Go", 1)]));
    vm_compute; reflexivity.
Defined.


(** Whatever the merge does (accept, reject, raise), every record object
    that had a flag set still has it, and every key of the existing
    snapshot is still bound to the same record object. *)
Lemma merge_keeps_flags e new_data (h : heap) :
  (forall l r, h !! l = Some (ORec r) ->
     exists r', (merge_formatted_stats_data (RLoc e) new_data h).2 !! l = Some (ORec r')
                /\ flags_kept r r')
  /\ (forall se k l, h !! e = Some (OSnap se) -> dict_get k (repos se) = Some l ->
        exists se', (merge_formatted_stats_data (RLoc e) new_data h).2 !! e = Some (OSnap se')
                    /\ dict_get k (repos se') = Some l).
Proof.
  destruct (merge_evolves e new_data h) as [_ _ HS HR]. split; [done|].
  intros se k l He Hk. destruct (HS e se He) as (se' & He' & _ & Hkk).
  exists se'. split; [done|]. by apply Hkk.
Qed.

(** C10. An incoming snapshot with a top-level range whose end is [None]
    or [''] is never merged into a non-empty snapshot: the validity test
    answers with that falsy end whatever the existing ranges are, and the
    merge leaves the store as it is, returning [None] (or raising the
    [TypeError] of a comparison with [None] made for another range, which
    cannot happen when the existing ranges and the incoming starts are
    strings). *)
Theorem unfinished_range_never_merged (h : heap) e n se sn start end_ :
  h !! e = Some (OSnap se) ->
  h !! n = Some (OSnap sn) ->
  In (start, end_) (dateRange sn) ->
  end_ = None \/ end_ = Some EmptyString ->
  (forall existing, exists v,
     is_date_range_valid existing (start, end_) = Ok v /\ truthy v = false)
  /\ (merge_formatted_stats_data (RLoc e) (RLoc n) h = (Ok RNone, h)
      \/ merge_formatted_stats_data (RLoc e) (RLoc n) h = (Raise TypeError, h))
  /\ (forallb typed_range (dateRange se) = true ->
      (forall dr, In dr (dateRange sn) -> fst dr <> None) ->
      merge_formatted_stats_data (RLoc e) (RLoc n) h = (Ok RNone, h)).
Proof.
  intros He Hn Hin Hend. split; [|split].
  - intros existing. by apply falsy_end_invalid.
  - rewrite (merge_nonempty _ _ _ _ _ He Hn).
    destruct (all_valid_falsy_end (dateRange se) _ _ _ Hin Hend) as [-> | ->]; auto.
  - intros Hte Htn. rewrite (merge_nonempty _ _ _ _ _ He Hn).
    destruct (all_valid_falsy_end (dateRange se) _ _ _ Hin Hend) as [-> | Hr]; [done|].
    destruct (all_valid_started _ _ Hte Htn) as [b Hb]. congruence.
Qed.

Lemma unfinished_range_never_merged_witness :
  (forall existing, exists v,
     is_date_range_valid existing (day "2023-05-07", @None string) = Ok v /\ truthy v = false)
  /\ (merge_formatted_stats_data (RLoc 1%nat) (RLoc 2%nat) unfinished_docs = (Ok RNone, unfinished_docs)
      \/ merge_formatted_stats_data (RLoc 1%nat) (RLoc 2%nat) unfinished_docs
         = (Raise TypeError, unfinished_docs))
  /\ (forallb typed_range [(day "2023-05-10", day "2023-05-08")] = true ->
      (forall dr, In dr [(day "2023-05-07", @None string)] -> fst dr <> None) ->
      merge_formatted_stats_data (RLoc 1%nat) (RLoc 2%nat) unfinished_docs = (Ok RNone, unfinished_docs)).
Proof.
  apply (unfinished_range_never_merged unfinished_docs 1%nat 2%nat
           (mkSnapshot [(day "2023-05-10", day "2023-05-08")] 10 [])
           (mkSnapshot [(day "2023-05-07", @None string)] 7 [])
           (day "2023-05-07") None).
  - reflexivity.
  - reflexivity.
  - simpl. left. reflexivity.
  - left. reflexivity.
Defined.



End MergeClaims2.

(** ** The claims about [GitHubStatsData] *)

Section Classification.
Import Spec.
Import GitHubStatsData Classified.

Variable upper : string -> string.

Lemma append_cons c s t : String c s ++ t = String c (s ++ t).
Proof. reflexivity. Qed.

Lemma append_empty t : EmptyString ++ t = t.
Proof. reflexivity. Qed.

Lemma prefix_spec t s : String.prefix t s = true <-> exists after, s = t ++ after.
Proof.
  revert t. induction s as [|b s IH]; intros [|a t]; simpl.
  - split; [intros _; by exists EmptyString|done].
  - split; [done|]. intros (after & H). by rewrite append_cons in H.
  - split; [intros _; by exists (String b s)|done].
  - destruct (ascii_dec a b) as [->|Hne].
    + rewrite IH. split; intros (after & H); exists after.
      * by rewrite append_cons, H.
      * rewrite append_cons in H. congruence.
    + split; [done|]. intros (after & H). rewrite append_cons in H. congruence.
Qed.

Lemma contains_unfold t s :
  contains t s
  = String.prefix t s || match s with EmptyString => false | String _ s' => contains t s' end.
Proof. by destruct s. Qed.

Lemma contains_spec t s :
  contains t s = true <-> exists before after, s = before ++ t ++ after.
Proof.
  induction s as [|c s IH]; rewrite contains_unfold.
  - rewrite orb_false_r, prefix_spec. split.
    + intros (after & H). by exists EmptyString, after.
    + intros (before & after & H). destruct before as [|c before].
      * by exists after.
      * by rewrite append_cons in H.
  - rewrite orb_true_iff, prefix_spec, IH. split.
    + intros [(after & H)|(before & after & H)].
      * by exists EmptyString, after.
      * exists (String c before), after. by rewrite append_cons, H.
    + intros (before & after & H). destruct before as [|c' before].
      * left. by exists after.
      * right. exists before, after. rewrite append_cons in H. congruence.
Qed.

(** The search finds a keyword exactly when one of the keywords occurs
    in the upper case of one of the texts. *)
Lemma any_key_word_spec keywords fetched_data :
  any_key_word upper keywords fetched_data = true <-> mentions upper keywords fetched_data.
Proof.
  unfold any_key_word, mentions, occurs_in. rewrite existsb_exists. split.
  - intros (text & Htext & (keyword & Hk & Hc)%existsb_exists).
    exists keyword, text. split; [done|]. split; [done|]. by apply contains_spec.
  - intros (keyword & text & Hk & Htext & Hc). exists text. split; [done|].
    apply existsb_exists. exists keyword. split; [done|]. by apply contains_spec.
Qed.

(** On ASCII texts the search is the one with [ascii_upper]. *)
Lemma any_key_word_ascii keywords fetched_data :
  upper_on_ascii upper -> forallb is_ascii fetched_data = true ->
  any_key_word upper keywords fetched_data = any_key_word ascii_upper keywords fetched_data.
Proof.
  intros Hupper. unfold any_key_word.
  induction fetched_data as [|text data IH]; simpl; [done|].
  intros [Htext Hdata]%andb_true_iff. by rewrite (Hupper _ Htext), IH.
Qed.

Lemma search_tdd_spec repo_owner_name fetched_data is_topic d r0 :
  dict_get repo_owner_name (repos d) = Some r0 ->
  search_fetched_data_for_tdd_key_words upper repo_owner_name fetched_data is_topic d
  = Ok (if negb (isTDD r0) && any_key_word upper TDD_STR_MATCHES fetched_data
        then set_repo_record repo_owner_name (with_isTDD true r0) d else d).
Proof.
  intros Hr. unfold search_fetched_data_for_tdd_key_words, repo_record. rewrite Hr. simpl.
  destruct (isTDD r0); simpl; [done|].
  destruct (any_key_word _ _ _); [|done]. by rewrite ?Hr.
Qed.

Lemma search_devop_spec repo_owner_name fetched_data is_topic is_workflow d r0 :
  dict_get repo_owner_name (repos d) = Some r0 ->
  search_fetched_data_for_devop_key_words upper repo_owner_name fetched_data is_topic is_workflow d
  = Ok (if isTDD r0 && negb (isDevOps r0) &&
           any_key_word upper (if is_workflow then removelast DEVOPS_STR_MATCHES
                               else DEVOPS_STR_MATCHES) fetched_data
        then set_repo_record repo_owner_name (with_isDevOps true r0) d else d).
Proof.
  intros Hr. unfold search_fetched_data_for_devop_key_words, repo_record. rewrite Hr. simpl.
  destruct (isTDD r0 && negb (isDevOps r0)); simpl; [|done].
  destruct (any_key_word _ _ _); [|done]. by rewrite ?Hr.
Qed.

(** Writing back a record that kept its flags keeps the flags of every
    record of the snapshot. *)
Lemma set_repo_record_flags repo_owner_name r0 r0' d key r :
  dict_get repo_owner_name (repos d) = Some r0 -> flags_kept r0 r0' ->
  dict_get key (repos d) = Some r ->
  exists r', dict_get key (repos (set_repo_record repo_owner_name r0' d)) = Some r'
             /\ flags_kept r r'.
Proof.
  intros H0 Hf Hk. simpl. destruct (decide (repo_owner_name = key)) as [<-|Hne].
  - rewrite dict_get_set_eq. exists r0'. split; [done|]. congruence.
  - rewrite dict_get_set_ne by done. exists r. by split.
Qed.

Lemma search_tdd_keeps_flags repo_owner_name fetched_data is_topic d r0 key r :
  dict_get repo_owner_name (repos d) = Some r0 -> dict_get key (repos d) = Some r ->
  exists d' r',
    search_fetched_data_for_tdd_key_words upper repo_owner_name fetched_data is_topic d = Ok d'
    /\ dict_get key (repos d') = Some r' /\ flags_kept r r'.
Proof.
  intros H0 Hk. rewrite (search_tdd_spec _ _ _ _ _ H0).
  destruct (negb (isTDD r0) && any_key_word upper TDD_STR_MATCHES fetched_data).
  - destruct (set_repo_record_flags repo_owner_name r0 (with_isTDD true r0) d key r)
      as (r' & ? & ?); [done|by split|done|]. eauto.
  - exists d, r. by repeat split.
Qed.

Lemma search_devop_keeps_flags repo_owner_name fetched_data is_topic is_workflow d r0 key r :
  dict_get repo_owner_name (repos d) = Some r0 -> dict_get key (repos d) = Some r ->
  exists d' r',
    search_fetched_data_for_devop_key_words upper repo_owner_name fetched_data is_topic
      is_workflow d = Ok d'
    /\ dict_get key (repos d') = Some r' /\ flags_kept r r'.
Proof.
  intros H0 Hk. rewrite (search_devop_spec _ _ _ _ _ _ H0).
  destruct (isTDD r0 && negb (isDevOps r0) && any_key_word upper _ fetched_data).
  - destruct (set_repo_record_flags repo_owner_name r0 (with_isDevOps true r0) d key r)
      as (r' & ? & ?); [done|by split|done|]. eauto.
  - exists d, r. by repeat split.
Qed.

(** The workflow file name [deploy.yml] matches none of the keywords that
    are left once [.YML] is dropped; [ci.yml] matches [CI]. *)
Lemma deploy_yml_matches_no_keyword :
  any_key_word ascii_upper (removelast DEVOPS_STR_MATCHES) ["deploy.yml"] = false
  /\ any_key_word ascii_upper DEVOPS_STR_MATCHES ["deploy.yml"] = true
  /\ any_key_word ascii_upper (removelast DEVOPS_STR_MATCHES) ["ci.yml"] = true.
Proof. repeat split; reflexivity. Qed.

(** C8. [search_fetched_data_for_devop_key_words] sets [isDevOps] exactly
    when the repository's [isTDD] is set, its [isDevOps] is not, and one
    of the keywords occurs in the upper case of one of the texts; for
    workflow file names the keywords are the list without its last entry
    ['.YML']. So without [isTDD] nothing is written, whatever the
    evidence. The workflow file name [deploy.yml] never sets the flag,
    with or without [isTDD]: no keyword but ['.YML'] occurs in it (as a
    commit message the same text does set it). The workflow file name
    [ci.yml] sets it for a repository that is TDD. *)
Theorem devops_only_after_tdd repo_owner_name fetched_data is_topic is_workflow d r :
  upper_on_ascii upper ->
  dict_get repo_owner_name (repos d) = Some r ->
  (exists found : bool,
     search_fetched_data_for_devop_key_words upper repo_owner_name fetched_data is_topic
       is_workflow d
     = Ok (if found then set_repo_record repo_owner_name (with_isDevOps true r) d else d)
     /\ (found = true <->
         isTDD r = true /\ isDevOps r = false /\
         mentions upper
           (if is_workflow
            then ["DEVOPS"; "CI"; "CI/CD"; "CD"; "CONTINUOUS INTEGRATION"; "CONTINUOUS DE";
                  "ACTIONS"; "IAC"; "IAAS"; "PAAS"; "KUBERNETES"; "ANSIBLE"; "TERRAFORM";
                  "AUTOMA"]
            else ["DEVOPS"; "CI"; "CI/CD"; "CD"; "CONTINUOUS INTEGRATION"; "CONTINUOUS DE";
                  "ACTIONS"; "IAC"; "IAAS"; "PAAS"; "KUBERNETES"; "ANSIBLE"; "TERRAFORM";
                  "AUTOMA"; ".YML"])
           fetched_data))
  /\ (isTDD r = false ->
        search_fetched_data_for_devop_key_words upper repo_owner_name fetched_data is_topic
          is_workflow d = Ok d)
  /\ search_fetched_data_for_devop_key_words upper repo_owner_name ["deploy.yml"] false true d
     = Ok d
  /\ (isTDD r = true -> isDevOps r = false ->
        search_fetched_data_for_devop_key_words upper repo_owner_name ["ci.yml"] false true d
        = Ok (set_repo_record repo_owner_name (with_isDevOps true r) d)
        /\ search_fetched_data_for_devop_key_words upper repo_owner_name ["deploy.yml"]
             false false d
           = Ok (set_repo_record repo_owner_name (with_isDevOps true r) d)).
Proof.
  intros Hupper Hr. destruct deploy_yml_matches_no_keyword as (Hdeploy & Hcommit & Hci).
  split; [|split; [|split]].
  - exists (isTDD r && negb (isDevOps r) &&
            any_key_word upper (if is_workflow then removelast DEVOPS_STR_MATCHES
                                else DEVOPS_STR_MATCHES) fetched_data).
    split; [by apply search_devop_spec|].
    rewrite !andb_true_iff, negb_true_iff, any_key_word_spec.
    destruct is_workflow; tauto.
  - intros Hf. rewrite (search_devop_spec _ _ _ _ _ _ Hr), Hf. done.
  - rewrite (search_devop_spec _ _ _ _ _ _ Hr).
    rewrite (any_key_word_ascii _ ["deploy.yml"] Hupper eq_refl), Hdeploy.
    by rewrite andb_false_r.
  - intros Ht Hd. split.
    + rewrite (search_devop_spec _ _ _ _ _ _ Hr).
      by rewrite (any_key_word_ascii _ ["ci.yml"] Hupper eq_refl), Hci, Ht, Hd.
    + rewrite (search_devop_spec _ _ _ _ _ _ Hr).
      by rewrite (any_key_word_ascii _ ["deploy.yml"] Hupper eq_refl), Hcommit, Ht, Hd.
Qed.

(** C7. The claim: a repository key already in the worker's [repos] is
    never fetched or classified again. The worker [seen_worker] holds
    [alice/repo1] with 3 commits and both flags set; formatting a later
    page that lists [alice/repo1] again fetches its commits and workflow
    files a second time and replaces its record by a fresh one, flags
    cleared (line 214 looks the key up among the keys of the top-level
    dict, not among those of [repos]). *)
Theorem seen_repo_is_fetched_again :
  format_fetched_repo_data_for_stat_analysis upper "2023-05-10" "2023-05-01"
    Samples.nothing_fetched "2023-05-09" Samples.later_page Samples.seen_worker
  = Ok (mkWorker
          (mkStatsData [(Some "2023-05-10", None)] 25
             [("alice/repo1",
               mkRepoRecord [(Some "2023-05-10", Some "2023-05-01")] 0 41 false false [])])
          [("alice/repo1", false); ("alice/repo1", true);
           ("alice/repo1", false); ("alice/repo1", true)]).
Proof. reflexivity. Qed.

End Classification.

Section ClassificationWitness.
Import GitHubStatsData Classified.

Lemma devops_only_after_tdd_witness :
  search_fetched_data_for_devop_key_words ascii_upper "alice/repo1" ["deploy.yml"] false true
    MoreSamples.tested_stats
  = Ok MoreSamples.tested_stats
  /\ search_fetched_data_for_devop_key_words ascii_upper "alice/repo1" ["ci.yml"] false true
       MoreSamples.tested_stats
     = Ok (mkStatsData [(Some "2023-05-10", None)] 0
             [("alice/repo1",
               mkRepoRecord [(Some "2023-05-10", Some "2023-05-01")] 3 40 true true
                            [("Python", 5)])]).
Proof.
  destruct (devops_only_after_tdd ascii_upper "alice/repo1" ["ci.yml"] false true
              MoreSamples.tested_stats
              (mkRepoRecord [(Some "2023-05-10", Some "2023-05-01")] 3 40 true false
                            [("Python", 5)]))
    as (_ & _ & Hdeploy & Hci); [intros s _; reflexivity|reflexivity|].
  split; [exact Hdeploy|]. apply Hci; reflexivity.
Defined.

End ClassificationWitness.

Section Sticky.
Import Spec DatabaseManager.

Variable upper : string -> string.

(** C9. The flags are sticky: neither keyword search nor the merge turns
    a flag that is set back to false. For every record [r] of the worker's
    snapshot, after a TDD search and after a DevOps search (for any
    repository, on any evidence) the record under the same key has every
    flag that [r] had. For every repository of the existing snapshot,
    after a merge (accepted, rejected or ended by an exception) the
    snapshot binds its key to the same record object, and that object
    has every flag it had; and every other record object of the store
    has every flag it had, whatever the arguments of the merge. *)
Theorem flags_are_sticky repo_owner_name fetched_data is_topic is_workflow d r0 key r
    e new_data (h : heap) se repo_name l rec :
  dict_get repo_owner_name (GitHubStatsData.repos d) = Some r0 ->
  dict_get key (GitHubStatsData.repos d) = Some r ->
  h !! e = Some (OSnap se) ->
  dict_get repo_name (repos se) = Some l ->
  h !! l = Some (ORec rec) ->
  (exists d' r',
     GitHubStatsData.search_fetched_data_for_tdd_key_words upper repo_owner_name fetched_data
       is_topic d = Ok d'
     /\ dict_get key (GitHubStatsData.repos d') = Some r'
     /\ (isTDD r = true -> isTDD r' = true) /\ (isDevOps r = true -> isDevOps r' = true))
  /\ (exists d' r',
        GitHubStatsData.search_fetched_data_for_devop_key_words upper repo_owner_name
          fetched_data is_topic is_workflow d = Ok d'
        /\ dict_get key (GitHubStatsData.repos d') = Some r'
        /\ (isTDD r = true -> isTDD r' = true) /\ (isDevOps r = true -> isDevOps r' = true))
  /\ (exists se' rec',
        (merge_formatted_stats_data (RLoc e) new_data h).2 !! e = Some (OSnap se')
        /\ dict_get repo_name (repos se') = Some l
        /\ (merge_formatted_stats_data (RLoc e) new_data h).2 !! l = Some (ORec rec')
        /\ (isTDD rec = true -> isTDD rec' = true)
        /\ (isDevOps rec = true -> isDevOps rec' = true))
  /\ (forall existing_data l0 rec0, h !! l0 = Some (ORec rec0) ->
        exists rec0',
          (merge_formatted_stats_data existing_data new_data h).2 !! l0 = Some (ORec rec0')
          /\ (isTDD rec0 = true -> isTDD rec0' = true)
          /\ (isDevOps rec0 = true -> isDevOps rec0' = true)).
Proof.
  intros H0 Hk He Hname Hl. split; [|split; [|split]].
  - destruct (search_tdd_keeps_flags upper repo_owner_name fetched_data is_topic d r0 key r H0 Hk)
      as (d' & r' & ? & ? & ? & ?). eauto 8.
  - destruct (search_devop_keeps_flags upper repo_owner_name fetched_data is_topic is_workflow
                d r0 key r H0 Hk) as (d' & r' & ? & ? & ? & ?). eauto 8.
  - destruct (merge_keeps_flags e new_data h) as [HR HK].
    destruct (HK se repo_name l He Hname) as (se' & He' & Hname').
    destruct (HR l rec Hl) as (rec' & Hl' & Ht & Hd).
    exists se', rec'. by repeat split.
  - intros existing_data l0 rec0 Hl0. destruct existing_data as [|e0].
    + exists rec0. by repeat split.
    + destruct (merge_keeps_flags e0 new_data h) as [HR _].
      destruct (HR l0 rec0 Hl0) as (rec' & ? & ? & ?). eauto.
Qed.

End Sticky.

Section StickyWitness.
Import Spec DatabaseManager.

(** On [flagged_docs] the merge is accepted and updates the record of
    [alice/repo1]; the incoming record has no flag, the merged one has
    both. *)
Lemma flags_are_sticky_witness :
  exists se' rec',
    (merge_formatted_stats_data (RLoc 1%nat) (RLoc 2%nat) MoreSamples.flagged_docs).2 !! 1%nat
      = Some (OSnap se')
    /\ dict_get "alice/repo1" (repos se') = Some 3%nat
    /\ (merge_formatted_stats_data (RLoc 1%nat) (RLoc 2%nat) MoreSamples.flagged_docs).2 !! 3%nat
       = Some (ORec rec')
    /\ isTDD rec' = true /\ isDevOps rec' = true.
Proof.
  destruct (flags_are_sticky GitHubStatsData.ascii_upper "alice/repo1" ["tdd"] true false
              MoreSamples.tested_stats
              (mkRepoRecord [(Some "2023-05-10", Some "2023-05-01")] 3 40 true false
                            [("Python", 5)])
              "alice/repo1"
              (mkRepoRecord [(Some "2023-05-10", Some "2023-05-01")] 3 40 true false
                            [("Python", 5)])
              1%nat (RLoc 2%nat) MoreSamples.flagged_docs
              (mkSnapshot [(Some "2023-05-10", Some "2023-05-08")] 10 [("alice/repo1", 3%nat)])
              "alice/repo1" 3%nat
              (mkRepoRecord [(Some "2023-05-10", Some "2023-05-08")] 3 100 true true [("C", 5)]))
    as (_ & _ & (se' & rec' & He & Hname & Hl & Ht & Hd) & _); [reflexivity..|].
  exists se', rec'. split; [exact He|]. split; [exact Hname|]. split; [exact Hl|].
  split; [apply Ht|apply Hd]; reflexivity.
Defined.

End StickyWitness.

(** ** The claim about [Producer] *)

Section Partition.
Import Producer.

(** C4. The claim: 17 days over 5 consumers give blocks of 4, 4, 3, 3, 3
    days at offsets 0, 4, 8, 11, 14. [publish 17 5] hands out no block at
    all: the first [GitHubStatsData(...)] call raises [TypeError] (it is
    given the int 17 as [created_before_date]) and nothing is sent. The
    arguments computed before it are not those of the claim either:
    [17 / 5] is the float 3.4, the first call is given 4.4 days, and for
    the consumer ids 0 to 4 lines 44-46 give blocks of 4.4, 4.4, 3.4, 3.4,
    3.4 days (19 days in all) at offsets 0, 4.4, 8.8, 12.2, 15.6. *)
Theorem publish_17_5_raises_on_fractional_blocks :
  publish 17 5 = (Raise TypeError, [])
  /\ true_div 17 5 = Ok 0x1.b333333333333p+1%float
  /\ map (consumer_args 17 5 0x1.b333333333333p+1%float) (range 5) =
       [Ok (mkCollectionTask 0 0 0x1.199999999999ap+2 17);
        Ok (mkCollectionTask 1 0x1.199999999999ap+2 0x1.199999999999ap+2 17);
        Ok (mkCollectionTask 2 0x1.199999999999ap+3 0x1.b333333333333p+1 17);
        Ok (mkCollectionTask 3 0x1.8666666666666p+3 0x1.b333333333333p+1 17);
        Ok (mkCollectionTask 4 0x1.f333333333333p+3 0x1.b333333333333p+1 17)]
  /\ PrimFloat.eqb 0x1.199999999999ap+2 4 = false
  /\ PrimFloat.eqb 0x1.b333333333333p+1 3 = false
  /\ PrimFloat.ltb 17 (PrimFloat.add (PrimFloat.add (PrimFloat.add (PrimFloat.add
        0x1.199999999999ap+2 0x1.199999999999ap+2) 0x1.b333333333333p+1)
        0x1.b333333333333p+1) 0x1.b333333333333p+1) = true.
Proof. repeat split; vm_compute; reflexivity. Qed.

End Partition.

(** ** Date strings are totally ordered *)

Section DateOrderFacts.
Import DateOrder.

Lemma ascii_compare_N a b : Ascii.compare a b = N.compare (N_of_ascii a) (N_of_ascii b).
Proof. reflexivity. Qed.

Lemma ascii_compare_Eq a b : Ascii.compare a b = Eq -> a = b.
Proof. apply Ascii.compare_eq_iff. Qed.

Lemma string_compare_refl s : String.compare s s = Eq.
Proof.
  induction s as [|a s IH]; simpl; [done|].
  rewrite ascii_compare_N, N.compare_refl. done.
Qed.

(** [<=] is transitive. *)
Lemma string_compare_le_trans s1 s2 s3 :
  String.compare s1 s2 <> Gt -> String.compare s2 s3 <> Gt -> String.compare s1 s3 <> Gt.
Proof.
  revert s2 s3. induction s1 as [|a s1 IH]; intros [|b s2] [|c s3]; simpl; try done.
  rewrite !ascii_compare_N.
  destruct (N.compare_spec (N_of_ascii a) (N_of_ascii b)) as [Hab|Hab|Hab];
    destruct (N.compare_spec (N_of_ascii b) (N_of_ascii c)) as [Hbc|Hbc|Hbc];
    destruct (N.compare_spec (N_of_ascii a) (N_of_ascii c)) as [Hac|Hac|Hac];
    try done; try lia.
  apply IH.
Qed.

Lemma ltb_leb a b : String.ltb a b = negb (String.leb b a).
Proof.
  unfold String.ltb, String.leb. rewrite (String.compare_antisym a b).
  destruct (String.compare b a); done.
Qed.

Lemma not_after_refl a : not_after a a.
Proof. unfold not_after, String.leb. by rewrite string_compare_refl. Qed.

Lemma not_after_trans a b c : not_after a b -> not_after b c -> not_after a c.
Proof.
  unfold not_after, String.leb. intros Hab Hbc.
  pose proof (string_compare_le_trans a b c) as H.
  destruct (String.compare a b), (String.compare b c), (String.compare a c); try done;
    exfalso; by apply H.
Qed.

Lemma before_not_after a b : before a b <-> ~ not_after b a.
Proof.
  unfold before, not_after. rewrite ltb_leb.
  destruct (String.leb b a); simpl; intuition congruence.
Qed.

Lemma before_irrefl a : ~ before a a.
Proof. rewrite before_not_after. intros H. apply H, not_after_refl. Qed.

Lemma before_asym a b : before a b -> ~ before b a.
Proof.
  rewrite !before_not_after. intros Hab Hba.
  destruct (String.leb_total a b); done.
Qed.

End DateOrderFacts.

(** ** What [is_date_range_valid] decides *)

Section ValidityDecides.
Import DatabaseManager Spec DateOrder.

Lemma comprehension_map {A B} (f : A -> Res B) (g : A -> B) (l : list A) :
  (forall x, In x l -> f x = Ok (g x)) -> comprehension f l = Ok (map g l).
Proof.
  induction l as [|x l IH]; intros Hf; simpl; [done|].
  rewrite (Hf x) by (by left). simpl. rewrite IH; [done|].
  intros y Hy. apply Hf. by right.
Qed.

Lemma endpoint_within_strings b0 b1 a0 a1 :
  endpoint_within (Some b0, Some b1) (Some a0, Some a1)
  = Ok ((String.leb b1 a0 && String.leb a0 b0) || (String.leb b1 a1 && String.leb a1 b0)).
Proof.
  unfold endpoint_within, py_le_chain. simpl.
  destruct (String.leb b1 a0); simpl; [|by destruct (String.leb b1 a1)].
  destruct (String.leb a0 b0); simpl; [done|]. by destruct (String.leb b1 a1).
Qed.

(** One existing range against the new one, in the order of the dates:
    no endpoint of the existing range [a0 .. a1] lies within the new
    range [b0 .. b1] exactly when the existing range is entirely before
    it, entirely after it, or strictly around it. *)
Lemma no_endpoint_within b0 b1 a0 a1 :
  descending a0 a1 ->
  negb ((String.leb b1 a0 && String.leb a0 b0) || (String.leb b1 a1 && String.leb a1 b0)) = true
  <-> before a0 b1 \/ before b0 a1 \/ (before b0 a0 /\ before a1 b1).
Proof.
  intros Ha. rewrite !before_not_after. unfold not_after.
  assert (String.leb b1 a1 = true -> String.leb b1 a0 = true) as H1.
  { intros H. by apply (not_after_trans b1 a1 a0). }
  assert (String.leb a0 b0 = true -> String.leb a1 b0 = true) as H2.
  { intros H. by apply (not_after_trans a1 a0 b0). }
  destruct (String.leb b1 a0), (String.leb a0 b0), (String.leb b1 a1), (String.leb a1 b0);
    simpl; intuition congruence.
Qed.

(** The test of lines 137-139 on string dates, in closed form. *)
Lemma is_date_range_valid_exact existing b0 b1 :
  b1 <> EmptyString ->
  (forall dr, In dr existing -> exists a0 a1, dr = (Some a0, Some a1) /\ descending a0 a1) ->
  exists v,
    is_date_range_valid existing (Some b0, Some b1) = Ok (PyBool v)
    /\ (v = true <->
        forall a0 a1, In (Some a0, Some a1) existing ->
          before a0 b1 \/ before b0 a1 \/ (before b0 a0 /\ before a1 b1)).
Proof.
  intros Hb Hex.
  set (hit := fun dr : DateRange =>
    match dr with
    | (Some a0, Some a1) =>
        (String.leb b1 a0 && String.leb a0 b0) || (String.leb b1 a1 && String.leb a1 b0)
    | _ => false
    end).
  exists (negb (existsb id (map hit existing))). split.
  - unfold is_date_range_valid. simpl.
    apply String.eqb_neq in Hb. rewrite Hb.
    rewrite (comprehension_map _ hit); [done|].
    intros dr (a0 & a1 & -> & _)%Hex. apply endpoint_within_strings.
  - rewrite negb_true_iff, <- not_true_iff_false, existsb_exists. split.
    + intros Hnone a0 a1 Hin. destruct (Hex _ Hin) as (a0' & a1' & [= <- <-] & Hdesc).
      apply no_endpoint_within; [done|]. apply negb_true_iff, not_true_iff_false.
      intros Hhit. apply Hnone. exists true. split; [|done].
      apply in_map_iff. exists (Some a0, Some a1). by split.
    + intros Hall (x & Hx & Hid). unfold id in Hid. subst x.
      apply in_map_iff in Hx as (dr & Hhit & Hin).
      destruct (Hex _ Hin) as (a0 & a1 & -> & Hdesc).
      specialize (Hall a0 a1 Hin). apply no_endpoint_within in Hall; [|done].
      simpl in Hhit. rewrite Hhit in Hall. done.
Qed.

(** X1. A new range with string endpoints and a non-empty end is valid
    exactly when every existing range is entirely before it, entirely
    after it, or strictly around it; in the last case the two ranges
    share dates and the new range is valid all the same. *)
Theorem is_date_range_valid_decides existing b0 b1 :
  b1 <> EmptyString ->
  (forall dr, In dr existing -> exists a0 a1, dr = (Some a0, Some a1) /\ descending a0 a1) ->
  exists v,
    is_date_range_valid existing (Some b0, Some b1) = Ok (PyBool v)
    /\ (v = true <->
        forall a0 a1, In (Some a0, Some a1) existing ->
          before a0 b1 \/ before b0 a1 \/ (before b0 a0 /\ before a1 b1)).
Proof. apply is_date_range_valid_exact. Qed.

Lemma is_date_range_valid_decides_witness :
  exists v,
    is_date_range_valid [(Some "2023-05-10", Some "2023-05-01")] (Some "2023-05-07", Some "2023-05-05")
      = Ok (PyBool v)
    /\ (v = true <->
        forall a0 a1, In (Some a0, Some a1) [(Some "2023-05-10", Some "2023-05-01")] ->
          before a0 "2023-05-05" \/ before "2023-05-07" a1
          \/ (before "2023-05-07" a0 /\ before a1 "2023-05-05")).
Proof.
  apply (is_date_range_valid_decides [(Some "2023-05-10", Some "2023-05-01")]
           "2023-05-07" "2023-05-05").
  - discriminate.
  - intros dr [<-|[]]. exists "2023-05-10", "2023-05-01". split; reflexivity.
Defined.

(** X2. Asked in both directions, the test is exact: two descending ranges
    are each valid against the other exactly when one lies entirely
    before the other. *)
Theorem two_way_validity_is_disjointness a0 a1 b0 b1 :
  a1 <> EmptyString -> b1 <> EmptyString ->
  descending a0 a1 -> descending b0 b1 ->
  exists v w,
    is_date_range_valid [(Some a0, Some a1)] (Some b0, Some b1) = Ok (PyBool v)
    /\ is_date_range_valid [(Some b0, Some b1)] (Some a0, Some a1) = Ok (PyBool w)
    /\ (v && w = true <-> before a0 b1 \/ before b0 a1).
Proof.
  intros Ha Hb Hda Hdb.
  destruct (is_date_range_valid_exact [(Some a0, Some a1)] b0 b1 Hb) as (v & Hv & Hviff).
  { intros dr [<-|[]]. eauto. }
  destruct (is_date_range_valid_exact [(Some b0, Some b1)] a0 a1 Ha) as (w & Hw & Hwiff).
  { intros dr [<-|[]]. eauto. }
  exists v, w. split; [done|]. split; [done|].
  rewrite andb_true_iff, Hviff, Hwiff. split.
  - intros [Hv' Hw'].
    destruct (Hv' a0 a1) as [?|[?|[H1 H2]]]; [by left|auto..|].
    destruct (Hw' b0 b1) as [?|[?|[H3 H4]]]; [by left|auto..|].
    by destruct (before_asym _ _ H1).
  - intros Hd. split.
    + intros ? ? [[= <- <-]|[]]. tauto.
    + intros ? ? [[= <- <-]|[]]. tauto.
Qed.

Lemma two_way_validity_is_disjointness_witness :
  exists v w,
    is_date_range_valid [(Some "2023-05-10", Some "2023-05-08")] (Some "2023-05-07", Some "2023-05-05")
      = Ok (PyBool v)
    /\ is_date_range_valid [(Some "2023-05-07", Some "2023-05-05")] (Some "2023-05-10", Some "2023-05-08")
      = Ok (PyBool w)
    /\ (v && w = true <-> before "2023-05-10" "2023-05-05" \/ before "2023-05-07" "2023-05-08").
Proof.
  apply (two_way_validity_is_disjointness "2023-05-10" "2023-05-08" "2023-05-07" "2023-05-05");
    [discriminate|discriminate|reflexivity|reflexivity].
Defined.

End ValidityDecides.

(** ** The closed form of the loop body *)

Section UpdateRepoClosed.
Import DatabaseManager Spec DateOrder MergeFrame.

Lemma max_fold_ge l acc :
  let m := fold_left (fun m y => if str_gt y m then y else m) l acc in
  not_after acc m /\ forall x, In x l -> not_after x m.
Proof.
  revert acc. induction l as [|y l IH]; intros acc; simpl.
  - split; [apply not_after_refl|done].
  - destruct (IH (if str_gt y acc then y else acc)) as [Hacc Hall].
    assert (not_after acc (if str_gt y acc then y else acc)
            /\ not_after y (if str_gt y acc then y else acc)) as [H1 H2].
    { unfold str_gt. rewrite ltb_leb. unfold not_after.
      destruct (String.leb y acc) eqn:Hle; simpl.
      - split; [apply not_after_refl|done].
      - split; [|apply not_after_refl].
        destruct (String.leb_total acc y) as [?|?]; [done|congruence]. }
    split; [by eapply not_after_trans|].
    intros x [<-|Hx]; [by eapply not_after_trans|by apply Hall].
Qed.

(** [max(l)] is not below any element of [l]. *)
Lemma max_list_ge l m x : max_list l = Ok m -> In x l -> str_gt x m = false.
Proof.
  destruct l as [|y l]; simpl; [done|]. intros [= <-] Hx.
  destruct (max_fold_ge l y) as [Hy Hall].
  unfold str_gt. rewrite ltb_leb, negb_false_iff.
  destruct Hx as [<-|Hx]; [done|by apply Hall].
Qed.

Variables (h : heap) (re rn : loc) (rN : RepoRecord).
Hypothesis Hne : re <> rn.
Hypothesis Hrn : h !! rn = Some (ORec rN).

(** Lines 177-179 after line 166: the newest incoming date is among the
    dates of the extended list, so it is never above their maximum. *)
Lemma run_is_more_current_false r dr drs :
  forallb typed_range (r_dateRange r) = true ->
  r_dateRange rN = dr :: drs -> In dr (r_dateRange r) ->
  is_more_current re rn (<[re := ORec r]> h) = (Ok false, <[re := ORec r]> h).
Proof.
  intros Hr HdN Hin. unfold is_more_current.
  rewrite (bind_ok _ _ _ _ _ (read_new h re rn rN Hne Hrn r)), HdN.
  assert (typed_range dr = true) as Hdr.
  { by apply (proj1 (forallb_forall _ _) Hr). }
  destruct (max_pair_typed dr Hdr) as [newest Hnewest].
  erewrite bind_ok; [|unfold lift; by rewrite Hnewest].
  rewrite (bind_ok _ _ _ _ _ (read_existing h re r)).
  destruct (comprehension_ok max_pair (fun dr => typed_range dr = true) (r_dateRange r))
    as (ms & Hms & Hlen).
  { apply max_pair_typed. }
  { apply Forall_forall. intros x Hx. by apply (proj1 (forallb_forall _ _) Hr), list_elem_of_In. }
  erewrite bind_ok; [|unfold lift; by rewrite Hms].
  pose proof (comprehension_In _ _ _ _ _ Hms Hin Hnewest) as Hnin.
  destruct (max_list ms) as [m|x] eqn:Hm.
  2:{ destruct ms; [done|discriminate]. }
  erewrite bind_ok; [|unfold lift; reflexivity].
  by rewrite (max_list_ge _ _ _ Hm Hnin).
Qed.

(** [update_repo] on two distinct records with string dates, the
    incoming one with at least one range. *)
Lemma run_update_repo_closed rE :
  forallb typed_range (r_dateRange rE) = true ->
  forallb typed_range (r_dateRange rN) = true -> r_dateRange rN <> [] ->
  update_repo re rn (<[re := ORec rE]> h) = (Ok tt, <[re := ORec (repo_outcome rE rN)]> h).
Proof.
  intros HE HN HN0. unfold repo_outcome.
  destruct (all_valid_typed _ _ HE HN) as [ok Hok]. rewrite Hok.
  unfold update_repo.
  erewrite bind_ok; cycle 1.
  { rewrite (bind_ok _ _ _ _ _ (read_new h re rn rN Hne Hrn rE)),
            (bind_ok _ _ _ _ _ (read_existing h re rE)).
    unfold lift. by rewrite Hok. }
  destruct ok; [|done].
  rewrite (bind_ok _ _ _ _ _ (run_update_rec h re rn rN Hne Hrn _ _)).
  rewrite (bind_ok _ _ _ _ _ (run_update_rec h re rn rN Hne Hrn _ _)).
  rewrite (bind_ok _ _ _ _ _ (run_update_rec h re rn rN Hne Hrn _ _)).
  rewrite (bind_ok _ _ _ _ _ (run_update_rec h re rn rN Hne Hrn _ _)).
  destruct (r_dateRange rN) as [|dr drs] eqn:HdN; [done|].
  erewrite bind_ok; cycle 1.
  { eapply (run_is_more_current_false _ dr drs); simpl.
    - by rewrite forallb_app, HE.
    - done.
    - apply in_or_app. right. by left. }
  cbv beta iota. unfold updated_record. simpl. by rewrite HdN.
Qed.

End UpdateRepoClosed.

(** ** What an accepted merge writes, and where *)

Section DictAppend.
Context {V : Type}.
Implicit Types (d : list (string * V)) (k : string) (v : V).

Lemma dict_get_app k d1 d2 :
  dict_get k (d1 ++ d2) = match dict_get k d1 with Some v => Some v | None => dict_get k d2 end.
Proof.
  induction d1 as [|[k' v'] d1 IH]; simpl; [done|].
  by destruct (String.eqb k k').
Qed.

Lemma dict_set_new k v d : dict_get k d = None -> dict_set k v d = (d ++ [(k, v)])%list.
Proof.
  induction d as [|[k' v'] d IH]; simpl; [done|].
  destruct (String.eqb k k'); [done|]. intros H. by rewrite IH.
Qed.

Lemma dict_get_not_key k d : ~ In k (dict_keys d) -> dict_get k d = None.
Proof.
  intros Hk. destruct (dict_get k d) as [v|] eqn:Hd; [|done].
  destruct Hk. apply dict_get_Some_In in Hd. by apply (in_map fst) in Hd.
Qed.

(** In a dict that binds every key once, an entry is what its key gets. *)
Lemma dict_get_entry k v d : NoDup (dict_keys d) -> In (k, v) d -> dict_get k d = Some v.
Proof.
  induction d as [|[k' v'] d IH]; simpl; [done|].
  intros [Hk' Hnd]%NoDup_cons [[= -> ->]|Hin].
  - by rewrite String.eqb_refl.
  - destruct (String.eqb k k') eqn:E; [|by apply IH].
    apply String.eqb_eq in E. subst k'. destruct Hk'.
    apply list_elem_of_In. by apply (in_map fst) in Hin.
Qed.

End DictAppend.

Section LoopFrame.
Import DatabaseManager Spec MergeFrame.

Lemma new_repos_app existing a b :
  new_repos existing (a ++ b) = (new_repos existing a ++ new_repos existing b)%list.
Proof. unfold new_repos. apply List.filter_app. Qed.

Lemma new_repos_keys existing visited k :
  In k (dict_keys (new_repos existing visited)) -> In k (dict_keys visited).
Proof.
  unfold new_repos, dict_keys. rewrite !in_map_iff.
  intros (kv & <- & Hin). apply filter_In in Hin as [Hin _]. eauto.
Qed.

Lemma new_repos_one existing k (rn : loc) :
  new_repos existing [(k, rn)]
  = match dict_get k existing with Some _ => [] | None => [(k, rn)] end.
Proof. unfold new_repos. simpl. by destruct (dict_get k existing). Qed.

Lemma update_repo_closed (h : heap) re rn rE rN :
  re <> rn -> h !! re = Some (ORec rE) -> h !! rn = Some (ORec rN) ->
  forallb typed_range (r_dateRange rE) = true ->
  forallb typed_range (r_dateRange rN) = true -> r_dateRange rN <> [] ->
  update_repo re rn h = (Ok tt, <[re := ORec (repo_outcome rE rN)]> h).
Proof.
  intros Hne Hre Hrn HE HN HN0.
  pose proof (run_update_repo_closed h re rn rN Hne Hrn rE HE HN HN0) as Hrun.
  by rewrite insert_id in Hrun.
Qed.

Variables (h0 : heap) (e n : loc) (se0 sn : Snapshot).
Hypothesis He0 : h0 !! e = Some (OSnap se0).
Hypothesis Hn0 : h0 !! n = Some (OSnap sn).
Hypothesis Hen : e <> n.
Hypothesis Hkeys : NoDup (dict_keys (repos sn)).
Hypothesis Hlocs : NoDup (map snd (repos se0)).
Hypothesis Hdisj : forall l, In l (map snd (repos se0)) -> ~ In l (map snd (repos sn)).
Hypothesis HtypedE : forall l, In l (map snd (repos se0)) ->
  exists r, h0 !! l = Some (ORec r) /\ forallb typed_range (r_dateRange r) = true.
Hypothesis HtypedN : forall l, In l (map snd (repos sn)) ->
  exists r, h0 !! l = Some (ORec r) /\ forallb typed_range (r_dateRange r) = true
            /\ r_dateRange r <> [].

Lemma loop_frame_start : loop_frame h0 e n se0 sn [] h0.
Proof.
  split; [|done|done]. exists se0. split; [done|]. by rewrite app_nil_r.
Qed.

Lemma merge_repo_step_frame visited k rn rest h :
  repos sn = (visited ++ (k, rn) :: rest)%list ->
  loop_inv h0 e n se0 sn (k :: dict_keys rest) h ->
  loop_frame h0 e n se0 sn visited h ->
  forall h', merge_repo e n k h = (Ok tt, h') ->
  loop_frame h0 e n se0 sn (visited ++ [(k, rn)]) h'.
Proof.
  intros Hsplit [In_ (se & He & _ & _ & _ & Hsame) Inew Iold _] [(se' & He' & Hrepos) Hknown Hother].
  rewrite He in He'. injection He' as <-.
  assert (In (k, rn) (repos sn)) as Hin.
  { rewrite Hsplit. apply in_or_app. right. by left. }
  pose proof (dict_get_entry _ _ _ Hkeys Hin) as Hrn.
  pose proof (dict_get_loc_In _ _ _ Hrn) as Hrn_in.
  destruct (HtypedN _ Hrn_in) as (rN & HrN0 & HtN & HneN).
  assert (rn <> e) as Hrn_e by congruence.
  assert (~ In k (dict_keys visited)) as Hfresh.
  { intros Hk. unfold dict_keys in Hkeys. rewrite Hsplit, map_app in Hkeys.
    apply NoDup_app in Hkeys as (_ & Hno & _).
    apply (Hno k); [by apply list_elem_of_In|]. simpl. by left. }
  assert (dict_get k (repos se) = dict_get k (repos se0)) as Hkse by (apply Hsame; by left).
  unfold merge_repo. rewrite (bind_ok _ _ _ _ _ (snap_at_ok _ _ _ He)), Hkse.
  destruct (dict_get k (repos se0)) as [re|] eqn:Hre.
  - pose proof (dict_get_loc_In _ _ _ Hre) as Hre_in.
    destruct (HtypedE _ Hre_in) as (rE & HrE0 & HtE).
    assert (re <> e) as Hre_e by congruence.
    assert (re <> rn) as Hne by (intros ->; by eapply Hdisj).
    assert (h !! re = Some (ORec rE)) as HrE.
    { rewrite (Iold k re Hre); [done|]. left. by left. }
    assert (h !! rn = Some (ORec rN)) as HrN by (by rewrite Inew).
    rewrite (bind_ok _ _ _ _ _ (repo_ref_ok _ _ _ _ _ He Hkse)).
    rewrite (bind_ok _ _ _ _ _ (repo_ref_ok _ _ _ _ _ In_ Hrn)).
    rewrite (update_repo_closed h re rn rE rN Hne HrE HrN HtE HtN HneN).
    intros h' [= <-]. split.
    + exists se. rewrite lookup_insert_ne by done. split; [done|].
      by rewrite new_repos_app, new_repos_one, Hre, app_nil_r.
    + intros k' re' rn' rE' rN' [Hv|[[= <- <-]|[]]]%in_app_or Hre' HrE' HrN'.
      * rewrite lookup_insert_ne; [by eapply Hknown|].
        intros <-. assert (k = k') as <- by (by eapply dict_get_inj).
        apply Hfresh. by apply (in_map fst) in Hv.
      * rewrite Hre in Hre'. injection Hre' as <-.
        rewrite HrE0 in HrE'. injection HrE' as <-.
        rewrite HrN0 in HrN'. injection HrN' as <-.
        by rewrite lookup_insert_eq.
    + intros l Hl Hl'. rewrite lookup_insert_ne; [by apply Hother|]. by intros <-.
  - rewrite (bind_ok _ _ _ _ _ (repo_ref_ok _ _ _ _ _ In_ Hrn)).
    rewrite (bind_ok _ _ _ _ _ (snap_at_ok _ _ _ He)). unfold store.
    intros h' [= <-]. split.
    + eexists. rewrite lookup_insert_eq. split; [done|]. simpl.
      rewrite new_repos_app, new_repos_one, Hre, app_assoc, <- Hrepos.
      apply dict_set_new. rewrite Hrepos, dict_get_app, Hre.
      apply dict_get_not_key. by intros ?%new_repos_keys.
    + intros k' re' rn' rE' rN' [Hv|[[= <- <-]|[]]]%in_app_or Hre' HrE' HrN'; [|congruence].
      rewrite lookup_insert_ne; [by eapply Hknown|].
      intros <-. apply dict_get_loc_In in Hre'.
      destruct (HtypedE _ Hre') as (? & ? & _). congruence.
    + intros l Hl Hl'. rewrite lookup_insert_ne; [by apply Hother|]. done.
Qed.

Lemma merge_loop_frame visited remaining h :
  repos sn = (visited ++ remaining)%list ->
  loop_inv h0 e n se0 sn (dict_keys remaining) h ->
  loop_frame h0 e n se0 sn visited h ->
  exists h', for_each (merge_repo e n) (dict_keys remaining) h = (Ok tt, h')
             /\ loop_inv h0 e n se0 sn [] h'
             /\ loop_frame h0 e n se0 sn (repos sn) h'.
Proof.
  revert visited h. induction remaining as [|[k rn] rest IH]; intros visited h Hsplit Hinv Hfr.
  - exists h. rewrite app_nil_r in Hsplit. by rewrite Hsplit.
  - simpl in Hinv |- *.
    assert (NoDup (k :: dict_keys rest)) as [Hk _]%NoDup_cons.
    { unfold dict_keys in Hkeys. rewrite Hsplit, map_app in Hkeys.
      by apply NoDup_app in Hkeys as (_ & _ & ?). }
    rewrite list_elem_of_In in Hk.
    destruct (merge_repo_step h0 e n se0 sn He0 Hn0 Hen Hlocs Hdisj HtypedE HtypedN k (dict_keys rest) h)
      as (h1 & Hrun & Hinv1); [|done..|].
    { unfold dict_keys. rewrite Hsplit, map_app. apply in_or_app. right. by left. }
    pose proof (merge_repo_step_frame visited k rn rest h Hsplit Hinv Hfr h1 Hrun) as Hfr1.
    destruct (IH (visited ++ [(k, rn)])%list h1) as (h' & Hrun' & Hinv' & Hfr'); [|done..|].
    { by rewrite <- app_assoc. }
    exists h'. split; [|done]. by rewrite (bind_ok _ _ _ _ _ Hrun).
Qed.

End LoopFrame.

Section AcceptedFrame.
Import DatabaseManager Spec MergeFrame.

Variables (h : heap) (e n : loc) (se sn : Snapshot).
Hypothesis He : h !! e = Some (OSnap se).
Hypothesis Hn : h !! n = Some (OSnap sn).
Hypothesis Hsep : separate_documents h e n = true.
Hypothesis Hok : all_valid (dateRange se) (dateRange sn) = Ok true.

(** The whole of an accepted merge of two separate documents. *)
Lemma merge_separate_documents :
  exists h' se',
    merge_formatted_stats_data (RLoc e) (RLoc n) h = (Ok (RLoc e), h')
    /\ h' !! e = Some (OSnap se')
    /\ dateRange se' = (dateRange se ++ dateRange se)%list
    /\ totalRepoCount se' = totalRepoCount se + totalRepoCount sn
    /\ repos se' = (repos se ++ new_repos (repos se) (repos sn))%list
    /\ (forall l, l <> e -> ~ In l (map snd (repos se)) -> h' !! l = h !! l)
    /\ (forall k l, dict_get k (repos se) = Some l -> ~ In k (dict_keys (repos sn)) ->
          h' !! l = h !! l)
    /\ (forall k re rn rE rN,
          dict_get k (repos se) = Some re -> dict_get k (repos sn) = Some rn ->
          h !! re = Some (ORec rE) -> h !! rn = Some (ORec rN) ->
          h' !! re = Some (ORec (repo_outcome rE rN))).
Proof.
  destruct (separate_documents_spec h e n se sn He Hn Hsep)
    as (Hen & Hkeys & Hlocs & Hdisj & HtE & HtN).
  assert (forall l, In l (map snd (repos se)) -> l <> e) as HneE.
  { intros l (r & Hr & _)%HtE. congruence. }
  assert (forall l, In l (map snd (repos sn)) -> l <> e) as HneN.
  { intros l (r & Hr & _)%HtN. congruence. }
  set (h1 := <[e := OSnap (after_top_level se sn)]> h).
  assert (h1 !! e = Some (OSnap (after_top_level se sn))) as He1 by apply lookup_insert_eq.
  assert (h1 !! n = Some (OSnap sn)) as Hn1 by (by unfold h1; rewrite lookup_insert_ne).
  assert (forall l, l <> e -> h1 !! l = h !! l) as Hsame.
  { intros l Hl. unfold h1. by rewrite lookup_insert_ne. }
  destruct (merge_loop_frame h1 e n (after_top_level se sn) sn He1 Hn1 Hen Hkeys Hlocs Hdisj)
    with (visited := @nil (string * loc)) (remaining := repos sn) (h := h1)
    as (h' & Hrun & Hinv & Hfr).
  { intros l Hl. rewrite Hsame; [by apply HtE|by apply HneE]. }
  { intros l Hl. rewrite Hsame; [by apply HtN|by apply HneN]. }
  { done. }
  { by apply loop_inv_start. }
  { by apply loop_frame_start. }
  destruct Hinv as [_ (se' & He' & Hdr & Htot & _ & _) _ Iold _].
  destruct Hfr as [(se'' & He'' & Hrepos) Hknown Hother].
  rewrite He' in He''. injection He'' as <-.
  exists h', se'. split; [|repeat split; try done].
  - rewrite (merge_nonempty _ _ _ _ _ He Hn), Hok.
    erewrite bind_ok; cycle 1.
    { rewrite (bind_ok _ _ _ _ _ (snap_at_ok _ _ _ He)), (bind_ok _ _ _ _ _ (snap_at_ok _ _ _ Hn)).
      reflexivity. }
    erewrite bind_ok; cycle 1.
    { erewrite bind_ok; [|apply snap_at_ok, lookup_insert_eq].
      unfold store. rewrite insert_insert_eq. reflexivity. }
    change (mkSnapshot _ _ _) with (after_top_level se sn). fold h1.
    rewrite (bind_ok _ _ _ _ _ (snap_at_ok _ _ _ Hn1)).
    by rewrite (bind_ok _ _ _ _ _ Hrun).
  - intros l Hl Hl'. rewrite <- Hsame by done. by apply Hother.
  - intros k l Hk Hk'. rewrite (Iold k l Hk); [|by right].
    apply Hsame, HneE. by eapply dict_get_loc_In.
  - intros k re rn rE rN Hre Hrn HrE HrN.
    apply (Hknown k re rn rE rN).
    + by apply dict_get_Some_In.
    + done.
    + rewrite Hsame; [done|]. apply HneE. by eapply dict_get_loc_In.
    + rewrite Hsame; [done|]. apply HneN. by eapply dict_get_loc_In.
Qed.

End AcceptedFrame.

Section AcceptedMerge.
Import DatabaseManager Spec MergeFrame Samples MoreSamples.

Lemma dict_get_new_repos existing incoming k :
  dict_get k existing = None ->
  dict_get k (new_repos existing incoming) = dict_get k incoming.
Proof.
  intros Hk. induction incoming as [|[k' v] d IH]; simpl; [done|].
  destruct (String.eqb k k') eqn:E.
  - apply String.eqb_eq in E. subst k'. rewrite Hk. simpl. by rewrite String.eqb_refl.
  - destruct (negb _); simpl; [by rewrite E|done].
Qed.

(** X3. A repository that only the incoming snapshot has is appended to the
    existing [repos], after the existing keys and in the incoming order,
    and what is stored under its key is the incoming record dict itself:
    the two snapshots share it from then on. *)
Theorem merge_shares_new_repos (h : heap) e n se sn :
  h !! e = Some (OSnap se) ->
  h !! n = Some (OSnap sn) ->
  separate_documents h e n = true ->
  all_valid (dateRange se) (dateRange sn) = Ok true ->
  exists h' se',
    merge_formatted_stats_data (RLoc e) (RLoc n) h = (Ok (RLoc e), h')
    /\ h' !! e = Some (OSnap se')
    /\ repos se' = (repos se ++ new_repos (repos se) (repos sn))%list
    /\ (forall k rn, dict_get k (repos se) = None -> dict_get k (repos sn) = Some rn ->
          dict_get k (repos se') = Some rn /\ h' !! rn = h !! rn).
Proof.
  intros He Hn Hsep Hok.
  destruct (separate_documents_spec h e n se sn He Hn Hsep) as (_ & _ & _ & Hdisj & _ & HtN).
  destruct (merge_separate_documents h e n se sn He Hn Hsep Hok)
    as (h' & se' & Hrun & He' & _ & _ & Hrepos & Hother & _).
  exists h', se'. split; [done|]. split; [done|]. split; [done|].
  intros k rn Hk Hrn. split.
  - rewrite Hrepos, dict_get_app, Hk. by rewrite dict_get_new_repos.
  - pose proof (dict_get_loc_In _ _ _ Hrn) as Hin. apply Hother.
    + destruct (HtN _ Hin) as (? & ? & _). congruence.
    + intros Hin'. by apply (Hdisj rn).
Qed.

Lemma merge_shares_new_repos_witness :
  exists h' se',
    merge_formatted_stats_data (RLoc 1%nat) (RLoc 2%nat) disjoint_docs = (Ok (RLoc 1%nat), h')
    /\ h' !! 1%nat = Some (OSnap se')
    /\ repos se' = [("alice/repo1", 3%nat); ("bob/repo2", 5%nat)]
    /\ (forall k rn, dict_get k [("alice/repo1", 3%nat)] = None ->
          dict_get k [("alice/repo1", 4%nat); ("bob/repo2", 5%nat)] = Some rn ->
          dict_get k (repos se') = Some rn /\ h' !! rn = disjoint_docs !! rn).
Proof.
  apply (merge_shares_new_repos disjoint_docs 1%nat 2%nat
           (mkSnapshot [(day "2023-05-10", day "2023-05-08")] 10 [("alice/repo1", 3%nat)])
           (mkSnapshot [(day "2023-05-07", day "2023-05-05")] 7
              [("alice/repo1", 4%nat); ("bob/repo2", 5%nat)]));
    vm_compute; reflexivity.
Defined.

(** X4. The merge never replaces the point-in-time facts of a repository it
    already knows: whatever the dates of the two records, the merged
    record keeps the existing [totalRepoCommits] and [languages]. (The
    test of lines 177-179 compares the newest incoming date with a
    maximum that line 166 has already made at least as large.) *)
Theorem merge_keeps_point_in_time_facts (h : heap) e n se sn k re rn rE rN :
  h !! e = Some (OSnap se) ->
  h !! n = Some (OSnap sn) ->
  separate_documents h e n = true ->
  all_valid (dateRange se) (dateRange sn) = Ok true ->
  dict_get k (repos se) = Some re ->
  dict_get k (repos sn) = Some rn ->
  h !! re = Some (ORec rE) ->
  h !! rn = Some (ORec rN) ->
  exists h' r',
    merge_formatted_stats_data (RLoc e) (RLoc n) h = (Ok (RLoc e), h')
    /\ h' !! re = Some (ORec r')
    /\ totalRepoCommits r' = totalRepoCommits rE
    /\ languages r' = languages rE.
Proof.
  intros He Hn Hsep Hok Hre Hrn HrE HrN.
  destruct (merge_separate_documents h e n se sn He Hn Hsep Hok)
    as (h' & se' & Hrun & _ & _ & _ & _ & _ & _ & Hknown).
  exists h', (repo_outcome rE rN). split; [done|]. split; [by eapply Hknown|].
  unfold repo_outcome.
  destruct (all_valid (r_dateRange rE) (r_dateRange rN)) as [[|]|]; by split.
Qed.

Lemma merge_keeps_point_in_time_facts_witness :
  exists h' r',
    merge_formatted_stats_data (RLoc 1%nat) (RLoc 2%nat) disjoint_docs = (Ok (RLoc 1%nat), h')
    /\ h' !! 3%nat = Some (ORec r')
    /\ totalRepoCommits r' = 100
    /\ languages r' = [("C", 5)].
Proof.
  apply (merge_keeps_point_in_time_facts disjoint_docs 1%nat 2%nat
           (mkSnapshot [(day "2023-05-10", day "2023-05-08")] 10 [("alice/repo1", 3%nat)])
           (mkSnapshot [(day "2023-05-07", day "2023-05-05")] 7
              [("alice/repo1", 4%nat); ("bob/repo2", 5%nat)])
           "alice/repo1" 3%nat 4%nat
           (mkRepoRecord [(day "2023-05-10", day "2023-05-08")] 3 100 false false [("C", 5)])
           (mkRepoRecord [(day "2023-05-07", day "2023-05-05")] 2 120 true false
              [("C", 6); ("Go", 1)]));
    vm_compute; reflexivity.
Defined.

(** X5. A known repository whose own ranges fail the check is skipped: its
    record is left exactly as it was, flags included, while the merge
    goes on and the top-level count is added all the same. *)
Theorem merge_skips_repo_with_overlapping_ranges (h : heap) e n se sn k re rn rE rN :
  h !! e = Some (OSnap se) ->
  h !! n = Some (OSnap sn) ->
  separate_documents h e n = true ->
  all_valid (dateRange se) (dateRange sn) = Ok true ->
  dict_get k (repos se) = Some re ->
  dict_get k (repos sn) = Some rn ->
  h !! re = Some (ORec rE) ->
  h !! rn = Some (ORec rN) ->
  all_valid (r_dateRange rE) (r_dateRange rN) = Ok false ->
  exists h' se',
    merge_formatted_stats_data (RLoc e) (RLoc n) h = (Ok (RLoc e), h')
    /\ h' !! re = Some (ORec rE)
    /\ h' !! e = Some (OSnap se')
    /\ totalRepoCount se' = totalRepoCount se + totalRepoCount sn.
Proof.
  intros He Hn Hsep Hok Hre Hrn HrE HrN Hno.
  destruct (merge_separate_documents h e n se sn He Hn Hsep Hok)
    as (h' & se' & Hrun & He' & _ & Htot & _ & _ & _ & Hknown).
  exists h', se'. repeat split; try done.
  rewrite (Hknown k re rn rE rN Hre Hrn HrE HrN). unfold repo_outcome. by rewrite Hno.
Qed.

Lemma merge_skips_repo_with_overlapping_ranges_witness :
  exists h' se',
    merge_formatted_stats_data (RLoc 1%nat) (RLoc 2%nat) repeated_repo_docs = (Ok (RLoc 1%nat), h')
    /\ h' !! 3%nat
       = Some (ORec (mkRepoRecord [(day "2023-05-10", day "2023-05-08");
                                   (day "2023-05-07", day "2023-05-05")]
                                  5 100 false false [("C", 5)]))
    /\ h' !! 1%nat = Some (OSnap se')
    /\ totalRepoCount se' = 10 + 7.
Proof.
  apply (merge_skips_repo_with_overlapping_ranges repeated_repo_docs 1%nat 2%nat
           (mkSnapshot [(day "2023-05-10", day "2023-05-08")] 10 [("alice/repo1", 3%nat)])
           (mkSnapshot [(day "2023-05-07", day "2023-05-05")] 7 [("alice/repo1", 4%nat)])
           "alice/repo1" 3%nat 4%nat
           (mkRepoRecord [(day "2023-05-10", day "2023-05-08"); (day "2023-05-07", day "2023-05-05")]
              5 100 false false [("C", 5)])
           (mkRepoRecord [(day "2023-05-07", day "2023-05-05")] 2 120 true true [("Go", 1)]));
    vm_compute; reflexivity.
Defined.

(** X6. An accepted merge writes to the existing dict and to the records
    that the existing dict shares a key with the incoming one, and to
    nothing else: the incoming snapshot, every incoming record, every
    existing record whose key the incoming snapshot lacks, and every
    other object of the store are left as they were. *)
Theorem merge_writes_only_existing (h : heap) e n se sn :
  h !! e = Some (OSnap se) ->
  h !! n = Some (OSnap sn) ->
  separate_documents h e n = true ->
  all_valid (dateRange se) (dateRange sn) = Ok true ->
  exists h',
    merge_formatted_stats_data (RLoc e) (RLoc n) h = (Ok (RLoc e), h')
    /\ h' !! n = Some (OSnap sn)
    /\ (forall l, In l (map snd (repos sn)) -> h' !! l = h !! l)
    /\ (forall k l, dict_get k (repos se) = Some l -> ~ In k (dict_keys (repos sn)) ->
          h' !! l = h !! l)
    /\ (forall l, l <> e -> ~ In l (map snd (repos se)) -> h' !! l = h !! l).
Proof.
  intros He Hn Hsep Hok.
  destruct (separate_documents_spec h e n se sn He Hn Hsep) as (Hen & _ & _ & Hdisj & HtE & HtN).
  destruct (merge_separate_documents h e n se sn He Hn Hsep Hok)
    as (h' & se' & Hrun & _ & _ & _ & _ & Hother & Hold & _).
  exists h'. repeat split; try done.
  - rewrite <- Hn. apply Hother; [done|].
    intros (r & Hr & _)%HtE. congruence.
  - intros l Hl. apply Hother.
    + destruct (HtN _ Hl) as (? & ? & _). congruence.
    + intros Hl'. by apply (Hdisj l).
Qed.

Lemma merge_writes_only_existing_witness :
  exists h',
    merge_formatted_stats_data (RLoc 1%nat) (RLoc 2%nat) disjoint_docs = (Ok (RLoc 1%nat), h')
    /\ h' !! 2%nat
       = Some (OSnap (mkSnapshot [(day "2023-05-07", day "2023-05-05")] 7
                        [("alice/repo1", 4%nat); ("bob/repo2", 5%nat)]))
    /\ (forall l, In l [4%nat; 5%nat] -> h' !! l = disjoint_docs !! l)
    /\ (forall k l, dict_get k [("alice/repo1", 3%nat)] = Some l ->
          ~ In k ["alice/repo1"; "bob/repo2"] -> h' !! l = disjoint_docs !! l)
    /\ (forall l, l <> 1%nat -> ~ In l [3%nat] -> h' !! l = disjoint_docs !! l).
Proof.
  apply (merge_writes_only_existing disjoint_docs 1%nat 2%nat
           (mkSnapshot [(day "2023-05-10", day "2023-05-08")] 10 [("alice/repo1", 3%nat)])
           (mkSnapshot [(day "2023-05-07", day "2023-05-05")] 7
              [("alice/repo1", 4%nat); ("bob/repo2", 5%nat)]));
    vm_compute; reflexivity.
Defined.

(** X7. An incoming record without any range passes the check of lines
    162-164 vacuously; lines 166-174 then update the existing record, and
    line 177 raises [IndexError] on [dateRange[0]]: the exception leaves
    the counter already added and the flags already or-ed. *)
Theorem update_repo_rangeless_record (h : heap) re rn rE rN :
  re <> rn ->
  h !! re = Some (ORec rE) ->
  h !! rn = Some (ORec rN) ->
  r_dateRange rN = [] ->
  update_repo re rn h = (Raise IndexError, <[re := ORec (updated_record rE rN)]> h).
Proof.
  intros Hne Hre Hrn Hnil.
  assert (update_repo re rn (<[re := ORec rE]> h)
          = (Raise IndexError, <[re := ORec (updated_record rE rN)]> h)) as Hrun;
    [|by rewrite insert_id in Hrun].
  unfold update_repo.
  erewrite bind_ok; cycle 1.
  { rewrite (bind_ok _ _ _ _ _ (read_new h re rn rN Hne Hrn rE)),
            (bind_ok _ _ _ _ _ (read_existing h re rE)).
    unfold lift. rewrite Hnil. reflexivity. }
  change (forallb truthy []) with true. cbv beta iota.
  rewrite (bind_ok _ _ _ _ _ (run_update_rec h re rn rN Hne Hrn _ _)).
  rewrite (bind_ok _ _ _ _ _ (run_update_rec h re rn rN Hne Hrn _ _)).
  rewrite (bind_ok _ _ _ _ _ (run_update_rec h re rn rN Hne Hrn _ _)).
  rewrite (bind_ok _ _ _ _ _ (run_update_rec h re rn rN Hne Hrn _ _)).
  erewrite bind_raise; cycle 1.
  { unfold is_more_current.
    rewrite (bind_ok _ _ _ _ _ (read_new h re rn rN Hne Hrn _)), Hnil.
    erewrite bind_raise; reflexivity. }
  unfold updated_record. simpl. by rewrite Hnil.
Qed.

Lemma update_repo_rangeless_record_witness :
  update_repo 3%nat 4%nat rangeless_repo_docs
  = (Raise IndexError,
     <[3%nat := ORec (mkRepoRecord [(day "2023-05-10", day "2023-05-08")] 5 100 true false
                        [("C", 5)])]> rangeless_repo_docs).
Proof.
  apply (update_repo_rangeless_record rangeless_repo_docs 3%nat 4%nat
           (mkRepoRecord [(day "2023-05-10", day "2023-05-08")] 3 100 false false [("C", 5)])
           (mkRepoRecord [] 2 120 true false [("Go", 1)]));
    [discriminate|reflexivity|reflexivity|reflexivity].
Defined.

End AcceptedMerge.

(** ** Folding the documents of the collection *)

Section RetrievalFacts.
Import DatabaseManager Spec Retrieval Samples.

Lemma is_truthy_snapshot (h : heap) l s :
  h !! l = Some (OSnap s) -> is_truthy (RLoc l) h = (Ok true, h).
Proof. intros Hl. unfold is_truthy. by rewrite (bind_ok _ _ _ _ _ (obj_at_ok _ _ _ Hl)). Qed.

Lemma merge_documents_app acc docs1 docs2 (h : heap) :
  merge_documents acc (docs1 ++ docs2) h
  = (acc' ← merge_documents acc docs1; merge_documents acc' docs2) h.
Proof.
  revert acc h. induction docs1 as [|doc docs1 IH]; intros acc h; simpl.
  { unfold mbind, M_bind, mret, M_ret. done. }
  cbv [mbind M_bind].
  destruct (is_truthy doc h) as [[t|x] h1]; [|done].
  destruct ((if t then merge_formatted_stats_data acc doc else mret acc) h1) as [[acc'|x] h2];
    [|done].
  rewrite IH. reflexivity.
Qed.

(** With nothing merged so far ([None]), a document becomes the dataset. *)
Lemma merge_documents_from_None (h : heap) n sn rest :
  h !! n = Some (OSnap sn) ->
  merge_documents RNone (RLoc n :: rest) h = merge_documents (RLoc n) rest h.
Proof.
  intros Hn. simpl. rewrite (bind_ok _ _ _ _ _ (is_truthy_snapshot _ _ _ Hn)).
  erewrite bind_ok; [done|]. reflexivity.
Qed.

(** X9. A document that the dataset merged so far rejects does not only fail
    to be added: the dataset itself is dropped ([None] takes its place), and
    the next document is taken as the whole dataset. *)
Theorem rejected_document_discards_dataset (h : heap) e n n' se sn sn' rest :
  h !! e = Some (OSnap se) ->
  h !! n = Some (OSnap sn) ->
  h !! n' = Some (OSnap sn') ->
  all_valid (dateRange se) (dateRange sn) = Ok false ->
  merge_documents (RLoc e) (RLoc n :: RLoc n' :: rest) h = merge_documents (RLoc n') rest h.
Proof.
  intros He Hn Hn' Hno.
  change (merge_documents (RLoc e) (RLoc n :: RLoc n' :: rest))
    with (t ← is_truthy (RLoc n);
          acc ← (if t : bool then merge_formatted_stats_data (RLoc e) (RLoc n) else mret (RLoc e));
          merge_documents acc (RLoc n' :: rest)).
  rewrite (bind_ok _ _ _ _ _ (is_truthy_snapshot _ _ _ Hn)).
  erewrite bind_ok; [|by rewrite (merge_nonempty _ _ _ _ _ He Hn), Hno].
  by eapply merge_documents_from_None.
Qed.

Lemma rejected_document_discards_dataset_witness :
  merge_documents (RLoc 1%nat) [RLoc 2%nat; RLoc 2%nat] overlapping_docs
  = merge_documents (RLoc 2%nat) [] overlapping_docs.
Proof.
  apply (rejected_document_discards_dataset overlapping_docs 1%nat 2%nat 2%nat
           (mkSnapshot [(day "2023-05-10", day "2023-05-05")] 10 [("alice/repo1", 3%nat)])
           (mkSnapshot [(day "2023-05-07", day "2023-05-01")] 7 [("bob/repo2", 4%nat)])
           (mkSnapshot [(day "2023-05-07", day "2023-05-01")] 7 [("bob/repo2", 4%nat)]) []);
    reflexivity.
Defined.

(** X10. When the last document of the collection is rejected,
    [retrieve_collection] writes no file: [len(None)] raises [TypeError]. *)
Theorem retrieve_collection_last_rejected (h h' : heap) docs e n se sn :
  merge_documents (RLoc (fresh (dom h))) docs (<[fresh (dom h) := OEmpty]> h) = (Ok (RLoc e), h') ->
  h' !! e = Some (OSnap se) ->
  h' !! n = Some (OSnap sn) ->
  all_valid (dateRange se) (dateRange sn) = Ok false ->
  retrieve_collection (docs ++ [RLoc n]) h = (Raise TypeError, h').
Proof.
  intros Hdocs He Hn Hno. unfold retrieve_collection.
  erewrite bind_ok; [|reflexivity].
  erewrite bind_ok; cycle 1.
  { rewrite merge_documents_app, (bind_ok _ _ _ _ _ Hdocs). simpl.
    rewrite (bind_ok _ _ _ _ _ (is_truthy_snapshot _ _ _ Hn)).
    erewrite bind_ok; [|by rewrite (merge_nonempty _ _ _ _ _ He Hn), Hno].
    reflexivity. }
  reflexivity.
Qed.

Lemma retrieve_collection_last_rejected_witness :
  retrieve_collection ([RLoc 1%nat] ++ [RLoc 2%nat]) overlapping_docs
  = (Raise TypeError, <[5%nat := OEmpty]> overlapping_docs).
Proof.
  apply (retrieve_collection_last_rejected overlapping_docs (<[5%nat := OEmpty]> overlapping_docs)
           [RLoc 1%nat] 1%nat 2%nat
           (mkSnapshot [(day "2023-05-10", day "2023-05-05")] 10 [("alice/repo1", 3%nat)])
           (mkSnapshot [(day "2023-05-07", day "2023-05-01")] 7 [("bob/repo2", 4%nat)]));
    vm_compute; reflexivity.
Defined.

End RetrievalFacts.

Section RetrieveOne.
Import DatabaseManager Spec Retrieval Samples DateOrder.

Lemma ltb_true_not_after a b : String.ltb a b = true -> not_after a b.
Proof.
  rewrite ltb_leb, negb_true_iff. intros H. unfold not_after.
  destruct (String.leb_total a b) as [?|?]; [done|congruence].
Qed.

Lemma ltb_false_not_after a b : String.ltb a b = false -> not_after b a.
Proof. rewrite ltb_leb, negb_false_iff. done. Qed.

Lemma py_max_strings x l :
  exists m, py_extremum py_gt (Some x) (map Some l) = Ok (Some m)
            /\ In m (x :: l) /\ forall y, In y (x :: l) -> not_after y m.
Proof.
  revert x. induction l as [|y l IH]; intros x; simpl.
  - exists x. split; [done|]. split; [by left|]. intros ? [<-|[]]. apply not_after_refl.
  - destruct (String.ltb x y) eqn:Hlt.
    + destruct (IH y) as (m & Hm & Hin & Hge). exists m. split; [done|].
      split; [by right|]. intros z [<-|Hz]; [|by apply Hge].
      eapply not_after_trans; [by apply ltb_true_not_after|]. apply Hge. by left.
    + destruct (IH x) as (m & Hm & Hin & Hge). exists m. split; [done|]. split.
      * destruct Hin as [<-|Hin]; [by left|by right; right].
      * intros z [<-|[<-|Hz]]; [apply Hge; by left| |apply Hge; by right].
        eapply not_after_trans; [by apply ltb_false_not_after|]. apply Hge. by left.
Qed.

Lemma py_min_strings x l :
  exists m, py_extremum py_lt (Some x) (map Some l) = Ok (Some m)
            /\ In m (x :: l) /\ forall y, In y (x :: l) -> not_after m y.
Proof.
  revert x. induction l as [|y l IH]; intros x; simpl.
  - exists x. split; [done|]. split; [by left|]. intros ? [<-|[]]. apply not_after_refl.
  - destruct (String.ltb y x) eqn:Hlt.
    + destruct (IH y) as (m & Hm & Hin & Hle). exists m. split; [done|].
      split; [by right|]. intros z [<-|Hz]; [|by apply Hle].
      eapply not_after_trans; [|by apply ltb_true_not_after]. apply Hle. by left.
    + destruct (IH x) as (m & Hm & Hin & Hle). exists m. split; [done|]. split.
      * destruct Hin as [<-|Hin]; [by left|by right; right].
      * intros z [<-|[<-|Hz]]; [apply Hle; by left| |apply Hle; by right].
        eapply not_after_trans; [|by apply ltb_false_not_after]. apply Hle. by left.
Qed.

Lemma read_repos_ok (h : heap) d :
  forallb (record_ok h false) (map snd d) = true ->
  exists rs, read_repos d h = (Ok rs, h)
             /\ map fst rs = map fst d
             /\ forall k l r, In (k, l) d -> h !! l = Some (ORec r) -> In (k, r) rs.
Proof.
  induction d as [|[k l] d IH]; simpl.
  - intros _. by exists [].
  - intros [Hl Hd]%andb_true_iff. apply record_ok_spec in Hl as (r & Hr & _).
    destruct (IH Hd) as (rs & Hrun & Hkeys & Hall).
    exists ((k, r) :: rs). split; [|split].
    + rewrite (bind_ok _ _ _ _ _ (rec_at_ok _ _ _ Hr)).
      by rewrite (bind_ok _ _ _ _ _ Hrun).
    + simpl. by rewrite Hkeys.
    + intros k' l' r' [[= <- <-]|Hin] Hr'; [left; congruence|right; by eapply Hall].
Qed.

(** Nothing to merge into: the incoming reference is handed back. *)
Lemma merge_into_empty (h : heap) a new_data :
  h !! a = Some OEmpty ->
  merge_formatted_stats_data (RLoc a) new_data h = (Ok new_data, h).
Proof. intros Ha. unfold merge_formatted_stats_data. munfold. by rewrite Ha. Qed.

(** X11. A collection with a single document whose dates are strings is
    written back as it is: the file holds its ranges, its count and its
    records under their keys, and the two dates of the file name are the
    latest start and the earliest end among its ranges. *)
Theorem retrieve_collection_single_document (h : heap) n sn starts ends :
  h !! n = Some (OSnap sn) ->
  dateRange sn <> [] ->
  map fst (dateRange sn) = map Some starts ->
  map snd (dateRange sn) = map Some ends ->
  forallb (record_ok h false) (map snd (repos sn)) = true ->
  exists file newest oldest,
    retrieve_collection [RLoc n] h = (Ok (Some file), <[fresh (dom h) := OEmpty]> h)
    /\ file_dateRange file = dateRange sn
    /\ file_totalRepoCount file = totalRepoCount sn
    /\ map fst (file_repos file) = dict_keys (repos sn)
    /\ (forall k l r, In (k, l) (repos sn) -> h !! l = Some (ORec r) -> In (k, r) (file_repos file))
    /\ newest_start file = Some newest /\ In newest starts
    /\ (forall s, In s starts -> not_after s newest)
    /\ oldest_end file = Some oldest /\ In oldest ends
    /\ (forall s, In s ends -> not_after oldest s).
Proof.
  intros Hn Hne Hstarts Hends Hrecs.
  set (a := fresh (dom h)). set (h1 := <[a := OEmpty]> h).
  assert (h !! a = None) as Ha.
  { apply not_elem_of_dom. apply is_fresh. }
  assert (a <> n) as Han by congruence.
  assert (h1 !! a = Some OEmpty) as Ha1 by apply lookup_insert_eq.
  assert (h1 !! n = Some (OSnap sn)) as Hn1 by (by unfold h1; rewrite lookup_insert_ne).
  assert (forallb (record_ok h1 false) (map snd (repos sn)) = true) as Hrecs1.
  { rewrite forallb_forall in Hrecs |- *. intros l Hl. specialize (Hrecs l Hl).
    unfold record_ok in *. unfold h1. rewrite lookup_insert_ne; [done|].
    intros <-. by rewrite Ha in Hrecs. }
  destruct (read_repos_ok h1 (repos sn) Hrecs1) as (rs & Hread & Hkeys & Hall).
  destruct starts as [|s0 starts]; [by destruct (dateRange sn)|].
  destruct ends as [|e0 ends]; [by destruct (dateRange sn)|].
  destruct (py_max_strings s0 starts) as (newest & Hmax & Hmax_in & Hmax_ge).
  destruct (py_min_strings e0 ends) as (oldest & Hmin & Hmin_in & Hmin_le).
  exists (mkDataFile (Some newest) (Some oldest) (dateRange sn) (totalRepoCount sn) rs),
         newest, oldest.
  split; [|repeat split; try done].
  - unfold retrieve_collection.
    erewrite bind_ok; [|reflexivity]. fold a h1.
    erewrite bind_ok; cycle 1.
    { simpl. rewrite (bind_ok _ _ _ _ _ (is_truthy_snapshot _ _ _ Hn1)).
      rewrite (bind_ok _ _ _ _ _ (merge_into_empty _ _ _ Ha1)). reflexivity. }
    cbv beta iota.
    rewrite (bind_ok _ _ _ _ _ (obj_at_ok _ _ _ Hn1)).
    rewrite (bind_ok _ _ _ _ _ (snap_at_ok _ _ _ Hn1)), Hstarts.
    erewrite bind_ok; [|unfold lift, py_max; simpl; by rewrite Hmax].
    rewrite (bind_ok _ _ _ _ _ (snap_at_ok _ _ _ Hn1)), Hends.
    erewrite bind_ok; [|unfold lift, py_min; simpl; by rewrite Hmin].
    rewrite (bind_ok _ _ _ _ _ (snap_at_ok _ _ _ Hn1)).
    by rewrite (bind_ok _ _ _ _ _ Hread).
  - intros k l r Hin Hr. apply (Hall k l r Hin). unfold h1.
    rewrite lookup_insert_ne; [done|]. intros <-. congruence.
Qed.

Lemma retrieve_collection_single_document_witness :
  exists file newest oldest,
    retrieve_collection [RLoc 1%nat] overlapping_docs
      = (Ok (Some file), <[fresh (dom overlapping_docs) := OEmpty]> overlapping_docs)
    /\ file_dateRange file = [(day "2023-05-10", day "2023-05-05")]
    /\ file_totalRepoCount file = 10
    /\ map fst (file_repos file) = ["alice/repo1"]
    /\ (forall k l r, In (k, l) [("alice/repo1", 3%nat)] ->
          overlapping_docs !! l = Some (ORec r) -> In (k, r) (file_repos file))
    /\ newest_start file = Some newest /\ In newest ["2023-05-10"]
    /\ (forall s, In s ["2023-05-10"] -> not_after s newest)
    /\ oldest_end file = Some oldest /\ In oldest ["2023-05-05"]
    /\ (forall s, In s ["2023-05-05"] -> not_after oldest s).
Proof.
  apply (retrieve_collection_single_document overlapping_docs 1%nat
           (mkSnapshot [(day "2023-05-10", day "2023-05-05")] 10 [("alice/repo1", 3%nat)])
           ["2023-05-10"] ["2023-05-05"]);
    [reflexivity|discriminate|reflexivity|reflexivity|reflexivity].
Defined.

End RetrieveOne.

(** ** The collection loop, one repository at a time *)

Section FormatRepo.
Import GitHubStatsData Classified.

Lemma dict_set_set {V} k (v1 v2 : V) d : dict_set k v2 (dict_set k v1 d) = dict_set k v2 d.
Proof.
  induction d as [|[k' v'] d IH]; simpl.
  - by rewrite String.eqb_refl.
  - destruct (String.eqb k k') eqn:E; simpl; rewrite E; [done|by rewrite IH].
Qed.

Lemma set_repo_record_twice k r1 r2 d :
  set_repo_record k r2 (set_repo_record k r1 d) = set_repo_record k r2 d.
Proof. unfold set_repo_record. simpl. by rewrite dict_set_set. Qed.

Lemma repo_record_set k r d : repo_record k (set_repo_record k r d) = Ok r.
Proof. unfold repo_record. simpl. by rewrite dict_get_set_eq. Qed.

Lemma add_languages_set k edges r d :
  add_languages k edges (set_repo_record k r d)
  = Ok (set_repo_record k
          (with_languages
             (foldl (fun acc language => dict_set (fst language) (snd language) acc)
                    (languages r) edges) r) d).
Proof.
  unfold add_languages. revert r. induction edges as [|[name size] edges IH]; intros r; simpl.
  - by destruct r.
  - rewrite repo_record_set. simpl. rewrite set_repo_record_twice.
    rewrite (IH (with_languages (dict_set name size (languages r)) r)). done.
Qed.

Variable upper : string -> string.

Lemma search_tdd_set k fetched_data is_topic r d :
  search_fetched_data_for_tdd_key_words upper k fetched_data is_topic (set_repo_record k r d)
  = Ok (set_repo_record k
          (with_isTDD (isTDD r || any_key_word upper TDD_STR_MATCHES fetched_data) r) d).
Proof.
  unfold search_fetched_data_for_tdd_key_words. rewrite repo_record_set. simpl.
  destruct r as [dr c t tdd dev ls]. destruct tdd; simpl; [done|].
  destruct (any_key_word _ _ _); [|done].
  by rewrite set_repo_record_twice.
Qed.

Lemma search_devop_set k fetched_data is_topic is_workflow r d :
  search_fetched_data_for_devop_key_words upper k fetched_data is_topic is_workflow
    (set_repo_record k r d)
  = Ok (set_repo_record k
          (with_isDevOps
             (isDevOps r ||
              isTDD r && any_key_word upper (if is_workflow then removelast DEVOPS_STR_MATCHES
                                             else DEVOPS_STR_MATCHES) fetched_data) r) d).
Proof.
  unfold search_fetched_data_for_devop_key_words. rewrite repo_record_set. simpl.
  destruct r as [dr c t tdd dev ls]. destruct tdd, dev; simpl; try done.
  destruct (any_key_word _ _ _); [|done].
  by rewrite set_repo_record_twice.
Qed.

(** The flags of a classified record, said with the keywords and the
    texts themselves. *)
Lemma classified_record_flags start_date_str end_date repo_data target commits workflows :
  (isTDD (classified_record upper start_date_str end_date repo_data target commits workflows)
   = true <->
   languageEdges repo_data <> [] /\
   (mentions upper TDD_STR_MATCHES (repositoryTopics repo_data)
    \/ mentions upper TDD_STR_MATCHES workflows
    \/ mentions upper TDD_STR_MATCHES commits))
  /\ (isDevOps (classified_record upper start_date_str end_date repo_data target commits workflows)
      = true <->
      isTDD (classified_record upper start_date_str end_date repo_data target commits workflows)
      = true /\
      (mentions upper DEVOPS_STR_MATCHES (repositoryTopics repo_data)
       \/ mentions upper DEVOPS_WORKFLOW_MATCHES workflows
       \/ mentions upper DEVOPS_STR_MATCHES commits)).
Proof.
  unfold classified_record. cbn [isTDD isDevOps].
  change (removelast DEVOPS_STR_MATCHES) with DEVOPS_WORKFLOW_MATCHES.
  rewrite !andb_true_iff, !orb_true_iff, !any_key_word_spec.
  split; [|tauto].
  destruct (languageEdges repo_data) as [|edge edges].
  - split; [by intros [? _]|by intros [? _]].
  - split; (intros [_ H]; split; [done|tauto]).
Qed.

Variables (start_date_str end_date : string).
Variable fetch : string -> string -> string -> bool -> list string.

(** Lines 211-267 for one node, in closed form. *)
Lemma format_repo_run fetch_date_str repo_data w :
  format_repo upper start_date_str end_date fetch fetch_date_str repo_data w
  = if is_unreadable repo_data then Raise TypeError
    else Ok (match defaultBranchRef repo_data with
             | Some target =>
                 if is_collected fetch_date_str repo_data
                 then mkWorker
                        (set_repo_record (nameWithOwner repo_data)
                           (classified_record upper start_date_str end_date repo_data target
                              (fetch (nameWithOwner repo_data) fetch_date_str end_date false)
                              (fetch (nameWithOwner repo_data) fetch_date_str end_date true))
                           (repo_stats_data w))
                        (fetches w ++ [(nameWithOwner repo_data, false);
                                       (nameWithOwner repo_data, true)])
                 else w
             | None => w
             end).
Proof.
  unfold format_repo, is_unreadable, is_collected, is_looked_at.
  destruct (negb _); simpl; [|by destruct (defaultBranchRef repo_data)].
  destruct (defaultBranchRef repo_data) as [target|]; [|done].
  destruct (String.eqb _ fetch_date_str); [|done].
  unfold classified_record, languages_of.
  destruct (languageEdges repo_data) as [|edge edges] eqn:Hedges; [done|].
  rewrite add_languages_set. simpl.
  rewrite search_tdd_set. simpl. rewrite search_tdd_set. simpl. rewrite search_tdd_set. simpl.
  rewrite search_devop_set. simpl. rewrite search_devop_set. simpl.
  rewrite search_devop_set. simpl.
  unfold set_repo_record. simpl.
  do 3 f_equal.
  set (t1 := any_key_word upper TDD_STR_MATCHES (repositoryTopics repo_data)).
  set (t2 := any_key_word upper TDD_STR_MATCHES _).
  set (t3 := any_key_word upper TDD_STR_MATCHES _).
  set (d1 := any_key_word upper _ (repositoryTopics repo_data)).
  set (d2 := any_key_word upper _ (fetch _ _ _ true)).
  set (d3 := any_key_word upper _ (fetch _ _ _ false)).
  destruct t1, t2, t3, d1, d2, d3; reflexivity.
Qed.

Lemma is_looked_at_spec repo_data :
  is_looked_at repo_data = true <-> ~ In (nameWithOwner repo_data) stats_data_keys.
Proof.
  unfold is_looked_at. rewrite negb_true_iff, <- not_true_iff_false, existsb_exists.
  split; intros Hn H; apply Hn.
  - exists (nameWithOwner repo_data). split; [done|apply String.eqb_refl].
  - destruct H as (k & Hk & ->%String.eqb_eq). done.
Qed.

(** X12. One iteration of the loop, case by case. A node whose name is a
    key of the top-level dict is skipped. Any other node without a default
    branch raises [TypeError] (line 215). Any other node whose last commit
    is not of the day fetched is skipped. For the nodes that are left the
    iteration makes two fetches (commits, then workflow files) and writes
    one record under the name of the node, over whatever was there: it is
    TDD exactly when the node has a language and a TDD keyword occurs in
    the upper case of a topic, a workflow file name or a commit message;
    it is DevOps exactly when it is TDD and a DevOps keyword occurs in
    one of them, ['.YML'] not counting for workflow file names. *)
Theorem format_repo_closed fetch_date_str repo_data w :
  (In (nameWithOwner repo_data) stats_data_keys ->
     format_repo upper start_date_str end_date fetch fetch_date_str repo_data w = Ok w)
  /\ (~ In (nameWithOwner repo_data) stats_data_keys -> defaultBranchRef repo_data = None ->
        format_repo upper start_date_str end_date fetch fetch_date_str repo_data w
        = Raise TypeError)
  /\ (forall target,
        ~ In (nameWithOwner repo_data) stats_data_keys ->
        defaultBranchRef repo_data = Some target ->
        substring 0 10 (committedDate target) <> fetch_date_str ->
        format_repo upper start_date_str end_date fetch fetch_date_str repo_data w = Ok w)
  /\ (forall target,
        ~ In (nameWithOwner repo_data) stats_data_keys ->
        defaultBranchRef repo_data = Some target ->
        substring 0 10 (committedDate target) = fetch_date_str ->
        exists r,
          format_repo upper start_date_str end_date fetch fetch_date_str repo_data w
          = Ok (mkWorker
                  (set_repo_record (nameWithOwner repo_data) r (repo_stats_data w))
                  (fetches w ++ [(nameWithOwner repo_data, false);
                                 (nameWithOwner repo_data, true)]))
          /\ r_dateRange r = [(Some start_date_str, Some end_date)]
          /\ totalCommitsInDateRange r
             = Z.of_nat (List.length (fetch (nameWithOwner repo_data) fetch_date_str end_date false))
          /\ totalRepoCommits r = historyTotalCount target
          /\ languages r = languages_of (languageEdges repo_data)
          /\ (isTDD r = true <->
              languageEdges repo_data <> [] /\
              (mentions upper TDD_STR_MATCHES (repositoryTopics repo_data)
               \/ mentions upper TDD_STR_MATCHES
                    (fetch (nameWithOwner repo_data) fetch_date_str end_date true)
               \/ mentions upper TDD_STR_MATCHES
                    (fetch (nameWithOwner repo_data) fetch_date_str end_date false)))
          /\ (isDevOps r = true <->
              isTDD r = true /\
              (mentions upper DEVOPS_STR_MATCHES (repositoryTopics repo_data)
               \/ mentions upper DEVOPS_WORKFLOW_MATCHES
                    (fetch (nameWithOwner repo_data) fetch_date_str end_date true)
               \/ mentions upper DEVOPS_STR_MATCHES
                    (fetch (nameWithOwner repo_data) fetch_date_str end_date false)))).
Proof.
  rewrite format_repo_run. unfold is_unreadable, is_collected.
  split; [|split; [|split]].
  - intros Hin. destruct (is_looked_at repo_data) eqn:E.
    + apply is_looked_at_spec in E. done.
    + simpl. by destruct (defaultBranchRef repo_data).
  - intros Hl%is_looked_at_spec ->. by rewrite Hl.
  - intros target Hl%is_looked_at_spec -> Hdate. rewrite Hl. simpl.
    apply String.eqb_neq in Hdate. by rewrite Hdate.
  - intros target Hl%is_looked_at_spec -> Hdate. rewrite Hl. simpl.
    apply String.eqb_eq in Hdate. rewrite Hdate.
    eexists. split; [reflexivity|]. split; [done|]. split; [done|]. split; [done|].
    split; [done|]. apply classified_record_flags.
Qed.

End FormatRepo.

Section FormatRepoWitness.
Import GitHubStatsData Classified MoreSamples.

(** A node with a language, the topic [tdd] and the workflow file
    [ci.yml] is recorded as TDD and as DevOps. *)
Lemma format_repo_closed_witness :
  exists r,
    format_repo ascii_upper "2023-05-10" "2023-05-01" ci_fetched "2023-05-09" tested_node
      new_worker
    = Ok (mkWorker
            (set_repo_record "bob/repo2" r (repo_stats_data new_worker))
            [("bob/repo2", false); ("bob/repo2", true)])
    /\ totalCommitsInDateRange r = 1
    /\ totalRepoCommits r = 12
    /\ isTDD r = true
    /\ isDevOps r = true.
Proof.
  destruct (format_repo_closed ascii_upper "2023-05-10" "2023-05-01" ci_fetched "2023-05-09"
              tested_node new_worker) as (_ & _ & _ & Hcollected).
  destruct (Hcollected (mkCommit "2023-05-09T10:00:00Z" 12))
    as (r & Hrun & _ & Hcommits & Htotal & _ & Htdd & Hdevops).
  { intros [H|[H|[H|[]]]]; discriminate H. }
  { reflexivity. }
  { reflexivity. }
  assert (isTDD r = true) as Ht.
  { apply Htdd. split; [discriminate|]. left.
    exists "TDD", "tdd". split; [by left|]. split; [by left|].
    by exists EmptyString, EmptyString. }
  exists r. split; [exact Hrun|]. split; [exact Hcommits|]. split; [exact Htotal|].
  split; [exact Ht|]. apply Hdevops. split; [exact Ht|]. right. left.
  exists "CI", "ci.yml". split; [right; by left|]. split; [by left|].
  by exists EmptyString, ".YML".
Defined.

End FormatRepoWitness.

Section FormatPage.
Import GitHubStatsData Classified.

Lemma dict_set_keys_kept {V} k k' (v : V) d :
  In k (dict_keys d) -> In k (dict_keys (dict_set k' v d)).
Proof.
  induction d as [|[k0 v0] d IH]; simpl; [done|].
  destruct (String.eqb k' k0); simpl; intros [->|Hin]; auto.
Qed.

Lemma dict_set_Forall {V} (Q : V -> Prop) k (v : V) d :
  Q v -> Forall (fun kv => Q (snd kv)) d -> Forall (fun kv => Q (snd kv)) (dict_set k v d).
Proof.
  intros Hv. induction 1 as [|[k0 v0] d Hq Hd IH]; simpl.
  - by repeat constructor.
  - destruct (String.eqb k k0); constructor; auto.
Qed.

Lemma implb_andb_l a b : implb (a && b) a = true.
Proof. by destruct a, b. Qed.

Variable upper : string -> string.

Lemma classified_record_devops_is_tdd start_date_str end_date repo_data target commits workflows :
  devops_is_tdd
    (classified_record upper start_date_str end_date repo_data target commits workflows) = true.
Proof.
  unfold devops_is_tdd, classified_record. cbn [isDevOps isTDD].
  apply implb_andb_l.
Qed.

Variables (start_date_str end_date : string).
Variable fetch : string -> string -> string -> bool -> list string.

(** The loop goes on with what an iteration leaves, and ends with its
    exception. *)
Lemma format_page_cons fetch_date_str repo_data page w :
  format_fetched_repo_data_for_stat_analysis upper start_date_str end_date fetch
    fetch_date_str (repo_data :: page) w
  = match format_repo upper start_date_str end_date fetch fetch_date_str repo_data w with
    | Ok w' =>
        format_fetched_repo_data_for_stat_analysis upper start_date_str end_date fetch
          fetch_date_str page w'
    | Raise x => Raise x
    end.
Proof.
  unfold format_fetched_repo_data_for_stat_analysis. simpl.
  destruct (format_repo _ _ _ _ _ _ _) as [w'|x]; [done|].
  induction page as [|node page IH]; simpl; [done|]. exact IH.
Qed.

Lemma is_collected_readable fetch_date_str repo_data :
  is_collected fetch_date_str repo_data = true -> is_unreadable repo_data = false.
Proof.
  unfold is_collected, is_unreadable.
  destruct (is_looked_at repo_data); [|done]. by destruct (defaultBranchRef repo_data).
Qed.

(** One iteration on a readable node, by what it leaves. *)
Lemma format_repo_readable fetch_date_str repo_data w :
  is_unreadable repo_data = false ->
  exists w',
    format_repo upper start_date_str end_date fetch fetch_date_str repo_data w = Ok w'
    /\ fetches w'
       = (fetches w ++ (if is_collected fetch_date_str repo_data
                        then [(nameWithOwner repo_data, false); (nameWithOwner repo_data, true)]
                        else []))%list
    /\ dateRange (repo_stats_data w') = dateRange (repo_stats_data w)
    /\ totalRepoCount (repo_stats_data w') = totalRepoCount (repo_stats_data w)
    /\ (forall k, In k (dict_keys (repos (repo_stats_data w))) ->
          In k (dict_keys (repos (repo_stats_data w'))))
    /\ (forall k r, dict_get k (repos (repo_stats_data w)) = Some r ->
          (is_collected fetch_date_str repo_data = true -> nameWithOwner repo_data <> k) ->
          dict_get k (repos (repo_stats_data w')) = Some r)
    /\ (Forall (fun kr => devops_is_tdd (snd kr) = true) (repos (repo_stats_data w)) ->
        Forall (fun kr => devops_is_tdd (snd kr) = true) (repos (repo_stats_data w'))).
Proof.
  intros Hread. rewrite format_repo_run, Hread. eexists. split; [reflexivity|].
  unfold is_collected. destruct (defaultBranchRef repo_data) as [target|].
  - destruct (is_looked_at repo_data && _) eqn:Hc; simpl.
    + split; [done|]. split; [done|]. split; [done|]. split; [|split].
      * intros k Hk. by apply dict_set_keys_kept.
      * intros k r Hk Hne. rewrite dict_get_set_ne; [done|]. by apply Hne.
      * intros Hinv. apply (dict_set_Forall (fun r => devops_is_tdd r = true)); [|done].
        apply classified_record_devops_is_tdd.
    + rewrite app_nil_r. by repeat split.
  - rewrite andb_false_r. rewrite app_nil_r. by repeat split.
Qed.

(** X13. Formatting a page raises exactly when the page has a node that
    is looked at and has no default branch, and then it raises
    [TypeError]. Otherwise it makes exactly two fetches for every node
    let through, in the order of the page; it leaves the ranges and the
    count of the snapshot alone; it drops no key; and a record whose key
    no collected node of the page carries is left as it was. *)
Theorem format_page_total fetch_date_str repos_data_arr w :
  match format_fetched_repo_data_for_stat_analysis upper start_date_str end_date fetch
          fetch_date_str repos_data_arr w with
  | Raise x =>
      x = TypeError
      /\ exists repo_data, In repo_data repos_data_arr /\ is_unreadable repo_data = true
  | Ok w' =>
      Forall (fun repo_data => is_unreadable repo_data = false) repos_data_arr
      /\ fetches w' = (fetches w ++ page_fetches fetch_date_str repos_data_arr)%list
      /\ dateRange (repo_stats_data w') = dateRange (repo_stats_data w)
      /\ totalRepoCount (repo_stats_data w') = totalRepoCount (repo_stats_data w)
      /\ (forall k, In k (dict_keys (repos (repo_stats_data w))) ->
            In k (dict_keys (repos (repo_stats_data w'))))
      /\ (forall k r, dict_get k (repos (repo_stats_data w)) = Some r ->
            (forall repo_data, In repo_data repos_data_arr ->
               is_collected fetch_date_str repo_data = true -> nameWithOwner repo_data <> k) ->
            dict_get k (repos (repo_stats_data w')) = Some r)
  end.
Proof.
  revert w. induction repos_data_arr as [|repo_data page IH]; intros w.
  - simpl. rewrite app_nil_r. by repeat split.
  - rewrite format_page_cons.
    destruct (is_unreadable repo_data) eqn:Hread.
    + rewrite format_repo_run, Hread. split; [done|]. exists repo_data. split; [by left|done].
    + destruct (format_repo_readable fetch_date_str repo_data w Hread)
        as (w1 & -> & Hlog1 & Hdr1 & Htot1 & Hkeys1 & Hframe1 & _).
      specialize (IH w1).
      destruct (format_fetched_repo_data_for_stat_analysis _ _ _ _ _ page w1) as [w'|x].
      * destruct IH as (Hall & Hlog & Hdr & Htot & Hkeys & Hframe).
        split; [by constructor|]. split.
        { rewrite Hlog, Hlog1. simpl. by rewrite <- app_assoc. }
        split; [congruence|]. split; [congruence|]. split; [auto|].
        intros k r Hk Hnot. apply Hframe.
        -- apply Hframe1; [done|]. apply Hnot. by left.
        -- intros node Hnode. apply Hnot. by right.
      * destruct IH as (-> & node & Hnode & Hbad). split; [done|].
        exists node. split; [by right|done].
Qed.

(** X14. In the worker's snapshot every repository recorded as DevOps is
    recorded as TDD, and formatting a page keeps it so; the page is
    formatted to its end unless one of its nodes is looked at and has no
    default branch. *)
Theorem format_page_keeps_devops_within_tdd fetch_date_str repos_data_arr w :
  Forall (fun kr => devops_is_tdd (snd kr) = true) (repos (repo_stats_data w)) ->
  match format_fetched_repo_data_for_stat_analysis upper start_date_str end_date fetch
          fetch_date_str repos_data_arr w with
  | Ok w' => Forall (fun kr => devops_is_tdd (snd kr) = true) (repos (repo_stats_data w'))
  | Raise x =>
      x = TypeError
      /\ exists repo_data, In repo_data repos_data_arr /\ is_unreadable repo_data = true
  end
  /\ (Forall (fun repo_data => is_unreadable repo_data = false) repos_data_arr ->
      exists w',
        format_fetched_repo_data_for_stat_analysis upper start_date_str end_date fetch
          fetch_date_str repos_data_arr w = Ok w'
        /\ Forall (fun kr => devops_is_tdd (snd kr) = true) (repos (repo_stats_data w'))).
Proof.
  revert w. induction repos_data_arr as [|repo_data page IH]; intros w Hw.
  - split; [done|]. intros _. by exists w.
  - rewrite format_page_cons.
    destruct (is_unreadable repo_data) eqn:Hread.
    + rewrite format_repo_run, Hread. split.
      * split; [done|]. exists repo_data. split; [by left|done].
      * intros Hall. apply Forall_cons in Hall as [Hbad _]. congruence.
    + destruct (format_repo_readable fetch_date_str repo_data w Hread)
        as (w1 & -> & _ & _ & _ & _ & _ & Hinv).
      destruct (IH w1 (Hinv Hw)) as [Hany Hgood]. split.
      * destruct (format_fetched_repo_data_for_stat_analysis _ _ _ _ _ page w1) as [w'|x];
          [done|].
        destruct Hany as (-> & node & Hnode & Hbad). split; [done|].
        exists node. split; [by right|done].
      * intros Hall. apply Forall_cons in Hall as [_ Hall]. by apply Hgood.
Qed.

End FormatPage.

Section FormatPageWitness.
Import GitHubStatsData Classified Samples.

Lemma format_page_keeps_devops_within_tdd_witness :
  exists w',
    format_fetched_repo_data_for_stat_analysis ascii_upper "2023-05-10" "2023-05-01"
      nothing_fetched "2023-05-09" later_page seen_worker = Ok w'
    /\ Forall (fun kr => devops_is_tdd (snd kr) = true) (repos (repo_stats_data w')).
Proof.
  apply (format_page_keeps_devops_within_tdd ascii_upper "2023-05-10" "2023-05-01"
           nothing_fetched "2023-05-09" later_page seen_worker).
  - repeat constructor.
  - repeat constructor.
Defined.

(** A page with a node that has no default branch, after one that is
    collected: the exception is all that is left. *)
Lemma format_page_total_witness :
  format_fetched_repo_data_for_stat_analysis ascii_upper "2023-05-10" "2023-05-01"
    MoreSamples.ci_fetched "2023-05-09"
    [MoreSamples.tested_node; MoreSamples.branchless_node] MoreSamples.new_worker
  = Raise TypeError.
Proof.
  pose proof (format_page_total ascii_upper "2023-05-10" "2023-05-01" MoreSamples.ci_fetched
                "2023-05-09" [MoreSamples.tested_node; MoreSamples.branchless_node]
                MoreSamples.new_worker) as H.
  destruct (format_fetched_repo_data_for_stat_analysis _ _ _ _ _ _ _) as [w'|x].
  - destruct H as (Hall & _). apply Forall_cons in Hall as [_ Hall].
    apply Forall_cons in Hall as [Hbad _]. discriminate Hbad.
  - destruct H as (-> & _). reflexivity.
Defined.

End FormatPageWitness.

(** ** DevOps within TDD, across a merge *)

Section StoreKeepsInvariant.
Import DatabaseManager Classified StoreInvariant Samples.

Lemma preserving_ret {A} (a : A) : preserving store_devops_is_tdd (mret a).
Proof. by intros h. Qed.

Lemma preserving_raise {A} x : preserving store_devops_is_tdd (raise (A:=A) x).
Proof. by intros h. Qed.

Lemma preserving_lift {A} (r : Res A) : preserving store_devops_is_tdd (lift r).
Proof. by intros h. Qed.

Lemma preserving_snap_at l : preserving store_devops_is_tdd (snap_at l).
Proof. intros h Hh. unfold snap_at. by destruct (h !! l) as [[]|]. Qed.

Lemma preserving_rec_at l : preserving store_devops_is_tdd (rec_at l).
Proof. intros h Hh. unfold rec_at. by destruct (h !! l) as [[]|]. Qed.

Lemma preserving_obj_at l : preserving store_devops_is_tdd (obj_at l).
Proof. intros h Hh. unfold obj_at. by destruct (h !! l). Qed.

Lemma preserving_bind {A B} (m : M A) (k : A -> M B) :
  preserving store_devops_is_tdd m -> (forall a, preserving store_devops_is_tdd (k a)) -> preserving store_devops_is_tdd (m ≫= k).
Proof.
  intros Hm Hk h Hh. unfold mbind, M_bind. specialize (Hm h Hh).
  destruct (m h) as [[a|x] h1]; simpl in *; [by apply Hk|done].
Qed.

Lemma preserving_for_each {A} (body : A -> M unit) (xs : list A) :
  (forall a, preserving store_devops_is_tdd (body a)) -> preserving store_devops_is_tdd (for_each body xs).
Proof.
  intros Hb. induction xs as [|a xs IH]; simpl.
  - apply preserving_ret.
  - apply preserving_bind; [apply Hb|done].
Qed.

Lemma preserving_repo_ref l k : preserving store_devops_is_tdd (repo_ref l k).
Proof.
  apply preserving_bind; [apply preserving_snap_at|].
  intros s. destruct (dict_get k (repos s)); [apply preserving_ret|apply preserving_raise].
Qed.

Lemma store_insert_ok (h : heap) l o :
  store_devops_is_tdd h -> obj_devops_is_tdd o = true -> store_devops_is_tdd (<[l := o]> h).
Proof. intros Hh Ho. by apply map_Forall_insert_2. Qed.

Lemma store_lookup_ok (h : heap) l r :
  store_devops_is_tdd h -> h !! l = Some (ORec r) -> devops_is_tdd r = true.
Proof. intros Hh Hl. by apply (Hh l (ORec r)). Qed.

(** A field update that leaves the two flags alone. *)
Lemma preserving_update_rec re rn (f : RepoRecord -> RepoRecord -> RepoRecord) :
  (forall rE rN, isTDD (f rE rN) = isTDD rE /\ isDevOps (f rE rN) = isDevOps rE) ->
  preserving store_devops_is_tdd (rE ← rec_at re; rN ← rec_at rn; store re (ORec (f rE rN))).
Proof.
  intros Hf h Hh. unfold mbind, M_bind, rec_at, store.
  destruct (h !! re) as [[| |rE]|] eqn:Hre; simpl; try done.
  destruct (h !! rn) as [[| |rN]|] eqn:Hrn; simpl; try done.
  apply store_insert_ok; [done|]. simpl. unfold devops_is_tdd.
  destruct (Hf rE rN) as [-> ->]. by apply (store_lookup_ok h re).
Qed.

Lemma preserving_assign_rec re rn (f : RepoRecord -> RepoRecord -> RepoRecord) :
  (forall rE rN, isTDD (f rE rN) = isTDD rE /\ isDevOps (f rE rN) = isDevOps rE) ->
  preserving store_devops_is_tdd (rN ← rec_at rn; rE ← rec_at re; store re (ORec (f rE rN))).
Proof.
  intros Hf h Hh. unfold mbind, M_bind, rec_at, store.
  destruct (h !! rn) as [[| |rN]|] eqn:Hrn; simpl; try done.
  destruct (h !! re) as [[| |rE]|] eqn:Hre; simpl; try done.
  apply store_insert_ok; [done|]. simpl. unfold devops_is_tdd.
  destruct (Hf rE rN) as [-> ->]. by apply (store_lookup_ok h re).
Qed.

Lemma preserving_copy_language re rn language : preserving store_devops_is_tdd (copy_language re rn language).
Proof.
  unfold copy_language. apply preserving_bind; [apply preserving_rec_at|].
  intros rN. destruct (dict_get language (languages rN)) as [size|]; [|apply preserving_raise].
  intros h Hh. unfold mbind, M_bind, rec_at, store.
  destruct (h !! re) as [[| |rE]|] eqn:Hre; simpl; try done.
  apply store_insert_ok; [done|]. change (devops_is_tdd rE = true).
  by apply (store_lookup_ok h re).
Qed.

Lemma preserving_is_more_current re rn : preserving store_devops_is_tdd (is_more_current re rn).
Proof.
  unfold is_more_current.
  apply preserving_bind; [apply preserving_rec_at|]. intros rN.
  apply preserving_bind.
  { destruct (r_dateRange rN); [apply preserving_raise|apply preserving_lift]. }
  intros newest. apply preserving_bind; [apply preserving_rec_at|]. intros rE.
  apply preserving_bind; [apply preserving_lift|]. intros ms.
  apply preserving_bind; [apply preserving_lift|]. intros m.
  apply preserving_ret.
Qed.

(** Lines 169-174 together: the two flags are or-ed one after the other,
    and only after both is the record in order again. *)
Lemma preserving_flags {B} re rn (k : unit -> M B) :
  (forall u, preserving store_devops_is_tdd (k u)) ->
  preserving store_devops_is_tdd
    (_ ← (rE ← rec_at re; rN ← rec_at rn;
          store re (ORec (with_isTDD (isTDD rE || isTDD rN) rE)));
     _ ← (rE ← rec_at re; rN ← rec_at rn;
          store re (ORec (with_isDevOps (isDevOps rE || isDevOps rN) rE)));
     k tt).
Proof.
  intros Hk h Hh. cbv [mbind M_bind rec_at store].
  destruct (h !! re) as [[| |rE]|] eqn:Hre; simpl; try done.
  destruct (h !! rn) as [[| |rN]|] eqn:Hrn; simpl; try done.
  rewrite lookup_insert_eq.
  pose proof (store_lookup_ok h re rE Hh Hre) as HE.
  pose proof (store_lookup_ok h rn rN Hh Hrn) as HN.
  unfold devops_is_tdd in HE, HN.
  destruct (decide (re = rn)) as [->|Hne].
  - rewrite lookup_insert_eq. simpl. apply Hk.
    rewrite insert_insert_eq. apply store_insert_ok; [done|].
    rewrite Hre in Hrn. injection Hrn as <-. simpl. unfold devops_is_tdd. simpl.
    by destruct (isTDD rE), (isDevOps rE).
  - rewrite lookup_insert_ne, Hrn by done. simpl. apply Hk.
    rewrite insert_insert_eq. apply store_insert_ok; [done|].
    simpl. unfold devops_is_tdd. simpl.
    by destruct (isTDD rE), (isDevOps rE), (isTDD rN), (isDevOps rN).
Qed.

Lemma preserving_update_repo re rn : preserving store_devops_is_tdd (update_repo re rn).
Proof.
  unfold update_repo. apply preserving_bind.
  { apply preserving_bind; [apply preserving_rec_at|]. intros rN.
    apply preserving_bind; [apply preserving_rec_at|]. intros rE. apply preserving_lift. }
  intros [|]; [|apply preserving_ret].
  apply preserving_bind; [by apply preserving_update_rec|]. intros _.
  apply preserving_bind; [by apply preserving_update_rec|]. intros _.
  apply (preserving_flags re rn
           (fun _ => newer ← is_more_current re rn;
                     if newer : bool then
                       _ ← (rN ← rec_at rn; rE ← rec_at re;
                            store re (ORec (with_totalRepoCommits (totalRepoCommits rN) rE)));
                       rN ← rec_at rn;
                       for_each (copy_language re rn) (dict_keys (languages rN))
                     else mret tt)).
  intros _. apply preserving_bind; [apply preserving_is_more_current|].
  intros [|]; [|apply preserving_ret].
  apply preserving_bind; [by apply preserving_assign_rec|]. intros _.
  apply preserving_bind; [apply preserving_rec_at|]. intros rN.
  apply preserving_for_each. intros language. apply preserving_copy_language.
Qed.

(** Overwriting a snapshot dict by a snapshot. *)
Lemma preserving_store_snap e s : preserving store_devops_is_tdd (store e (OSnap s)).
Proof. intros h Hh. by apply store_insert_ok. Qed.

Lemma preserving_merge_repo e n repo_name : preserving store_devops_is_tdd (merge_repo e n repo_name).
Proof.
  unfold merge_repo. apply preserving_bind; [apply preserving_snap_at|]. intros se.
  destruct (dict_get repo_name (repos se)).
  - apply preserving_bind; [apply preserving_repo_ref|]. intros re.
    apply preserving_bind; [apply preserving_repo_ref|]. intros rn.
    apply preserving_update_repo.
  - apply preserving_bind; [apply preserving_repo_ref|]. intros rn.
    apply preserving_bind; [apply preserving_snap_at|]. intros se'.
    apply preserving_store_snap.
Qed.

(** X8. If every record of the store that is marked DevOps is marked TDD,
    the same holds after a merge, whatever its arguments and however it
    ends (accepted, rejected, or stopped by an exception half way). *)
Theorem merge_keeps_devops_within_tdd existing_data new_data (h : heap) :
  store_devops_is_tdd h ->
  store_devops_is_tdd (merge_formatted_stats_data existing_data new_data h).2.
Proof.
  revert h. change (preserving store_devops_is_tdd (merge_formatted_stats_data existing_data new_data)).
  unfold merge_formatted_stats_data. apply preserving_bind.
  { destruct existing_data as [|e]; [apply preserving_ret|].
    apply preserving_bind; [apply preserving_obj_at|].
    intros [| |]; apply preserving_ret. }
  intros [e|]; [|apply preserving_ret].
  apply preserving_bind.
  { destruct new_data; [apply preserving_raise|apply preserving_ret]. }
  intros n. apply preserving_bind.
  { apply preserving_bind; [apply preserving_snap_at|]. intros sn.
    apply preserving_bind; [apply preserving_snap_at|]. intros se. apply preserving_lift. }
  intros [|]; [|apply preserving_ret].
  apply preserving_bind.
  { apply preserving_bind; [apply preserving_snap_at|]. intros se.
    apply preserving_bind; [apply preserving_snap_at|]. intros sn.
    apply preserving_store_snap. }
  intros _. apply preserving_bind.
  { apply preserving_bind; [apply preserving_snap_at|]. intros se.
    apply preserving_store_snap. }
  intros _. apply preserving_bind; [apply preserving_snap_at|]. intros sn.
  apply preserving_bind; [|intros _; apply preserving_ret].
  apply preserving_for_each. intros k. apply preserving_merge_repo.
Qed.

Lemma merge_keeps_devops_within_tdd_witness :
  store_devops_is_tdd
    (merge_formatted_stats_data (RLoc 1%nat) (RLoc 2%nat) disjoint_docs).2.
Proof.
  apply (merge_keeps_devops_within_tdd (RLoc 1%nat) (RLoc 2%nat) disjoint_docs).
  apply map_Forall_to_list. vm_compute. repeat constructor.
Defined.

End StoreKeepsInvariant.

(** ** Sorting the statistics *)

Section SortFacts.
Import DatabaseManager GitHubStatsAnalysis Statistics.

Lemma key_lt_asym x y : key_lt x y = true -> key_lt y x = false.
Proof. unfold key_lt. destruct x, y; simpl. lia. Qed.

Lemma key_ge_trans x y z : key_lt x y = false -> key_lt y z = false -> key_lt x z = false.
Proof. unfold key_lt. destruct x, y, z; simpl. lia. Qed.

Lemma insert_desc_perm x l : insert_desc x l ≡ₚ x :: l.
Proof.
  induction l as [|y l IH]; simpl; [done|].
  destruct (key_lt (snd x) (snd y)); [|done].
  rewrite IH. apply perm_swap.
Qed.

Lemma sorted_reverse_perm l : sorted_reverse l ≡ₚ l.
Proof.
  induction l as [|x l IH]; simpl; [done|].
  rewrite insert_desc_perm. by rewrite IH.
Qed.

Lemma insert_desc_descending x l : descending_keys l -> descending_keys (insert_desc x l).
Proof.
  induction l as [|y l IH]; simpl.
  - intros _. split; [constructor|done].
  - intros [Hy Hl]. destruct (key_lt (snd x) (snd y)) eqn:Hlt; simpl.
    + split; [|by apply IH].
      rewrite insert_desc_perm. constructor; [by apply key_lt_asym|done].
    + split; [|done]. constructor; [done|].
      eapply Forall_impl; [exact Hy|]. intros z Hz. simpl in Hz.
      by eapply key_ge_trans.
Qed.

Lemma sorted_reverse_descending l : descending_keys (sorted_reverse l).
Proof. induction l as [|x l IH]; simpl; [done|]. by apply insert_desc_descending. Qed.

Lemma with_key_insert_desc k x l :
  with_key k (insert_desc x l) = with_key k (x :: l).
Proof.
  induction l as [|y l IH]; simpl; [done|].
  destruct (key_lt (snd x) (snd y)) eqn:Hlt; [|done].
  unfold with_key in *. simpl in *. rewrite IH.
  destruct ((fst (snd y) =? fst k) && (snd (snd y) =? snd k)) eqn:Hy; [|done].
  destruct ((fst (snd x) =? fst k) && (snd (snd x) =? snd k)) eqn:Hx; [|done].
  exfalso. unfold key_lt in Hlt. destruct x as [? [? ?]], y as [? [? ?]], k; simpl in *.
  apply andb_true_iff in Hx as [?%Z.eqb_eq ?%Z.eqb_eq].
  apply andb_true_iff in Hy as [?%Z.eqb_eq ?%Z.eqb_eq]. lia.
Qed.

Lemma with_key_sorted_reverse k l : with_key k (sorted_reverse l) = with_key k l.
Proof.
  induction l as [|x l IH]; simpl; [done|].
  rewrite with_key_insert_desc. unfold with_key in *. simpl. by rewrite IH.
Qed.

(** [l[:n] if len(l) >= n else l] is [l[:n]]. *)
Lemma top_statistics_slice {A} n (l : list A) : top_statistics n l = slice_to n l.
Proof.
  unfold top_statistics, slice_to.
  destruct (n <=? Z.of_nat (List.length l)) eqn:Hle; [done|].
  apply Z.leb_gt in Hle. destruct (n <? 0) eqn:Hn; [lia|].
  symmetry. apply firstn_all2. lia.
Qed.

End SortFacts.

(** ** Counting languages *)

Section TallyFacts.
Import DatabaseManager GitHubStatsAnalysis Statistics.

Lemma dict_get_count_language language tmp entry :
  dict_get language (count_language tmp entry)
  = if String.eqb language (fst entry) then one_more (dict_get language tmp) (snd entry)
    else dict_get language tmp.
Proof.
  unfold count_language. destruct (String.eqb language (fst entry)) eqn:E.
  - apply String.eqb_eq in E as ->.
    destruct (dict_get (fst entry) tmp) as [[c s]|]; by rewrite dict_get_set_eq.
  - apply String.eqb_neq in E.
    destruct (dict_get (fst entry) tmp) as [[c s]|]; by rewrite dict_get_set_ne.
Qed.

Lemma dict_get_count_languages language entries tmp :
  dict_get language (fold_left count_language entries tmp)
  = fold_left one_more
      (map snd (List.filter (fun entry => String.eqb language (fst entry)) entries))
      (dict_get language tmp).
Proof.
  revert tmp. induction entries as [|entry entries IH]; intros tmp; simpl; [done|].
  rewrite IH, dict_get_count_language.
  by destruct (String.eqb language (fst entry)).
Qed.

Lemma count_repo_selected is_tdd is_devops tmp r :
  count_repo is_tdd is_devops tmp r
  = if selected is_tdd is_devops r then fold_left count_language (languages r) tmp else tmp.
Proof. unfold count_repo, selected. by destruct is_tdd, is_devops, (isTDD r), (isDevOps r). Qed.

Lemma file_sizes_cons language r rs :
  file_sizes language (r :: rs)
  = (map snd (List.filter (fun entry => String.eqb language (fst entry)) (languages r))
     ++ file_sizes language rs)%list.
Proof. unfold file_sizes. simpl. by rewrite List.filter_app, map_app. Qed.

Lemma dict_get_count_repos language is_tdd is_devops rs tmp :
  dict_get language (fold_left (count_repo is_tdd is_devops) rs tmp)
  = fold_left one_more
      (file_sizes language (List.filter (selected is_tdd is_devops) rs))
      (dict_get language tmp).
Proof.
  revert tmp. induction rs as [|r rs IH]; intros tmp; simpl; [done|].
  rewrite IH, count_repo_selected. destruct (selected is_tdd is_devops r); [|done].
  by rewrite file_sizes_cons, fold_left_app, dict_get_count_languages.
Qed.

Lemma one_more_sizes count size sizes :
  fold_left one_more sizes (Some (count, size))
  = Some (count + Z.of_nat (List.length sizes), size + fold_right Z.add 0 sizes).
Proof.
  revert count size. induction sizes as [|u sizes IH]; intros count size; simpl.
  - f_equal. f_equal; lia.
  - rewrite IH. f_equal. f_equal; lia.
Qed.

Lemma one_more_language_stat sizes : fold_left one_more sizes None = language_stat sizes.
Proof.
  destruct sizes as [|u sizes]; [done|].
  change (fold_left one_more (u :: sizes) None) with (fold_left one_more sizes (Some (1, u))).
  rewrite one_more_sizes. unfold language_stat.
  change (List.length (u :: sizes)) with (S (List.length sizes)).
  change (fold_right Z.add 0 (u :: sizes)) with (u + fold_right Z.add 0 sizes).
  f_equal. f_equal. lia.
Qed.

Lemma dict_set_keys_NoDup {V} k (v : V) d : NoDup (dict_keys d) -> NoDup (dict_keys (dict_set k v d)).
Proof.
  destruct (dict_get k d) as [v0|] eqn:Hk.
  - intros Hnd. replace (dict_keys (dict_set k v d)) with (dict_keys d); [done|].
    clear Hnd. revert Hk. induction d as [|[k' v'] d IH]; simpl; [done|].
    destruct (String.eqb k k'); simpl; [done|]. intros Hk. f_equal. by apply IH.
  - intros Hnd. rewrite (dict_set_new _ _ _ Hk). unfold dict_keys. rewrite map_app. simpl.
    apply NoDup_app. split; [done|]. split; [|apply NoDup_singleton].
    intros x Hx ->%list_elem_of_singleton. rewrite list_elem_of_In in Hx.
    apply dict_get_keys in Hx as [? ?]. congruence.
Qed.

Lemma count_language_NoDup tmp entry :
  NoDup (dict_keys tmp) -> NoDup (dict_keys (count_language tmp entry)).
Proof.
  unfold count_language. destruct (dict_get _ tmp) as [[? ?]|]; apply dict_set_keys_NoDup.
Qed.

Lemma count_repos_NoDup is_tdd is_devops rs tmp :
  NoDup (dict_keys tmp) -> NoDup (dict_keys (fold_left (count_repo is_tdd is_devops) rs tmp)).
Proof.
  revert tmp. induction rs as [|r rs IH]; intros tmp Hnd; simpl; [done|].
  apply IH. rewrite count_repo_selected. destruct (selected _ _ r); [|done].
  generalize (languages r). intros entries. revert tmp Hnd.
  induction entries as [|entry entries IHe]; intros tmp Hnd; simpl; [done|].
  apply IHe. by apply count_language_NoDup.
Qed.

(** A dict is read the same in whatever order its entries are listed. *)
Lemma dict_get_perm {V} k (d d' : list (string * V)) :
  NoDup (dict_keys d) -> d ≡ₚ d' -> dict_get k d' = dict_get k d.
Proof.
  intros Hnd Hp.
  assert (NoDup (dict_keys d')) as Hnd'.
  { unfold dict_keys. by rewrite <- Hp. }
  destruct (dict_get k d) as [v|] eqn:Hk.
  - apply dict_get_entry; [done|]. apply dict_get_Some_In in Hk.
    rewrite <- list_elem_of_In in *. by rewrite <- Hp.
  - destruct (dict_get k d') as [v|] eqn:Hk'; [|done].
    apply dict_get_Some_In in Hk'. rewrite <- list_elem_of_In, <- Hp, list_elem_of_In in Hk'.
    apply (dict_get_entry _ _ _ Hnd) in Hk'. congruence.
Qed.

Lemma language_stats_get language is_tdd is_devops rs :
  dict_get language (language_stats is_tdd is_devops rs)
  = language_stat (file_sizes language (List.filter (selected is_tdd is_devops) rs)).
Proof.
  unfold language_stats, language_tally.
  rewrite (dict_get_perm language (fold_left (count_repo is_tdd is_devops) rs [])).
  - by rewrite dict_get_count_repos, one_more_language_stat.
  - apply count_repos_NoDup. constructor.
  - symmetry. apply sorted_reverse_perm.
Qed.

End TallyFacts.

(** ** Running the statistics *)

Section AnalysisRuns.
Import DatabaseManager Retrieval GitHubStatsAnalysis Statistics Samples.

Lemma py_len_snapshot (h : heap) l s :
  h !! l = Some (OSnap s) -> py_len (RLoc l) h = (Ok 3, h).
Proof. intros Hl. unfold py_len. by rewrite (bind_ok _ _ _ _ _ (obj_at_ok _ _ _ Hl)). Qed.

Lemma fold_each_records {S} (g : S -> string -> RepoRecord -> S) (h : heap) d rs acc :
  records_at h d rs ->
  fold_each (fun acc item => repo_data ← rec_at (snd item); mret (g acc (fst item) repo_data))
            acc d h
  = (Ok (fold_left (fun acc kr => g acc (fst kr) (snd kr)) rs acc), h).
Proof.
  intros Hrs. revert acc. induction Hrs as [|item kr d rs [Hk Hr] _ IH]; intros acc; simpl.
  - done.
  - rewrite (bind_ok _ _ _ _ _ (bind_ok _ _ _ _ _ (rec_at_ok _ _ _ Hr))).
    rewrite Hk. apply IH.
Qed.

Lemma fold_left_snd {S A B} (f : S -> B -> S) (l : list (A * B)) acc :
  fold_left (fun acc kr => f acc (snd kr)) l acc = fold_left f (map snd l) acc.
Proof. revert acc. induction l as [|x l IH]; intros acc; simpl; [done|]. apply IH. Qed.

Lemma tally_run (h : heap) d rs is_tdd is_devops :
  records_at h d rs ->
  fold_each (fun tmp item => repo_data ← rec_at (snd item);
                             mret (count_repo is_tdd is_devops tmp repo_data)) [] d h
  = (Ok (language_tally is_tdd is_devops (map snd rs)), h).
Proof.
  intros Hrs.
  rewrite (fold_each_records (fun tmp _ r => count_repo is_tdd is_devops tmp r) h d rs [] Hrs).
  by rewrite fold_left_snd.
Qed.

(** A filtered statistic: computed from the records, returned whole, and
    nothing is kept in [self]. *)
Lemma filtered_language_stats_run (h : heap) self l s rs is_tdd is_devops :
  formatted_repo_data self = RLoc l -> h !! l = Some (OSnap s) -> records_at h (repos s) rs ->
  is_tdd || is_devops = true ->
  compute_most_popular_repo_language_stats self is_tdd is_devops h
  = (Ok (self, language_stats is_tdd is_devops (map snd rs)), h).
Proof.
  intros Hd Hl Hrs Hf. unfold compute_most_popular_repo_language_stats. rewrite Hd.
  replace (negb is_tdd && negb is_devops
           && Nat.eqb (List.length (most_popular_repo_languages_stats self)) 0
           || is_tdd || is_devops) with true by (by destruct is_tdd, is_devops).
  rewrite (bind_ok _ _ _ _ _ (bind_ok _ _ _ _ _ (py_len_snapshot _ _ _ Hl))).
  cbv beta iota. change (0 <? 3) with true. cbv beta iota.
  unfold subscript. rewrite (bind_ok _ _ _ _ _ (snap_at_ok _ _ _ Hl)).
  rewrite (bind_ok _ _ _ _ _ (tally_run _ _ _ _ _ Hrs)).
  by rewrite Hf.
Qed.

(** The unfiltered statistic, when none is kept yet. *)
Lemma language_stats_run (h : heap) self l s rs :
  formatted_repo_data self = RLoc l -> h !! l = Some (OSnap s) -> records_at h (repos s) rs ->
  most_popular_repo_languages_stats self = [] ->
  compute_most_popular_repo_language_stats self false false h
  = (Ok (with_most_popular_repo_languages_stats (language_stats false false (map snd rs)) self,
         top_statistics (num_top_statistics self) (language_stats false false (map snd rs))), h).
Proof.
  intros Hd Hl Hrs Hc. unfold compute_most_popular_repo_language_stats. rewrite Hd, Hc.
  simpl negb. simpl andb. simpl orb. cbv beta iota.
  rewrite (bind_ok _ _ _ _ _ (bind_ok _ _ _ _ _ (py_len_snapshot _ _ _ Hl))).
  cbv beta iota. change (0 <? 3) with true. cbv beta iota.
  unfold subscript. rewrite (bind_ok _ _ _ _ _ (snap_at_ok _ _ _ Hl)).
  by rewrite (bind_ok _ _ _ _ _ (tally_run _ _ _ _ _ Hrs)).
Qed.

(** The unfiltered statistic, when one is kept: the data is not read. *)
Lemma language_stats_kept (h : heap) self :
  most_popular_repo_languages_stats self <> [] ->
  compute_most_popular_repo_language_stats self false false h
  = (Ok (self, top_statistics (num_top_statistics self)
                 (most_popular_repo_languages_stats self)), h).
Proof.
  intros Hc. unfold compute_most_popular_repo_language_stats.
  destruct (most_popular_repo_languages_stats self) as [|x c] eqn:E; [done|]. simpl.
  munfold. done.
Qed.

End AnalysisRuns.

(** ** The statistics *)

Section AnalysisFacts.
Import DatabaseManager Retrieval GitHubStatsAnalysis Statistics Samples.

(** X15. A filtered language statistic
    ([compute_most_popular_repo_language_stats] with [is_tdd] or
    [is_devops]) lists a language exactly when a selected repository
    uses it, with the number of such uses and the sum of their file
    sizes; a repository is selected when it carries every flag asked for. *)
Theorem language_stats_count_selected_repositories (h : heap) self l s rs is_tdd is_devops :
  formatted_repo_data self = RLoc l ->
  h !! l = Some (OSnap s) ->
  records_at h (repos s) rs ->
  is_tdd || is_devops = true ->
  exists stats,
    compute_most_popular_repo_language_stats self is_tdd is_devops h = (Ok (self, stats), h)
    /\ NoDup (dict_keys stats)
    /\ forall language,
         dict_get language stats
         = language_stat (file_sizes language
                            (List.filter (selected is_tdd is_devops) (map snd rs))).
Proof.
  intros Hd Hl Hrs Hf. exists (language_stats is_tdd is_devops (map snd rs)).
  split; [by eapply filtered_language_stats_run|]. split.
  - unfold language_stats, dict_keys. rewrite sorted_reverse_perm.
    apply count_repos_NoDup. constructor.
  - intros language. apply language_stats_get.
Qed.

Lemma language_stats_count_selected_repositories_witness :
  exists stats,
    compute_most_popular_repo_language_stats (mkAnalysis 10 (RLoc 2%nat) [] [] [] []) true false
      disjoint_docs
    = (Ok (mkAnalysis 10 (RLoc 2%nat) [] [] [] [], stats), disjoint_docs)
    /\ NoDup (dict_keys stats)
    /\ forall language,
         dict_get language stats
         = language_stat
             (file_sizes language
                (List.filter (selected true false)
                   (map snd
                      [("alice/repo1",
                        mkRepoRecord [(day "2023-05-07", day "2023-05-05")] 2 120 true false
                                     [("C", 6); ("Go", 1)]);
                       ("bob/repo2",
                        mkRepoRecord [(day "2023-05-07", day "2023-05-05")] 1 8 false false
                                     [])]))).
Proof.
  apply (language_stats_count_selected_repositories disjoint_docs
           (mkAnalysis 10 (RLoc 2%nat) [] [] [] []) 2%nat
           (mkSnapshot [(day "2023-05-07", day "2023-05-05")] 7
                       [("alice/repo1", 4%nat); ("bob/repo2", 5%nat)])
           [("alice/repo1",
             mkRepoRecord [(day "2023-05-07", day "2023-05-05")] 2 120 true false
                          [("C", 6); ("Go", 1)]);
            ("bob/repo2",
             mkRepoRecord [(day "2023-05-07", day "2023-05-05")] 1 8 false false [])]
           true false);
    [reflexivity|reflexivity|repeat constructor|reflexivity].
Defined.

(** X16. The entries of a filtered language statistic come greatest first, by
    use count and then by total file size; languages that tie on both
    stay in the order in which the loop first met them. *)
Theorem language_stats_greatest_first (h : heap) self l s rs is_tdd is_devops :
  formatted_repo_data self = RLoc l ->
  h !! l = Some (OSnap s) ->
  records_at h (repos s) rs ->
  is_tdd || is_devops = true ->
  exists stats,
    compute_most_popular_repo_language_stats self is_tdd is_devops h = (Ok (self, stats), h)
    /\ stats ≡ₚ language_tally is_tdd is_devops (map snd rs)
    /\ descending_keys stats
    /\ forall k, with_key k stats = with_key k (language_tally is_tdd is_devops (map snd rs)).
Proof.
  intros Hd Hl Hrs Hf. exists (language_stats is_tdd is_devops (map snd rs)).
  split; [by eapply filtered_language_stats_run|]. unfold language_stats.
  split; [apply sorted_reverse_perm|]. split; [apply sorted_reverse_descending|].
  intros k. apply with_key_sorted_reverse.
Qed.

Lemma language_stats_greatest_first_witness :
  exists stats,
    compute_most_popular_repo_language_stats (mkAnalysis 10 (RLoc 2%nat) [] [] [] []) true false
      disjoint_docs
    = (Ok (mkAnalysis 10 (RLoc 2%nat) [] [] [] [], stats), disjoint_docs)
    /\ stats ≡ₚ [("C", (1, 6)); ("Go", (1, 1))]
    /\ descending_keys stats
    /\ forall k, with_key k stats = with_key k [("C", (1, 6)); ("Go", (1, 1))].
Proof.
  apply (language_stats_greatest_first disjoint_docs
           (mkAnalysis 10 (RLoc 2%nat) [] [] [] []) 2%nat
           (mkSnapshot [(day "2023-05-07", day "2023-05-05")] 7
                       [("alice/repo1", 4%nat); ("bob/repo2", 5%nat)])
           [("alice/repo1",
             mkRepoRecord [(day "2023-05-07", day "2023-05-05")] 2 120 true false
                          [("C", 6); ("Go", 1)]);
            ("bob/repo2",
             mkRepoRecord [(day "2023-05-07", day "2023-05-05")] 1 8 false false [])]
           true false);
    [reflexivity|reflexivity|repeat constructor|reflexivity].
Defined.

Lemma commit_stats_dict rs acc :
  NoDup (dict_keys acc ++ map fst rs) ->
  fold_left (fun stats kr => dict_set (fst kr)
               (totalCommitsInDateRange (snd kr), totalRepoCommits (snd kr)) stats) rs acc
  = (acc ++ map commit_stat rs)%list.
Proof.
  revert acc. induction rs as [|kr rs IH]; intros acc Hnd; simpl.
  - by rewrite app_nil_r.
  - rewrite dict_set_new.
    + rewrite IH.
      * by rewrite <- app_assoc.
      * unfold dict_keys. rewrite map_app. simpl. by rewrite <- app_assoc.
    + apply dict_get_not_key. apply NoDup_app in Hnd as (_ & Hdisj & _).
      intros Hin. rewrite <- list_elem_of_In in Hin. apply (Hdisj _ Hin). left.
Qed.

Lemma records_at_keys (h : heap) d rs : records_at h d rs -> map fst rs = dict_keys d.
Proof. induction 1 as [|item kr d rs [Hk _] _ IH]; simpl; [done|]. by rewrite Hk, IH. Qed.

(** X17. With no statistic kept yet, [compute_most_updated_repo_stats] sorts
    one entry per repository, greatest first by commits in the date range
    and then by total commits, keeps the sorted list, and returns its
    first [num_top_statistics] entries; a negative [num_top_statistics]
    does not give an empty result but drops that many entries from the
    end. *)
Theorem most_updated_repo_stats_top (h : heap) self l s rs :
  formatted_repo_data self = RLoc l ->
  h !! l = Some (OSnap s) ->
  records_at h (repos s) rs ->
  NoDup (dict_keys (repos s)) ->
  most_updated_repo_stats self = [] ->
  exists all,
    compute_most_updated_repo_stats self h
    = (Ok (with_most_updated_repo_stats all self,
           firstn (Z.to_nat (if num_top_statistics self <? 0
                             then Z.of_nat (List.length rs) + num_top_statistics self
                             else num_top_statistics self)) all), h)
    /\ all ≡ₚ map commit_stat rs
    /\ descending_keys all
    /\ forall k, with_key k all = with_key k (map commit_stat rs).
Proof.
  intros Hd Hl Hrs Hnd Hc. exists (sorted_reverse (map commit_stat rs)).
  split; [|split; [apply sorted_reverse_perm|split;
                   [apply sorted_reverse_descending|intros k; apply with_key_sorted_reverse]]].
  unfold compute_most_updated_repo_stats. rewrite Hc, Hd. simpl Nat.eqb. cbv beta iota.
  rewrite (bind_ok _ _ _ _ _ (bind_ok _ _ _ _ _ (py_len_snapshot _ _ _ Hl))).
  cbv beta iota. change (0 <? 3) with true. cbv beta iota.
  erewrite bind_ok; cycle 1.
  { unfold subscript. rewrite (bind_ok _ _ _ _ _ (snap_at_ok _ _ _ Hl)).
    erewrite bind_ok; [reflexivity|].
    apply (fold_each_records
             (fun stats k r => dict_set k (totalCommitsInDateRange r, totalRepoCommits r) stats)
             h (repos s) rs [] Hrs). }
  rewrite (commit_stats_dict rs []) by (simpl; by rewrite (records_at_keys _ _ _ Hrs)).
  simpl app. munfold. simpl. f_equal. f_equal.
  rewrite top_statistics_slice. unfold slice_to.
  assert (List.length (sorted_reverse (map commit_stat rs)) = List.length rs) as ->
    by (by rewrite sorted_reverse_perm, length_map).
  by destruct (num_top_statistics self <? 0).
Qed.

Lemma most_updated_repo_stats_top_witness :
  exists all,
    compute_most_updated_repo_stats (mkAnalysis (-1) (RLoc 2%nat) [] [] [] []) disjoint_docs
    = (Ok (mkAnalysis (-1) (RLoc 2%nat) all [] [] [], firstn 1 all), disjoint_docs)
    /\ all ≡ₚ [("alice/repo1", (2, 120)); ("bob/repo2", (1, 8))]
    /\ descending_keys all
    /\ forall k, with_key k all = with_key k [("alice/repo1", (2, 120)); ("bob/repo2", (1, 8))].
Proof.
  apply (most_updated_repo_stats_top disjoint_docs
           (mkAnalysis (-1) (RLoc 2%nat) [] [] [] []) 2%nat
           (mkSnapshot [(day "2023-05-07", day "2023-05-05")] 7
                       [("alice/repo1", 4%nat); ("bob/repo2", 5%nat)])
           [("alice/repo1",
             mkRepoRecord [(day "2023-05-07", day "2023-05-05")] 2 120 true false
                          [("C", 6); ("Go", 1)]);
            ("bob/repo2",
             mkRepoRecord [(day "2023-05-07", day "2023-05-05")] 1 8 false false [])]);
    [reflexivity|reflexivity|repeat constructor| |reflexivity].
  apply (bool_decide_unpack (NoDup (dict_keys [("alice/repo1", 4%nat); ("bob/repo2", 5%nat)]))).
  vm_compute. exact I.
Defined.

End AnalysisFacts.

(** ** Loading the files *)

Section LoadFacts.
Import DatabaseManager Spec Retrieval GitHubStatsAnalysis Statistics Samples DateOrder.

(** X18. A file that the data loaded so far rejects stops the whole loading:
    the merge hands back [None], which becomes the data, and the first
    statistic that is recomputed asks for its length. No file after it is
    read, and the store is as it was. *)
Theorem load_stops_at_rejected_file (h : heap) self e n se sn rest :
  formatted_repo_data self = RLoc e ->
  h !! e = Some (OSnap se) ->
  h !! n = Some (OSnap sn) ->
  all_valid (dateRange se) (dateRange sn) = Ok false ->
  load_formatted_stats_data self (RLoc n :: rest) h = (Raise TypeError, h).
Proof.
  intros Hd He Hn Hno. simpl. rewrite Hd.
  erewrite bind_ok; [|by rewrite (merge_nonempty _ _ _ _ _ He Hn), Hno].
  apply bind_raise. unfold compute_all_repo_stats. apply bind_raise.
  unfold compute_most_popular_repo_language_stats. simpl. apply bind_raise.
  by apply bind_raise.
Qed.

Lemma load_stops_at_rejected_file_witness :
  load_formatted_stats_data (mkAnalysis 10 (RLoc 1%nat) [] [] [] []) [RLoc 2%nat; RLoc 2%nat]
    overlapping_docs
  = (Raise TypeError, overlapping_docs).
Proof.
  apply (load_stops_at_rejected_file overlapping_docs (mkAnalysis 10 (RLoc 1%nat) [] [] [] [])
           1%nat 2%nat
           (mkSnapshot [(day "2023-05-10", day "2023-05-05")] 10 [("alice/repo1", 3%nat)])
           (mkSnapshot [(day "2023-05-07", day "2023-05-01")] 7 [("bob/repo2", 4%nat)])
           [RLoc 2%nat]);
    reflexivity.
Defined.

Lemma filtered_stats_run (h : heap) self l s rs :
  formatted_repo_data self = RLoc l -> h !! l = Some (OSnap s) -> records_at h (repos s) rs ->
  most_popular_tdd_repo_language_stats self = [] ->
  compute_most_popular_tdd_repo_language_stats self h
  = (Ok (with_most_popular_tdd_repo_language_stats (language_stats true false (map snd rs)) self,
         top_statistics (num_top_statistics self) (language_stats true false (map snd rs))), h).
Proof.
  intros Hd Hl Hrs Hc. unfold compute_most_popular_tdd_repo_language_stats. rewrite Hc.
  simpl Nat.eqb. cbv beta iota. rewrite Hd.
  rewrite (bind_ok _ _ _ _ _ (bind_ok _ _ _ _ _ (py_len_snapshot _ _ _ Hl))).
  cbv beta iota. change (0 <? 3) with true. cbv beta iota.
  erewrite bind_ok; cycle 1.
  { erewrite bind_ok; [reflexivity|].
    by apply (filtered_language_stats_run h self l s rs true false). }
  reflexivity.
Qed.

Lemma twice_filtered_stats_run (h : heap) self l s rs :
  formatted_repo_data self = RLoc l -> h !! l = Some (OSnap s) -> records_at h (repos s) rs ->
  most_popular_tdd_and_devops_repo_language_stats self = [] ->
  compute_most_popular_tdd_and_devops_repo_language_stats self h
  = (Ok (with_most_popular_tdd_and_devops_repo_language_stats
           (language_stats true true (map snd rs)) self,
         top_statistics (num_top_statistics self) (language_stats true true (map snd rs))), h).
Proof.
  intros Hd Hl Hrs Hc. unfold compute_most_popular_tdd_and_devops_repo_language_stats.
  rewrite Hc. simpl Nat.eqb. cbv beta iota. rewrite Hd.
  rewrite (bind_ok _ _ _ _ _ (bind_ok _ _ _ _ _ (py_len_snapshot _ _ _ Hl))).
  cbv beta iota. change (0 <? 3) with true. cbv beta iota.
  erewrite bind_ok; cycle 1.
  { erewrite bind_ok; [reflexivity|].
    by apply (filtered_language_stats_run h self l s rs true true). }
  reflexivity.
Qed.

(** [compute_all_repo_stats] after a reset. *)
Lemma compute_all_repo_stats_run (h : heap) self l s rs :
  formatted_repo_data self = RLoc l -> h !! l = Some (OSnap s) -> records_at h (repos s) rs ->
  compute_all_repo_stats (reset_repo_stats self) h
  = (Ok (mkAnalysis (num_top_statistics self) (RLoc l) []
           (language_stats false false (map snd rs))
           (language_stats true false (map snd rs))
           (language_stats true true (map snd rs))), h).
Proof.
  intros Hd Hl Hrs. unfold compute_all_repo_stats.
  rewrite (bind_ok _ _ _ _ _
             (language_stats_run h (reset_repo_stats self) l s rs Hd Hl Hrs eq_refl)).
  simpl fst.
  pose proof (language_stats_run h
                (with_most_popular_repo_languages_stats [] (reset_repo_stats self))
                l s rs Hd Hl Hrs eq_refl) as Hagain.
  remember (language_stats false false (map snd rs)) as ls eqn:Els.
  set (self1 := with_most_popular_repo_languages_stats ls (reset_repo_stats self)).
  assert (formatted_repo_data self1 = RLoc l) as Hd1 by done.
  assert (compute_most_popular_repo_language_stats self1 false false h
          = (Ok (self1, top_statistics (num_top_statistics self1)
                          (most_popular_repo_languages_stats self1)), h)) as Hsecond.
  { destruct ls as [|x c].
    - unfold self1. rewrite Hagain. reflexivity.
    - by apply language_stats_kept. }
  rewrite (bind_ok _ _ _ _ _ Hsecond). simpl fst.
  rewrite (bind_ok _ _ _ _ _ (filtered_stats_run h self1 l s rs Hd1 Hl Hrs eq_refl)). simpl fst.
  erewrite bind_ok; cycle 1.
  { by apply (twice_filtered_stats_run h _ l s rs). }
  unfold self1. munfold. simpl.
  unfold with_most_popular_tdd_and_devops_repo_language_stats,
    with_most_popular_tdd_repo_language_stats, with_most_popular_repo_languages_stats,
    reset_repo_stats. simpl. by rewrite Hd.
Qed.

(** X19. Loading one file into a new instance: the instance refers to the
    loaded dict itself, the three language statistics are computed from
    all of its records, from those marked TDD and from those marked both
    TDD and DevOps, and the most-updated statistic is not computed. *)
Theorem load_first_file (h : heap) n d s rs :
  h !! d = Some (OSnap s) ->
  records_at h (repos s) rs ->
  (self ← init n; load_formatted_stats_data self [RLoc d]) h
  = (Ok (mkAnalysis n (RLoc d) []
           (language_stats false false (map snd rs))
           (language_stats true false (map snd rs))
           (language_stats true true (map snd rs))),
     <[fresh (dom h) := OEmpty]> h).
Proof.
  intros Hd Hrs. set (a := fresh (dom h)). set (h1 := <[a := OEmpty]> h).
  assert (h !! a = None) as Ha by (apply not_elem_of_dom, is_fresh).
  assert (h1 !! a = Some OEmpty) as Ha1 by apply lookup_insert_eq.
  assert (forall l o, h !! l = Some o -> h1 !! l = Some o) as Hkeep.
  { intros l o Hl. unfold h1. rewrite lookup_insert_ne; [done|]. intros <-. congruence. }
  assert (records_at h1 (repos s) rs) as Hrs1.
  { eapply Forall2_impl; [exact Hrs|]. intros item kr [Hk Hr]. split; [done|by apply Hkeep]. }
  erewrite bind_ok; [|reflexivity]. fold a h1. simpl.
  rewrite (bind_ok _ _ _ _ _ (merge_into_empty _ _ _ Ha1)).
  erewrite bind_ok; cycle 1.
  { apply (compute_all_repo_stats_run h1
             (with_formatted_repo_data (RLoc d) (mkAnalysis n (RLoc a) [] [] [] [])) d s rs);
      [done|by apply Hkeep|done]. }
  reflexivity.
Qed.

Lemma load_first_file_witness :
  (self ← init 10; load_formatted_stats_data self [RLoc 2%nat]) disjoint_docs
  = (Ok (mkAnalysis 10 (RLoc 2%nat) []
           [("C", (1, 6)); ("Go", (1, 1))] [("C", (1, 6)); ("Go", (1, 1))] []),
     <[fresh (dom disjoint_docs) := OEmpty]> disjoint_docs).
Proof.
  apply (load_first_file disjoint_docs 10 2%nat
           (mkSnapshot [(day "2023-05-07", day "2023-05-05")] 7
                       [("alice/repo1", 4%nat); ("bob/repo2", 5%nat)])
           [("alice/repo1",
             mkRepoRecord [(day "2023-05-07", day "2023-05-05")] 2 120 true false
                          [("C", 6); ("Go", 1)]);
            ("bob/repo2",
             mkRepoRecord [(day "2023-05-07", day "2023-05-05")] 1 8 false false [])]);
    [reflexivity|repeat constructor].
Defined.

Lemma py_extremum_app better best l1 l2 :
  py_extremum better best (l1 ++ l2)
  = (b ← py_extremum better best l1; py_extremum better b l2).
Proof.
  revert best. induction l1 as [|x l1 IH]; intros best; simpl; [done|].
  destruct (better x best) as [b|]; simpl; [apply IH|done].
Qed.

Lemma not_after_ltb a b : not_after a b -> String.ltb b a = false.
Proof. unfold not_after. rewrite ltb_leb. by intros ->. Qed.

Lemma py_max_stays m l :
  (forall y, In y l -> not_after y m) ->
  py_extremum py_gt (Some m) (map Some l) = Ok (Some m).
Proof.
  induction l as [|y l IH]; intros Hle; simpl; [done|].
  rewrite (not_after_ltb y m) by (apply Hle; by left). simpl.
  apply IH. intros z Hz. apply Hle. by right.
Qed.

Lemma py_min_stays m l :
  (forall y, In y l -> not_after m y) ->
  py_extremum py_lt (Some m) (map Some l) = Ok (Some m).
Proof.
  induction l as [|y l IH]; intros Hle; simpl; [done|].
  rewrite (not_after_ltb m y) by (apply Hle; by left). simpl.
  apply IH. intros z Hz. apply Hle. by right.
Qed.

Lemma py_max_doubled l : py_max (map Some (l ++ l)) = py_max (map Some l).
Proof.
  destruct l as [|x l]; [done|]. unfold py_max. simpl.
  rewrite List.map_app, py_extremum_app.
  destruct (py_max_strings x l) as (m & -> & _ & Hge). simpl.
  by apply (py_max_stays m (x :: l)).
Qed.

Lemma py_min_doubled l : py_min (map Some (l ++ l)) = py_min (map Some l).
Proof.
  destruct l as [|x l]; [done|]. unfold py_min. simpl.
  rewrite List.map_app, py_extremum_app.
  destruct (py_min_strings x l) as (m & -> & _ & Hle). simpl.
  by apply (py_min_stays m (x :: l)).
Qed.

Lemma py_min_ends_doubled (l : list DateRange) ends :
  map snd l = map Some ends -> py_min (map snd (l ++ l)) = py_min (map snd l).
Proof.
  intros H. unfold DateRange in *.
  rewrite List.map_app, H, <- List.map_app. apply py_min_doubled.
Qed.

Lemma py_max_starts_doubled (l : list DateRange) starts :
  map fst l = map Some starts -> py_max (map fst (l ++ l)) = py_max (map fst l).
Proof.
  intros H. unfold DateRange in *.
  rewrite List.map_app, H, <- List.map_app. apply py_max_doubled.
Qed.

Lemma get_date_range_run (h : heap) self l s :
  formatted_repo_data self = RLoc l -> h !! l = Some (OSnap s) ->
  get_date_range self h
  = (oldest ← py_min (map snd (dateRange s));
     newest ← py_max (map fst (dateRange s));
     Ok (oldest, newest), h).
Proof.
  intros Hd Hl. unfold get_date_range, subscript. rewrite Hd. munfold. rewrite Hl.
  unfold res_bind.
  destruct (py_min (map snd (dateRange s))) as [oldest|x]; [|done]. rewrite Hl.
  by destruct (py_max (map fst (dateRange s))) as [newest|x].
Qed.

(** X20. The dates [get_date_range] reports are the same after an accepted
    merge as before it: the merged dict lists its own ranges twice and
    none of the incoming document, so the days the incoming document
    covers are never shown. *)
Theorem date_range_ignores_merged_document (h : heap) self e n se sn starts ends :
  formatted_repo_data self = RLoc e ->
  h !! e = Some (OSnap se) ->
  h !! n = Some (OSnap sn) ->
  separate_documents h e n = true ->
  all_valid (dateRange se) (dateRange sn) = Ok true ->
  map fst (dateRange se) = map Some starts ->
  map snd (dateRange se) = map Some ends ->
  exists h' dates,
    merge_formatted_stats_data (RLoc e) (RLoc n) h = (Ok (RLoc e), h')
    /\ get_date_range self h = (dates, h)
    /\ get_date_range self h' = (dates, h').
Proof.
  intros Hd He Hn Hsep Hok Hstarts Hends.
  destruct (merge_separate_documents h e n se sn He Hn Hsep Hok)
    as (h' & se' & Hrun & He' & Hdr & _).
  exists h'. eexists. split; [done|].
  rewrite (get_date_range_run h self e se Hd He).
  rewrite (get_date_range_run h' self e se' Hd He'). split; [reflexivity|].
  rewrite Hdr.
  by rewrite (py_min_ends_doubled _ _ Hends), (py_max_starts_doubled _ _ Hstarts).
Qed.

Lemma date_range_ignores_merged_document_witness :
  exists h' dates,
    merge_formatted_stats_data (RLoc 1%nat) (RLoc 2%nat) disjoint_docs = (Ok (RLoc 1%nat), h')
    /\ get_date_range (mkAnalysis 10 (RLoc 1%nat) [] [] [] []) disjoint_docs
       = (dates, disjoint_docs)
    /\ get_date_range (mkAnalysis 10 (RLoc 1%nat) [] [] [] []) h' = (dates, h').
Proof.
  apply (date_range_ignores_merged_document disjoint_docs
           (mkAnalysis 10 (RLoc 1%nat) [] [] [] []) 1%nat 2%nat
           (mkSnapshot [(day "2023-05-10", day "2023-05-08")] 10 [("alice/repo1", 3%nat)])
           (mkSnapshot [(day "2023-05-07", day "2023-05-05")] 7
                       [("alice/repo1", 4%nat); ("bob/repo2", 5%nat)])
           ["2023-05-10"] ["2023-05-08"]);
    reflexivity.
Defined.

End LoadFacts.

(** ** The tasks [publish] sends *)

Section PublishFacts.
Import Producer.

Lemma range_positive n : 0 < n -> exists rest, range n = 0 :: rest.
Proof.
  intros Hn. unfold range. destruct (Z.to_nat n) as [|m] eqn:E; [lia|].
  simpl. eauto.
Qed.

Lemma range_not_positive n : n <= 0 -> range n = [].
Proof. intros Hn. unfold range. by replace (Z.to_nat n) with 0%nat by lia. Qed.

(** The arguments of the first call, whatever the quotient is. *)
Lemma first_consumer_args num_days num_consumers consumers_split_num_days :
  0 < num_consumers ->
  exists days split,
    consumer_args num_days num_consumers consumers_split_num_days 0
    = Ok (mkCollectionTask 0 days split num_days).
Proof.
  intros Hn. unfold consumer_args.
  assert (Z.min 0 (num_days mod num_consumers) = 0) as ->.
  { pose proof (Z.mod_pos_bound num_days num_consumers Hn). lia. }
  change (float_mul_int consumers_split_num_days 0)
    with (Ok (PrimFloat.mul consumers_split_num_days 0) : Res float).
  cbv beta iota delta [mbind res_bind].
  change (float_add_int (PrimFloat.mul consumers_split_num_days 0) 0)
    with (Ok (PrimFloat.add (PrimFloat.mul consumers_split_num_days 0) 0) : Res float).
  cbv beta iota.
  destruct (num_days mod num_consumers >? 0).
  - change (float_add_int consumers_split_num_days 1)
      with (Ok (PrimFloat.add consumers_split_num_days 1) : Res float). eauto.
  - change (float_add_int consumers_split_num_days 0)
      with (Ok (PrimFloat.add consumers_split_num_days 0) : Res float). eauto.
Qed.

Lemma true_div_raise a b x :
  true_div a b = Raise x ->
  (b = 0 /\ x = ZeroDivisionError) \/ (b <> 0 /\ x = OverflowError).
Proof.
  unfold true_div. destruct (b =? 0) eqn:E.
  - apply Z.eqb_eq in E. intros [= <-]. by left.
  - apply Z.eqb_neq in E. destruct (PrimFloat.is_finite _); [done|].
    intros [= <-]. by right.
Qed.

(** A finite float is a zero or a number. *)
Lemma finite_cases x :
  PrimFloat.is_finite x = true ->
  (exists s, Prim2SF x = S754_zero s) \/ (exists s m e, Prim2SF x = S754_finite s m e).
Proof.
  unfold PrimFloat.is_finite, PrimFloat.is_nan, PrimFloat.is_infinity.
  rewrite !FloatAxioms.eqb_spec, abs_spec.
  destruct (Prim2SF x) as [s|s| |s m e]; simpl; try discriminate; eauto.
  destruct s; vm_compute; discriminate.
Qed.

Lemma finite_mul_zero x :
  PrimFloat.is_finite x = true -> PrimFloat.add (PrimFloat.mul x 0) 0 = 0%float.
Proof.
  intros H. apply Prim2SF_inj. rewrite add_spec, mul_spec.
  destruct (finite_cases x H) as [(s & ->)|(s & m & e & ->)]; destruct s; reflexivity.
Qed.

Lemma zero_mul_finite y :
  PrimFloat.is_finite y = true -> PrimFloat.add (PrimFloat.mul 0 y) 0 = 0%float.
Proof.
  intros H. apply Prim2SF_inj. rewrite add_spec, mul_spec.
  destruct (finite_cases y H) as [(s & ->)|(s & m & e & ->)]; destruct s; reflexivity.
Qed.

Lemma float_of_int_finite z f : float_of_int z = Ok f -> PrimFloat.is_finite f = true.
Proof.
  unfold float_of_int. destruct (PrimFloat.is_finite _) eqn:E; [|done]. by intros [= <-].
Qed.

Lemma true_div_finite a b f : true_div a b = Ok f -> PrimFloat.is_finite f = true.
Proof.
  unfold true_div. destruct (b =? 0); [done|].
  destruct (PrimFloat.is_finite _) eqn:E; [|done]. by intros [= <-].
Qed.

Lemma true_div_zero n : 0 < n -> true_div 0 n = Ok 0%float.
Proof.
  intros Hn. unfold true_div. destruct (n =? 0) eqn:E; [apply Z.eqb_eq in E; lia|].
  replace (n <? 0) with false by (symmetry; apply Z.ltb_ge; lia).
  change (Z.abs 0) with 0. rewrite Z.mul_0_l, Z.div_0_l, Z.mod_0_l by lia.
  reflexivity.
Qed.

(** The offset of the first consumer is zero, and so is every offset when
    [num_days] is 0: line 44 never subtracts anything from the start
    date. *)
Lemma consumer_offset_zero num_days num_consumers consumers_split_num_days consumer_id args :
  0 < num_consumers -> 0 <= consumer_id ->
  true_div num_days num_consumers = Ok consumers_split_num_days ->
  consumer_id = 0 \/ num_days = 0 ->
  consumer_args num_days num_consumers consumers_split_num_days consumer_id = Ok args ->
  start_offset_days args = 0%float.
Proof.
  intros Hn Hid Hdiv Hcase. unfold consumer_args, float_mul_int, float_add_int.
  assert (Z.min consumer_id (num_days mod num_consumers) = 0) as ->.
  { destruct Hcase as [->| ->].
    - pose proof (Z.mod_pos_bound num_days num_consumers Hn). lia.
    - rewrite Z.mod_0_l by lia. lia. }
  destruct (float_of_int consumer_id) as [y|] eqn:Hy; [|done].
  change (float_of_int 0) with (Ok 0%float : Res float).
  cbv beta iota delta [mbind res_bind].
  destruct (float_of_int (if _ >? consumer_id then 1 else 0)) as [one|]; [|done].
  intros [= <-]. simpl.
  destruct Hcase as [->| ->].
  - injection Hy as <-. apply finite_mul_zero. by eapply true_div_finite.
  - rewrite (true_div_zero _ Hn) in Hdiv. injection Hdiv as <-.
    apply zero_mul_finite. by eapply float_of_int_finite.
Qed.

(** X21. [publish] sends nothing for any number of days other than zero.
    With a positive number of consumers it raises: [TypeError] in the
    first [GitHubStatsData(...)] call, whenever the quotient
    [num_days / num_consumers] fits a float, and [OverflowError] from the
    division otherwise. With zero consumers the division raises
    [ZeroDivisionError]; with a negative number the loop is empty, and the
    call returns unless the division has raised [OverflowError]. *)
Theorem publish_sends_nothing num_days num_consumers :
  num_days <> 0 ->
  snd (publish num_days num_consumers) = []
  /\ (0 < num_consumers ->
        (forall consumers_split_num_days,
           true_div num_days num_consumers = Ok consumers_split_num_days ->
           publish num_days num_consumers = (Raise TypeError, []))
        /\ (publish num_days num_consumers = (Raise TypeError, [])
            \/ publish num_days num_consumers = (Raise OverflowError, [])))
  /\ (num_consumers = 0 -> publish num_days num_consumers = (Raise ZeroDivisionError, []))
  /\ (num_consumers < 0 ->
        publish num_days num_consumers = (Ok tt, [])
        \/ publish num_days num_consumers = (Raise OverflowError, [])).
Proof.
  intros Hd.
  assert (0 < num_consumers -> forall f, true_div num_days num_consumers = Ok f ->
          publish num_days num_consumers = (Raise TypeError, [])) as Hpos.
  { intros Hn f Hf. unfold publish. rewrite Hf.
    destruct (range_positive _ Hn) as (rest & ->). simpl.
    destruct (first_consumer_args num_days num_consumers f Hn) as (days & split & ->).
    simpl. unfold new_GitHubStatsData. simpl.
    destruct (num_days =? 0) eqn:E; [apply Z.eqb_eq in E; done|done]. }
  assert (num_consumers <= 0 -> forall f, true_div num_days num_consumers = Ok f ->
          publish num_days num_consumers = (Ok tt, [])) as Hneg.
  { intros Hn f Hf. unfold publish. by rewrite Hf, range_not_positive. }
  destruct (true_div num_days num_consumers) as [f|x] eqn:Hdiv.
  - assert (num_consumers <> 0) as Hne.
    { intros ->. unfold true_div in Hdiv. done. }
    split; [|split; [|split]].
    + destruct (Z_lt_le_dec 0 num_consumers) as [Hn|Hn].
      * by rewrite (Hpos Hn f).
      * by rewrite (Hneg Hn f).
    + intros Hn. split; [intros ? _; by apply (Hpos Hn f)|left; by apply (Hpos Hn f)].
    + done.
    + intros Hn. left. apply (Hneg ltac:(lia) f eq_refl).
  - assert (publish num_days num_consumers = (Raise x, [])) as Hrun.
    { unfold publish. by rewrite Hdiv. }
    rewrite Hrun. apply true_div_raise in Hdiv as [[-> ->]|[Hne ->]].
    + split; [done|]. split; [lia|]. split; [done|lia].
    + split; [done|]. split; [|split; [done|by right]].
      intros _. split; [done|by right].
Qed.

Lemma publish_sends_nothing_witness :
  snd (publish 17 5) = []
  /\ (0 < 5 ->
        (forall consumers_split_num_days,
           true_div 17 5 = Ok consumers_split_num_days ->
           publish 17 5 = (Raise TypeError, []))
        /\ (publish 17 5 = (Raise TypeError, []) \/ publish 17 5 = (Raise OverflowError, [])))
  /\ (5 = 0 -> publish 17 5 = (Raise ZeroDivisionError, []))
  /\ (5 < 0 -> publish 17 5 = (Ok tt, []) \/ publish 17 5 = (Raise OverflowError, [])).
Proof. apply (publish_sends_nothing 17 5). lia. Defined.

End PublishFacts.
